(** * Milestone workflow and exam-slot distribution: a shallow embedding

    The request handlers of the milestone-chain, student-progress and
    exam-schedule controllers are embedded as state-passing functions over
    an explicit document store.  An [await]ed model call is a step of a
    small state-and-exit monad; [return res.status(..).json(..)] leaves the
    handler early, a thrown exception reaches the handler's [catch] block,
    and in both cases the writes performed before the exit stay in the
    store, exactly as in the source.

    Conventions
    - an [ObjectId] is the string that [toString()] yields;
    - a [Date] is a number of milliseconds since the epoch, and every
      [new Date()] of one request reads the same clock value [now];
    - numbers are integers, with [NaN] where JavaScript produces it
      (arithmetic on [undefined]); a request field that may be absent is an
      [option];
    - socket notifications are fire-and-forget and never feed back into
      the store, so only the expressions they evaluate are modelled. *)

From Stdlib Require Import ZArith Lia Ascii String.
From stdpp Require Import base list strings pretty.

Open Scope Z_scope.

(** ** JavaScript primitives used by the controllers *)

Module Js.

(** A JavaScript number, restricted to the integers plus [NaN]. *)
Inductive num : Type :=
| Int (z : Z)
| NaN.

(** [ToNumber] on a request field: [undefined] becomes [NaN]. *)
Definition toNumber (v : option Z) : num :=
  match v with
  | Some z => Int z
  | None => NaN
  end.

Definition add (a b : num) : num :=
  match a, b with
  | Int x, Int y => Int (x + y)
  | _, _ => NaN
  end.

Definition sub (a b : num) : num :=
  match a, b with
  | Int x, Int y => Int (x - y)
  | _, _ => NaN
  end.

Definition mul (a b : num) : num :=
  match a, b with
  | Int x, Int y => Int (x * y)
  | _, _ => NaN
  end.

(** [a > b]: every comparison with [NaN] is false. *)
Definition gt (a b : num) : bool :=
  match a, b with
  | Int x, Int y => y <? x
  | _, _ => false
  end.

(** [a < b] *)
Definition lt (a b : num) : bool :=
  match a, b with
  | Int x, Int y => x <? y
  | _, _ => false
  end.

(** [a >= b] *)
Definition ge (a b : num) : bool :=
  match a, b with
  | Int x, Int y => y <=? x
  | _, _ => false
  end.

(** [Math.floor(t / d)] and [t % d] for a non-zero literal [d]: the
    quotient is floored, the remainder takes the sign of the dividend. *)
Definition floorDiv (t : num) (d : Z) : num :=
  match t with
  | Int x => Int (x / d)
  | NaN => NaN
  end.

Definition remainder (t : num) (d : Z) : num :=
  match t with
  | Int x => Int (Z.rem x d)
  | NaN => NaN
  end.

(** [String(n)], also what a template literal interpolates. *)
Definition toString (n : num) : string :=
  match n with
  | Int z => pretty z
  | NaN => "NaN"
  end.

(** [s.padStart(n, c)] for a one-character pad [c]. *)
Definition padStart (n : nat) (c : ascii) (s : string) : string :=
  Nat.iter (n - String.length s) (String c) s.

(** [s.trim()], for the ASCII white space (tab, line feed, vertical tab,
    form feed, carriage return, space). *)
Definition isSpace (c : ascii) : bool :=
  let n := nat_of_ascii c in
  ((9 <=? n) && (n <=? 13))%nat || (n =? 32)%nat.

Fixpoint trimStart (s : string) : string :=
  match s with
  | String c rest => if isSpace c then trimStart rest else s
  | EmptyString => EmptyString
  end.

Definition trim (s : string) : string :=
  String.rev (trimStart (String.rev (trimStart s))).

(** [s.split(sep)] for a one-character separator. *)
Fixpoint splitAcc (sep : ascii) (cur : string) (s : string) : list string :=
  match s with
  | EmptyString => [String.rev cur]
  | String c rest =>
      if Ascii.eqb c sep
      then String.rev cur :: splitAcc sep EmptyString rest
      else splitAcc sep (String c cur) rest
  end.

Definition split (sep : ascii) (s : string) : list string :=
  splitAcc sep EmptyString s.

Definition digitValue (c : ascii) : option Z :=
  let n := Z.of_nat (nat_of_ascii c) in
  if (48 <=? n) && (n <=? 57) then Some (n - 48) else None.

Fixpoint digitsValue (acc : Z) (s : string) : option Z :=
  match s with
  | EmptyString => Some acc
  | String c rest =>
      match digitValue c with
      | Some d => digitsValue (10 * acc + d) rest
      | None => None
      end
  end.

(** [Number(s)] on the numeric literals the controllers meet: the empty
    string is [0], an optionally signed run of decimal digits is its
    value, and anything else is read as [NaN] (fractions, exponents,
    radix prefixes and surrounding blanks are outside this model). *)
Definition Number (s : string) : num :=
  match s with
  | EmptyString => Int 0
  | String "-" (String c rest) =>
      match digitsValue 0 (String c rest) with
      | Some v => Int (- v)
      | None => NaN
      end
  | String "+" (String c rest) =>
      match digitsValue 0 (String c rest) with
      | Some v => Int v
      | None => NaN
      end
  | _ =>
      match digitsValue 0 s with
      | Some v => Int v
      | None => NaN
      end
  end.

(** [const [h, m] = s.split(':').map(Number)]: a missing component is
    [undefined]. *)
Definition hourMinute (s : string) : option num * option num :=
  let parts := Number <$> split ":" s in
  (parts !! 0%nat, parts !! 1%nat).

(** An [undefined] operand of an arithmetic operator. *)
Definition operand (v : option num) : num :=
  match v with
  | Some n => n
  | None => NaN
  end.

(** [`${String(h).padStart(2, '0')}:${String(m).padStart(2, '0')}`] *)
Definition clockString (h m : num) : string :=
  padStart 2 "0" (toString h) +:+ ":" +:+ padStart 2 "0" (toString m).

End Js.

(** ** The document store *)

Definition ObjectId : Type := string.
Definition Date : Type := Z.

(** One calendar day in milliseconds. *)
Definition dayMs : Z := 86400000.

(** Exceptions that reach a handler's [catch] block. *)
Inductive Exception : Type :=
| ReferenceError (what : string)
| TypeError (what : string)
| ValidationError (path : string)
| DuplicateKey (index : string).

(** Every model document carries its [_id]. *)
Class Document (A : Type) := docId : A -> ObjectId.

Section Collection.
Context {A : Type} `{Document A}.

(** A collection in natural (insertion) order. *)
Definition hasId (id : ObjectId) (d : A) : bool := String.eqb (docId d) id.

Definition findById (id : ObjectId) (c : list A) : option A :=
  List.find (hasId id) c.

Definition findOne (q : A -> bool) (c : list A) : option A := List.find q c.

Definition findAll (q : A -> bool) (c : list A) : list A := List.filter q c.

(** [doc.save()] of a document loaded from the collection. *)
Definition saveDoc (d : A) (c : list A) : list A :=
  (fun x => if hasId (docId d) x then d else x) <$> c.

(** [Model.updateMany(query, update)] *)
Definition updateMany (q : A -> bool) (f : A -> A) (c : list A) : list A :=
  (fun x => if q x then f x else x) <$> c.

(** Insertion under the unique [_id] index. *)
Definition insertDoc (d : A) (c : list A) : Exception + list A :=
  match findById (docId d) c with
  | Some _ => inl (DuplicateKey "_id")
  | None => inr (c ++ [d])
  end.
End Collection.

(** [array.findIndex(p)], with [None] for [-1]. *)
Fixpoint findIndex {A} (p : A -> bool) (l : list A) : option nat :=
  match l with
  | [] => None
  | x :: rest => if p x then Some 0%nat else S <$> findIndex p rest
  end.

(** The JSON envelope [{success, message, error?, ...payload}] with its
    HTTP status. *)
Record Response (B : Type) : Type := mkResponse {
  code : Z;
  success : bool;
  message : string;
  error : option Exception;
  body : option B
}.
Arguments mkResponse {B}.
Arguments code {B}.
Arguments success {B}.
Arguments message {B}.
Arguments error {B}.
Arguments body {B}.

Definition reject {B} (c : Z) (msg : string) : Response B :=
  mkResponse c false msg None None.

Definition respond {B} (c : Z) (msg : string) (b : B) : Response B :=
  mkResponse c true msg None (Some b).

Definition serverError {B} (msg : string) (e : Exception) : Response B :=
  mkResponse 500 false msg (Some e) None.

(** ** Handlers as state-passing computations *)

Module Handler.

(** How a step of a [try] block ends: it yields a value, the handler
    returns a response early, or an exception is thrown. *)
Inductive Outcome (R A : Type) : Type :=
| Next (a : A)
| Return (r : R)
| Throw (e : Exception).
Arguments Next {R A}.
Arguments Return {R A}.
Arguments Throw {R A}.

Definition Act (S R A : Type) : Type := S -> S * Outcome R A.

Definition ret {S R A} (a : A) : Act S R A := fun s => (s, Next a).

Definition bind {S R A B} (m : Act S R A) (k : A -> Act S R B) : Act S R B :=
  fun s =>
    match m s with
    | (s', Next a) => k a s'
    | (s', Return r) => (s', Return r)
    | (s', Throw e) => (s', Throw e)
    end.

Definition exit {S R A} (r : R) : Act S R A := fun s => (s, Return r).
Definition throw {S R A} (e : Exception) : Act S R A := fun s => (s, Throw e).
Definition lift {S R A} (x : Exception + A) : Act S R A :=
  match x with
  | inl e => throw e
  | inr a => ret a
  end.

(** [try { ... } catch (error) { res.status(500).json(...) }] *)
Definition tryCatch {S R} (block : Act S R R) (handle : Exception -> R)
  : S -> S * R :=
  fun s =>
    match block s with
    | (s', Next r) => (s', r)
    | (s', Return r) => (s', r)
    | (s', Throw e) => (s', handle e)
    end.

End Handler.

Declare Scope handler_scope.
Delimit Scope handler_scope with handler.
Notation "x <- m ;; k" := (Handler.bind m (fun x => k))
  (at level 100, m at next level, right associativity) : handler_scope.
Notation "m ;; k" := (Handler.bind m (fun _ => k))
  (at level 100, right associativity) : handler_scope.

(** ** Data model *)

(** *** MilestoneChain *)

Inductive ChainStatus : Type := ChainEditing | ChainPublished | ChainArchived.

Record Editor : Type := mkEditor {
  editor_user : ObjectId;
  editor_lastEditedAt : Date
}.

Record Chain : Type := mkChain {
  chain_id : ObjectId;
  chain_name : string;
  chain_status : ChainStatus;
  chain_publishedBy : option ObjectId;
  chain_publishedAt : option Date;
  chain_editors : list Editor;
  chain_totalMilestones : Z;
  chain_publishedMilestones : Z
}.

#[export] Instance chain_document : Document Chain := chain_id.

(** *** Milestone *)

Inductive MilestoneType : Type :=
| Assignment | Quiz | Exam | Project | Task | Other.

Inductive MilestoneStatus : Type := MilestoneDraft | MilestonePublished.

Inductive QuestionType : Type :=
| MultipleChoice | TrueFalse | ShortAnswer | Essay.

Record Question : Type := mkQuestion {
  question_id : ObjectId;
  question_type : QuestionType;
  question_correctAnswer : option string;
  question_points : Z
}.

Record Milestone : Type := mkMilestone {
  milestone_id : ObjectId;
  milestone_chainId : ObjectId;
  milestone_name : string;
  milestone_description : string;
  milestone_type : MilestoneType;
  milestone_startDate : Date;
  milestone_endDate : Date;
  milestone_order : Z;
  milestone_status : MilestoneStatus;
  milestone_questions : list Question;
  milestone_duration : option Z;
  milestone_passingScore : option Z;
  milestone_createdBy : ObjectId;
  milestone_lastEditedBy : option ObjectId;
  milestone_publishedBy : option ObjectId;
  milestone_publishedAt : option Date
}.

#[export] Instance milestone_document : Document Milestone := milestone_id.

(** The fields of [req.body] that [createMilestone] and [updateMilestone]
    read; each may be absent. *)
Record MilestoneFields : Type := mkMilestoneFields {
  field_name : option string;
  field_description : option string;
  field_type : option string;
  field_startDate : option Date;
  field_endDate : option Date;
  field_order : option Z;
  field_questions : option (list Question);
  field_duration : option Z;
  field_passingScore : option Z
}.

(** *** StudentMilestone *)

Inductive ProgressStatus : Type :=
| NotStarted | InProgress | Submitted | Completed | Failed.

Record UploadedFile : Type := mkUploadedFile {
  uploaded_filename : string;
  uploaded_url : string;
  uploaded_size : Z;
  uploaded_at : Date
}.

Record Submission : Type := mkSubmission {
  submission_files : list UploadedFile;
  submission_text : option string;
  submission_submittedAt : Date
}.

Record GradedAnswer : Type := mkGradedAnswer {
  graded_questionId : ObjectId;
  graded_answer : option string;
  graded_isCorrect : bool;
  graded_points : Z
}.

(** [(score / maxScore) * 100], kept as the two operands it is computed
    from: the double-precision quotient is not evaluated. *)
Inductive Percentage : Type :=
| PercentOf (score maxScore : Js.num).

Record StudentMilestone : Type := mkStudentMilestone {
  sm_id : ObjectId;
  sm_student : ObjectId;
  sm_milestone : ObjectId;
  sm_chainId : ObjectId;
  sm_status : ProgressStatus;
  sm_submissions : list Submission;
  sm_answers : list GradedAnswer;
  sm_quizStartedAt : option Date;
  sm_quizSubmittedAt : option Date;
  sm_score : option Z;
  sm_maxScore : option Z;
  sm_percentage : option Percentage;
  sm_grade : option string;
  sm_feedback : option string;
  sm_gradedBy : option ObjectId;
  sm_gradedAt : option Date;
  sm_autoGradedScore : option Z;
  sm_autoGradedPercentage : option Percentage;
  sm_startedAt : option Date;
  sm_completedAt : option Date;
  sm_attempts : Z
}.

#[export] Instance student_milestone_document : Document StudentMilestone := sm_id.

(** *** Users and teams *)

Record User : Type := mkUser {
  user_id : ObjectId;
  user_role : string;
  user_approvalStatus : option string
}.

#[export] Instance user_document : Document User := user_id.

Record Team : Type := mkTeam {
  team_id : ObjectId
}.

#[export] Instance team_document : Document Team := team_id.

(** *** ExamSchedule *)

Inductive ScheduleStatus : Type :=
| ScheduleDraft | ScheduleActive | ScheduleCompleted | ScheduleCancelled.

Inductive AssignmentType : Type := RandomAssignment | ManualAssignment.

Inductive SlotMode : Type := Online | Offline.

Inductive SlotStatus : Type :=
| SlotScheduled | SlotCompleted | SlotCancelled | SlotRescheduled.

(** A sub-document of [slots], with the paths that the controllers set.
    The [_id] that Mongoose gives every pushed sub-document and the
    [createdAt] and [updatedAt] of the schedule are left out: two saves of
    the same content are told apart by them, and no statement below is
    about the identity of a saved sub-document. *)
Record Slot : Type := mkSlot {
  slot_mentor : ObjectId;
  slot_team : option ObjectId;
  slot_scheduledDate : Date;
  slot_scheduledTime : string;
  slot_duration : Z;
  slot_venue : option string;
  slot_meetLink : option string;
  slot_mode : SlotMode;
  slot_status : SlotStatus
}.

Record Statistics : Type := mkStatistics {
  stat_totalSlots : Z;
  stat_scheduledSlots : Z;
  stat_completedSlots : Z;
  stat_pendingSlots : Z
}.

(** The paths of [examScheduleSchema] that the controllers read or write;
    the schema is strict and declares no other array of sub-documents than
    [slots]. *)
Record ExamSchedule : Type := mkExamSchedule {
  exam_id : ObjectId;
  exam_startDate : Date;
  exam_endDate : Date;
  exam_duration : Z;
  exam_status : ScheduleStatus;
  exam_assignmentType : AssignmentType;
  exam_slots : list Slot;
  exam_statistics : Statistics
}.

#[export] Instance exam_schedule_document : Document ExamSchedule := exam_id.

(** *** The store *)

Record DB : Type := mkDB {
  chains : list Chain;
  milestones : list Milestone;
  studentMilestones : list StudentMilestone;
  users : list User;
  teams : list Team;
  examSchedules : list ExamSchedule
}.

(** What a request brings besides its parameters and body: the
    authenticated user, the clock, and the [ObjectId] the driver generates
    for a document created by the request. *)
Record Request : Type := mkRequest {
  req_user : ObjectId;
  req_now : Date;
  req_newId : ObjectId
}.

Definition Act (R A : Type) : Type := Handler.Act DB R A.

Definition set_chains (v : list Chain) (db : DB) : DB :=
  mkDB v (milestones db) (studentMilestones db) (users db) (teams db)
       (examSchedules db).

Definition set_milestones (v : list Milestone) (db : DB) : DB :=
  mkDB (chains db) v (studentMilestones db) (users db) (teams db)
       (examSchedules db).

Definition set_studentMilestones (v : list StudentMilestone) (db : DB) : DB :=
  mkDB (chains db) (milestones db) v (users db) (teams db) (examSchedules db).

Definition set_examSchedules (v : list ExamSchedule) (db : DB) : DB :=
  mkDB (chains db) (milestones db) (studentMilestones db) (users db)
       (teams db) v.

(** [await Model.query(...)]: a read of one collection. *)
Definition query {R A} (read : DB -> A) : Act R A :=
  fun db => (db, Handler.Next (read db)).

(** A write to one collection. *)
Definition write {R} (upd : DB -> DB) : Act R unit :=
  fun db => (upd db, Handler.Next tt).

(** A write that the store may refuse. *)
Definition writeChecked {R A} (read : DB -> list A)
    (store : list A -> DB -> DB) (ins : list A -> Exception + list A)
  : Act R unit :=
  fun db =>
    match ins (read db) with
    | inl e => (db, Handler.Throw e)
    | inr c => (store c db, Handler.Next tt)
    end.

Local Open Scope handler_scope.

(** ** Milestone chains and milestones *)

Module Chains.

Definition set_status (s : ChainStatus) (c : Chain) : Chain :=
  mkChain (chain_id c) (chain_name c) s (chain_publishedBy c)
          (chain_publishedAt c) (chain_editors c) (chain_totalMilestones c)
          (chain_publishedMilestones c).

Definition set_published (by_ : option ObjectId) (at_ : option Date)
    (c : Chain) : Chain :=
  mkChain (chain_id c) (chain_name c) (chain_status c) by_ at_
          (chain_editors c) (chain_totalMilestones c)
          (chain_publishedMilestones c).

Definition set_editors (e : list Editor) (c : Chain) : Chain :=
  mkChain (chain_id c) (chain_name c) (chain_status c) (chain_publishedBy c)
          (chain_publishedAt c) e (chain_totalMilestones c)
          (chain_publishedMilestones c).

Definition set_totalMilestones (n : Z) (c : Chain) : Chain :=
  mkChain (chain_id c) (chain_name c) (chain_status c) (chain_publishedBy c)
          (chain_publishedAt c) (chain_editors c) n
          (chain_publishedMilestones c).

Definition set_publishedMilestones (n : Z) (c : Chain) : Chain :=
  mkChain (chain_id c) (chain_name c) (chain_status c) (chain_publishedBy c)
          (chain_publishedAt c) (chain_editors c) (chain_totalMilestones c)
          n.

Definition isPublished (c : Chain) : bool :=
  match chain_status c with
  | ChainPublished => true
  | _ => false
  end.

Definition inChain (chainId : ObjectId) (m : Milestone) : bool :=
  String.eqb (milestone_chainId m) chainId.

Definition publishMilestone (by_ : ObjectId) (at_ : Date) (m : Milestone)
  : Milestone :=
  mkMilestone (milestone_id m) (milestone_chainId m) (milestone_name m)
    (milestone_description m) (milestone_type m) (milestone_startDate m)
    (milestone_endDate m) (milestone_order m) MilestonePublished
    (milestone_questions m) (milestone_duration m)
    (milestone_passingScore m) (milestone_createdBy m)
    (milestone_lastEditedBy m) (Some by_) (Some at_).

(** The editor-tracking block shared by [createMilestone] and
    [updateMilestone]: stamp the caller's entry, or push a new one. *)
Definition trackEditor (user : ObjectId) (now : Date) (c : Chain) : Chain :=
  match findIndex (fun e => String.eqb (editor_user e) user)
                  (chain_editors c) with
  | Some i =>
      set_editors
        (alter (fun e => mkEditor (editor_user e) now) i (chain_editors c)) c
  | None => set_editors (chain_editors c ++ [mkEditor user now]) c
  end.

(** [exports.publishChain] *)
Definition publishChain (req : Request) (chainId : ObjectId)
  : DB -> DB * Response Chain :=
  Handler.tryCatch
    (chain <- query (fun db => findById chainId (chains db)) ;;
     match chain with
     | None => Handler.exit (reject 404 "Chain not found")
     | Some chain =>
         if isPublished chain
         then Handler.exit (reject 400 "Chain is already published")
         else
           found <- query (fun db => findAll (inChain chainId) (milestones db)) ;;
           if (length found =? 0)%nat
           then Handler.exit
                  (reject 400
                     "Cannot publish empty chain. Please add milestones first.")
           else
             let chain :=
               set_publishedMilestones (Z.of_nat (length found))
                 (set_published (Some (req_user req)) (Some (req_now req))
                    (set_status ChainPublished chain)) in
             write (fun db => set_chains (saveDoc chain (chains db)) db) ;;
             write (fun db =>
                      set_milestones
                        (updateMany (inChain chainId)
                           (publishMilestone (req_user req) (req_now req))
                           (milestones db)) db) ;;
             Handler.ret
               (respond 200 "Milestone chain published successfully" chain)
     end)
    (serverError "Failed to publish chain").

End Chains.

Module Milestones.

Definition parseType (s : string) : option MilestoneType :=
  if String.eqb s "assignment" then Some Assignment
  else if String.eqb s "quiz" then Some Quiz
  else if String.eqb s "exam" then Some Exam
  else if String.eqb s "project" then Some Project
  else if String.eqb s "task" then Some Task
  else if String.eqb s "other" then Some Other
  else None.

Definition required {A} (path : string) (v : option A) : Exception + A :=
  match v with
  | Some a => inr a
  | None => inl (ValidationError path)
  end.

(** A required [String] path: the empty string does not satisfy it. *)
Definition requiredString (path : string) (v : option string)
  : Exception + string :=
  match v with
  | Some (String c rest) => inr (String c rest)
  | _ => inl (ValidationError path)
  end.

Definition andThen {A B} (x : Exception + A) (k : A -> Exception + B)
  : Exception + B :=
  match x with
  | inl e => inl e
  | inr a => k a
  end.

(** Schema validation of a new milestone: the required paths (the name
    is trimmed first) and the [type] enumeration; [questions] defaults to
    the empty array and the status is the ['draft'] the controller
    passes. *)
Definition newMilestone (id chainId createdBy : ObjectId)
    (f : MilestoneFields) : Exception + Milestone :=
  andThen (requiredString "name" (Js.trim <$> field_name f)) (fun name =>
  andThen (requiredString "description" (field_description f)) (fun descr =>
  andThen (required "type" (field_type f)) (fun ty =>
  andThen (required "type" (parseType ty)) (fun ty =>
  andThen (required "startDate" (field_startDate f)) (fun startDate =>
  andThen (required "endDate" (field_endDate f)) (fun endDate =>
  andThen (required "order" (field_order f)) (fun order =>
  inr (mkMilestone id chainId name descr ty startDate endDate order
         MilestoneDraft (default [] (field_questions f)) (field_duration f)
         (field_passingScore f) createdBy None None None)))))))).

(** [Milestone.create({...})] *)
Definition create {R} (id chainId createdBy : ObjectId)
    (f : MilestoneFields) : Act R Milestone :=
  m <- Handler.lift (newMilestone id chainId createdBy f) ;;
  writeChecked milestones set_milestones (insertDoc m) ;;
  Handler.ret m.

(** [Object.assign(milestone, updates); milestone.lastEditedBy = user],
    followed by the validation that [save()] runs. *)
Definition assign (user : ObjectId) (f : MilestoneFields) (m : Milestone)
  : Exception + Milestone :=
  andThen
    (match field_name f with
     | None => inr (milestone_name m)
     | Some name => requiredString "name" (Some (Js.trim name))
     end) (fun name =>
  andThen
    (match field_description f with
     | None => inr (milestone_description m)
     | Some descr => requiredString "description" (Some descr)
     end) (fun descr =>
  andThen
    (match field_type f with
     | None => inr (milestone_type m)
     | Some ty => required "type" (parseType ty)
     end) (fun ty =>
  inr (mkMilestone (milestone_id m) (milestone_chainId m)
         name
         descr
         ty
         (default (milestone_startDate m) (field_startDate f))
         (default (milestone_endDate m) (field_endDate f))
         (default (milestone_order m) (field_order f))
         (milestone_status m)
         (default (milestone_questions m) (field_questions f))
         (match field_duration f with
          | Some d => Some d
          | None => milestone_duration m
          end)
         (match field_passingScore f with
          | Some p => Some p
          | None => milestone_passingScore m
          end)
         (milestone_createdBy m) (Some user) (milestone_publishedBy m)
         (milestone_publishedAt m))))).

Record Edited : Type := mkEdited {
  edited_milestone : Milestone;
  requiresRepublish : bool;
  chainStatus : ChainStatus
}.

Definition saveChain (c : Chain) : Act (Response Edited) unit :=
  write (fun db => set_chains (saveDoc c (chains db)) db).

(** [exports.createMilestone] *)
Definition createMilestone (req : Request) (chainId : ObjectId)
    (fields : MilestoneFields) : DB -> DB * Response Edited :=
  Handler.tryCatch
    (chain <- query (fun db => findById chainId (chains db)) ;;
     match chain with
     | None => Handler.exit (reject 404 "Milestone chain not found")
     | Some chain =>
         let wasPublished := Chains.isPublished chain in
         chain <- (if wasPublished
                   then
                     let chain := Chains.set_status ChainEditing chain in
                     saveChain chain ;; Handler.ret chain
                   else Handler.ret chain) ;;
         milestone <- create (req_newId req) chainId (req_user req) fields ;;
         let chain :=
           Chains.set_totalMilestones (chain_totalMilestones chain + 1) chain in
         saveChain chain ;;
         let chain := Chains.trackEditor (req_user req) (req_now req) chain in
         saveChain chain ;;
         Handler.ret
           (respond 201
              (if wasPublished
               then "Milestone created successfully. Chain has been unpublished - please republish to make changes visible to students."
               else "Milestone created successfully")
              (mkEdited milestone wasPublished (chain_status chain)))
     end)
    (serverError "Failed to create milestone").

(** Local midnight of the day that contains [t]. *)
Definition startOfDay (t : Date) : Date := t - t mod dayMs.

(** [exports.updateMilestone].  Inside the [if (wasPublished)] block the
    source declares [const startDate = new Date(startDate)]: the
    initialiser reads the binding it is declaring, which is still in its
    temporal dead zone, so evaluating it throws a ReferenceError. *)
Definition updateMilestone (req : Request) (milestoneId : ObjectId)
    (updates : MilestoneFields) : DB -> DB * Response Edited :=
  Handler.tryCatch
    (milestone <- query (fun db => findById milestoneId (milestones db)) ;;
     match milestone with
     | None => Handler.exit (reject 404 "Milestone not found")
     | Some milestone =>
         chain <- query (fun db =>
                    findById (milestone_chainId milestone) (chains db)) ;;
         chain <- (match chain with
                   | Some chain => Handler.ret chain
                   | None =>
                       Handler.throw
                         (TypeError "Cannot read properties of null (reading 'status')")
                   end) ;;
         let wasPublished := Chains.isPublished chain in
         (if wasPublished
          then
            startDate <- Handler.throw
                           (ReferenceError
                              "Cannot access 'startDate' before initialization") ;;
            let tomorrow := startOfDay (req_now req + dayMs) in
            if (startDate <? tomorrow)%Z
            then Handler.exit
                   (reject 400
                      "When adding milestones to a published chain, the start date must be at least 1 day after the current date.")
            else Handler.ret tt
          else Handler.ret tt) ;;
         milestone <- Handler.lift (assign (req_user req) updates milestone) ;;
         write (fun db =>
                  set_milestones (saveDoc milestone (milestones db)) db) ;;
         let chain :=
           if wasPublished
           then Chains.set_published None None
                  (Chains.set_status ChainEditing chain)
           else chain in
         let chain := Chains.trackEditor (req_user req) (req_now req) chain in
         saveChain chain ;;
         Handler.ret
           (respond 200
              (if wasPublished
               then "Milestone updated successfully. Chain has been unpublished - please republish to make changes visible to students."
               else "Milestone updated successfully")
              (mkEdited milestone wasPublished (chain_status chain)))
     end)
    (serverError "Failed to update milestone").

End Milestones.

(** ** Student progress *)

Module Progress.

(** The record as [StudentMilestone.create] stores it: the fields given,
    the schema defaults for the rest. *)
Definition newProgress (id student milestone chainId : ObjectId)
    (startedAt : Date) (attempts : Z) : StudentMilestone :=
  mkStudentMilestone id student milestone chainId InProgress [] [] None None
    None None None None None None None None None (Some startedAt) None
    attempts.

Definition set_status (s : ProgressStatus) (r : StudentMilestone)
  : StudentMilestone :=
  mkStudentMilestone (sm_id r) (sm_student r) (sm_milestone r) (sm_chainId r)
    s (sm_submissions r) (sm_answers r) (sm_quizStartedAt r)
    (sm_quizSubmittedAt r) (sm_score r) (sm_maxScore r) (sm_percentage r)
    (sm_grade r) (sm_feedback r) (sm_gradedBy r) (sm_gradedAt r)
    (sm_autoGradedScore r) (sm_autoGradedPercentage r) (sm_startedAt r)
    (sm_completedAt r) (sm_attempts r).

Definition set_quizStartedAt (t : Date) (r : StudentMilestone)
  : StudentMilestone :=
  mkStudentMilestone (sm_id r) (sm_student r) (sm_milestone r) (sm_chainId r)
    (sm_status r) (sm_submissions r) (sm_answers r) (Some t)
    (sm_quizSubmittedAt r) (sm_score r) (sm_maxScore r) (sm_percentage r)
    (sm_grade r) (sm_feedback r) (sm_gradedBy r) (sm_gradedAt r)
    (sm_autoGradedScore r) (sm_autoGradedPercentage r) (sm_startedAt r)
    (sm_completedAt r) (sm_attempts r).

Definition pushSubmission (s : Submission) (r : StudentMilestone)
  : StudentMilestone :=
  mkStudentMilestone (sm_id r) (sm_student r) (sm_milestone r) (sm_chainId r)
    (sm_status r) (sm_submissions r ++ [s]) (sm_answers r)
    (sm_quizStartedAt r) (sm_quizSubmittedAt r) (sm_score r) (sm_maxScore r)
    (sm_percentage r) (sm_grade r) (sm_feedback r) (sm_gradedBy r)
    (sm_gradedAt r) (sm_autoGradedScore r) (sm_autoGradedPercentage r)
    (sm_startedAt r) (sm_completedAt r) (sm_attempts r).

(** The assignments of [submitQuizAnswers] before its [save()]. *)
Definition recordQuiz (graded : list GradedAnswer) (now : Date)
    (totalScore maxScore : Z) (r : StudentMilestone) : StudentMilestone :=
  mkStudentMilestone (sm_id r) (sm_student r) (sm_milestone r) (sm_chainId r)
    Submitted (sm_submissions r) graded (sm_quizStartedAt r) (Some now)
    (Some totalScore) (Some maxScore)
    (Some (PercentOf (Js.Int totalScore) (Js.Int maxScore)))
    (sm_grade r) (sm_feedback r) (sm_gradedBy r) (sm_gradedAt r)
    (Some totalScore)
    (Some (PercentOf (Js.Int totalScore) (Js.Int maxScore)))
    (sm_startedAt r) (sm_completedAt r) (sm_attempts r).

(** The assignments of [gradeAssignment] before its [save()]. *)
Definition recordGrade (score maxScore : option Z)
    (grade feedback : option string) (grader : ObjectId) (now : Date)
    (r : StudentMilestone) : StudentMilestone :=
  mkStudentMilestone (sm_id r) (sm_student r) (sm_milestone r) (sm_chainId r)
    Completed (sm_submissions r) (sm_answers r) (sm_quizStartedAt r)
    (sm_quizSubmittedAt r) score maxScore
    (Some (PercentOf (Js.toNumber score) (Js.toNumber maxScore)))
    grade feedback (Some grader) (Some now) (sm_autoGradedScore r)
    (sm_autoGradedPercentage r) (sm_startedAt r) (Some now) (sm_attempts r).

(** The query [{ student, milestone }]. *)
Definition forPair (student milestone : ObjectId) (r : StudentMilestone)
  : bool :=
  String.eqb (sm_student r) student && String.eqb (sm_milestone r) milestone.

(** Insertion under the unique indexes on [_id] and on
    [{ student: 1, milestone: 1 }]. *)
Definition insertProgress (r : StudentMilestone) (c : list StudentMilestone)
  : Exception + list StudentMilestone :=
  match findOne (forPair (sm_student r) (sm_milestone r)) c with
  | Some _ => inl (DuplicateKey "student_1_milestone_1")
  | None => insertDoc r c
  end.

Definition create {R} (r : StudentMilestone) : Act R StudentMilestone :=
  writeChecked studentMilestones set_studentMilestones (insertProgress r) ;;
  Handler.ret r.

Definition save {R} (r : StudentMilestone) : Act R unit :=
  write (fun db =>
           set_studentMilestones (saveDoc r (studentMilestones db)) db).

(** [(score / maxScore) * 100] is [NaN] when an operand is, and for
    [0 / 0]; a non-zero score over zero is an infinity. *)
Definition isNaN (p : Percentage) : bool :=
  match p with
  | PercentOf (Js.Int score) (Js.Int maxScore) => (score =? 0) && (maxScore =? 0)
  | PercentOf _ _ => true
  end.

(** The validation that [save()] runs on a modified [Number] path: [NaN]
    fails the cast and the document is not written. *)
Definition numberPath (path : string) (p : option Percentage)
  : Exception + unit :=
  match p with
  | Some p => if isNaN p then inl (ValidationError path) else inr tt
  | None => inr tt
  end.

(** [save()] after [percentage] has been assigned. *)
Definition saveScored {R} (r : StudentMilestone) : Act R unit :=
  Handler.lift (numberPath "percentage" (sm_percentage r)) ;;
  save r.

Definition isPublished (m : Milestone) : bool :=
  match milestone_status m with
  | MilestonePublished => true
  | MilestoneDraft => false
  end.

Definition isTimed (m : Milestone) : bool :=
  match milestone_type m with
  | Quiz | Exam => true
  | _ => false
  end.

Definition isAssignment (m : Milestone) : bool :=
  match milestone_type m with
  | Assignment => true
  | _ => false
  end.

(** [exports.startMilestone] *)
Definition startMilestone (req : Request) (milestoneId : ObjectId)
  : DB -> DB * Response StudentMilestone :=
  Handler.tryCatch
    (milestone <- query (fun db => findById milestoneId (milestones db)) ;;
     match milestone with
     | None => Handler.exit (reject 404 "Milestone not found or not published")
     | Some milestone =>
         if negb (isPublished milestone)
         then Handler.exit (reject 404 "Milestone not found or not published")
         else
           existing <- query (fun db =>
                         findOne (forPair (req_user req) milestoneId)
                                 (studentMilestones db)) ;;
           match existing with
           | Some studentMilestone =>
               Handler.exit
                 (respond 200 "Milestone already started" studentMilestone)
           | None =>
               studentMilestone <-
                 create (newProgress (req_newId req) (req_user req)
                           milestoneId (milestone_chainId milestone)
                           (req_now req) 1) ;;
               studentMilestone <-
                 (if isTimed milestone
                  then
                    let studentMilestone :=
                      set_quizStartedAt (req_now req) studentMilestone in
                    save studentMilestone ;; Handler.ret studentMilestone
                  else Handler.ret studentMilestone) ;;
               Handler.ret
                 (respond 200 "Milestone started successfully"
                    studentMilestone)
           end
     end)
    (serverError "Failed to start milestone").

(** A multipart file as the upload middleware hands it over. *)
Record File : Type := mkFile {
  file_path : string;
  file_originalname : string;
  file_size : Z
}.

(** The upload loop.  The controller binds [cloudinary] to the module that
    ../config/cloudinary exports, an object with the properties [cloudinary]
    and [upload] and without [uploader]: for the first file
    [cloudinary.uploader.upload(...)] reads a property of [undefined] and
    throws.  With no file the loop is not entered. *)
Definition uploadAll (files : list File) : Exception + list UploadedFile :=
  match files with
  | [] => inr []
  | _ :: _ =>
      inl (TypeError "Cannot read properties of undefined (reading 'upload')")
  end.

(** [exports.submitAssignment] *)
Definition submitAssignment (req : Request)
    (milestoneId : ObjectId) (text : option string)
    (files : option (list File)) : DB -> DB * Response StudentMilestone :=
  Handler.tryCatch
    (milestone <- query (fun db => findById milestoneId (milestones db)) ;;
     match milestone with
     | None => Handler.exit (reject 400 "Invalid milestone type")
     | Some milestone =>
         if negb (isAssignment milestone)
         then Handler.exit (reject 400 "Invalid milestone type")
         else
           existing <- query (fun db =>
                         findOne (forPair (req_user req) milestoneId)
                                 (studentMilestones db)) ;;
           studentMilestone <-
             (match existing with
              | Some studentMilestone => Handler.ret studentMilestone
              | None =>
                  create (newProgress (req_newId req) (req_user req)
                            milestoneId (milestone_chainId milestone)
                            (req_now req) 0)
              end) ;;
           uploadedFiles <-
             Handler.lift (uploadAll (default [] files)) ;;
           let studentMilestone :=
             set_status Submitted
               (pushSubmission
                  (mkSubmission uploadedFiles text (req_now req))
                  studentMilestone) in
           save studentMilestone ;;
           Handler.ret
             (respond 200 "Assignment submitted successfully"
                studentMilestone)
     end)
    (serverError "Failed to submit assignment").

(** One entry of the [answers] array of a quiz submission. *)
Record Answer : Type := mkAnswer {
  answer_questionId : ObjectId;
  answer_answer : option string
}.

Definition isObjective (q : Question) : bool :=
  match question_type q with
  | MultipleChoice | TrueFalse => true
  | ShortAnswer | Essay => false
  end.

(** [answer.answer === question.correctAnswer] *)
Definition strictEq (a b : option string) : bool :=
  match a, b with
  | Some x, Some y => String.eqb x y
  | None, None => true
  | _, _ => false
  end.

(** The running totals of the auto-grading loop. *)
Record Tally : Type := mkTally {
  tally_totalScore : Z;
  tally_maxScore : Z;
  tally_graded : list GradedAnswer
}.

(** One iteration of [for (const answer of answers)]. *)
Definition gradeOne (questions : list Question) (t : Tally) (a : Answer)
  : Tally :=
  match List.find (fun q => String.eqb (question_id q) (answer_questionId a))
                  questions with
  | None => t
  | Some question =>
      let isCorrect :=
        isObjective question
        && strictEq (answer_answer a) (question_correctAnswer question) in
      let points := if isCorrect then question_points question else 0 in
      mkTally
        (if isObjective question
         then tally_totalScore t + points
         else tally_totalScore t)
        (tally_maxScore t + question_points question)
        (tally_graded t
           ++ [mkGradedAnswer (answer_questionId a) (answer_answer a)
                 isCorrect points])
  end.

Definition autoGrade (questions : list Question) (answers : list Answer)
  : Tally :=
  fold_left (gradeOne questions) answers (mkTally 0 0 []).

(** [(new Date() - new Date(quizStartedAt)) / (1000 * 60)], kept in
    milliseconds: an absent [quizStartedAt] makes an invalid date and the
    difference [NaN]. *)
Definition elapsedMs (now : Date) (quizStartedAt : option Date) : Js.num :=
  Js.sub (Js.Int now) (Js.toNumber quizStartedAt).

(** [timeElapsed > milestone.duration], with both sides scaled to
    milliseconds. *)
Definition exceeds (elapsed : Js.num) (duration : Z) : bool :=
  Js.gt elapsed (Js.Int (duration * 60000)).

(** [if (milestone.duration)]: the duration is present and not zero. *)
Definition truthy (duration : option Z) : option Z :=
  match duration with
  | Some d => if d =? 0 then None else Some d
  | None => None
  end.

Record Receipt : Type := mkReceipt {
  receipt_status : ProgressStatus;
  receipt_message : string
}.

(** [exports.submitQuizAnswers] *)
Definition submitQuizAnswers (req : Request) (milestoneId : ObjectId)
    (answers : option (list Answer)) : DB -> DB * Response Receipt :=
  Handler.tryCatch
    (milestone <- query (fun db => findById milestoneId (milestones db)) ;;
     match milestone with
     | None => Handler.exit (reject 400 "Invalid milestone type")
     | Some milestone =>
         if negb (isTimed milestone)
         then Handler.exit (reject 400 "Invalid milestone type")
         else
           existing <- query (fun db =>
                         findOne (forPair (req_user req) milestoneId)
                                 (studentMilestones db)) ;;
           match existing with
           | None => Handler.exit (reject 400 "Milestone not started")
           | Some studentMilestone =>
               (match truthy (milestone_duration milestone) with
                | Some duration =>
                    if exceeds (elapsedMs (req_now req)
                                  (sm_quizStartedAt studentMilestone))
                               duration
                    then
                      save (set_status Failed studentMilestone) ;;
                      Handler.exit (reject 400 "Time limit exceeded")
                    else Handler.ret tt
                | None => Handler.ret tt
                end) ;;
               answers <-
                 (match answers with
                  | Some answers => Handler.ret answers
                  | None => Handler.throw (TypeError "answers is not iterable")
                  end) ;;
               let tally := autoGrade (milestone_questions milestone) answers in
               saveScored
                 (recordQuiz (tally_graded tally) (req_now req)
                    (tally_totalScore tally) (tally_maxScore tally)
                    studentMilestone) ;;
               Handler.ret
                 (respond 200
                    ((match milestone_type milestone with
                      | Quiz => "Quiz"
                      | _ => "Exam"
                      end)
                     +:+ " submitted successfully. Your mentor will review it soon.")
                    (mkReceipt Submitted
                       "Your submission is being reviewed by your mentor"))
           end
     end)
    (serverError "Failed to submit quiz").

(** [exports.gradeAssignment].  The record is loaded with its [student]
    and [milestone] references populated; a reference whose target is
    gone populates to [null], and the notification built after the save
    dereferences both.  The save itself fails when the percentage is
    [NaN]. *)
Definition gradeAssignment (req : Request) (submissionId : ObjectId)
    (score maxScore : option Z) (grade feedback : option string)
  : DB -> DB * Response StudentMilestone :=
  Handler.tryCatch
    (found <- query (fun db => findById submissionId (studentMilestones db)) ;;
     match found with
     | None => Handler.exit (reject 404 "Submission not found")
     | Some studentMilestone =>
         student <- query (fun db =>
                      findById (sm_student studentMilestone) (users db)) ;;
         milestone <- query (fun db =>
                        findById (sm_milestone studentMilestone)
                                 (milestones db)) ;;
         let studentMilestone :=
           recordGrade score maxScore grade feedback (req_user req)
             (req_now req) studentMilestone in
         saveScored studentMilestone ;;
         (match student, milestone with
          | Some _, Some _ => Handler.ret tt
          | None, _ =>
              Handler.throw
                (TypeError "Cannot read properties of null (reading '_id')")
          | Some _, None =>
              Handler.throw
                (TypeError "Cannot read properties of null (reading 'name')")
          end) ;;
         Handler.ret
           (respond 200 "Assignment graded successfully" studentMilestone)
     end)
    (serverError "Failed to grade assignment").

End Progress.

(** ** Exam schedules *)

Module Schedules.

Definition set_slots (v : list Slot) (s : ExamSchedule) : ExamSchedule :=
  mkExamSchedule (exam_id s) (exam_startDate s) (exam_endDate s)
    (exam_duration s) (exam_status s) (exam_assignmentType s) v
    (exam_statistics s).

Definition set_assignmentType (v : AssignmentType) (s : ExamSchedule)
  : ExamSchedule :=
  mkExamSchedule (exam_id s) (exam_startDate s) (exam_endDate s)
    (exam_duration s) (exam_status s) v (exam_slots s) (exam_statistics s).

Definition set_status (v : ScheduleStatus) (s : ExamSchedule) : ExamSchedule :=
  mkExamSchedule (exam_id s) (exam_startDate s) (exam_endDate s)
    (exam_duration s) v (exam_assignmentType s) (exam_slots s)
    (exam_statistics s).

Definition set_statistics (v : Statistics) (s : ExamSchedule) : ExamSchedule :=
  mkExamSchedule (exam_id s) (exam_startDate s) (exam_endDate s)
    (exam_duration s) (exam_status s) (exam_assignmentType s) (exam_slots s)
    v.

Definition count {A} (p : A -> bool) (l : list A) : Z :=
  Z.of_nat (length (List.filter p l)).

(** The [pre('save')] hook: the statistics are recomputed from the slot
    list whenever it is not empty. *)
Definition preSave (s : ExamSchedule) : ExamSchedule :=
  match exam_slots s with
  | [] => s
  | slots =>
      set_statistics
        (mkStatistics
           (Z.of_nat (length slots))
           (count (fun x => match slot_status x with
                            | SlotScheduled => true
                            | _ => false
                            end) slots)
           (count (fun x => match slot_status x with
                            | SlotCompleted => true
                            | _ => false
                            end) slots)
           (count (fun x => match slot_team x with
                            | None => true
                            | Some _ => false
                            end) slots))
        s
  end.

Definition save {R} (s : ExamSchedule) : Act R ExamSchedule :=
  let s := preSave s in
  write (fun db => set_examSchedules (saveDoc s (examSchedules db)) db) ;;
  Handler.ret s.

(** The mentor query: role ['mentor'], approved or without an approval
    status. *)
Definition isMentor (u : User) : bool :=
  String.eqb (user_role u) "mentor"
  && match user_approvalStatus u with
     | Some st => String.eqb st "approved"
     | None => true
     end.

(** The loop variables of [randomDistributeTeams]. *)
Record Cursor : Type := mkCursor {
  cursor_date : Date;
  cursor_slotTime : string;
  cursor_mentorIndex : nat;
  cursor_slots : list Slot
}.

(** The end of one loop iteration: the next slot time, and whether the
    date moves to the next day. *)
Definition advance (slotTime : string) (duration : Z) : bool * string :=
  let '(hours, minutes) := Js.hourMinute slotTime in
  let totalMinutes :=
    Js.add (Js.add (Js.add (Js.mul (Js.operand hours) (Js.Int 60))
                           (Js.operand minutes))
                   (Js.Int duration))
           (Js.Int 10) in
  let newHours := Js.floorDiv totalMinutes 60 in
  let newMinutes := Js.remainder totalMinutes 60 in
  if Js.ge newHours (Js.Int 18)
  then (true, "09:00")
  else (false, Js.clockString newHours newMinutes).

(** One iteration of [for (let i = 0; i < teams.length; i++)].  The date
    moves on by [currentDate.setDate(currentDate.getDate() + 1)], which is
    arithmetic on the local calendar of the process: [tomorrow] is that
    operation, the same wall-clock time on the next calendar day in the
    time zone the server runs in. *)
Definition placeTeam (tomorrow : Date -> Date) (mentors : list User)
    (duration : Z) (c : Cursor) (team : Team) : Exception + Cursor :=
  match mentors !! (cursor_mentorIndex c mod length mentors)%nat with
  | None =>
      inl (TypeError "Cannot read properties of undefined (reading '_id')")
  | Some mentor =>
      let slot :=
        mkSlot (user_id mentor) (Some (team_id team)) (cursor_date c)
               (cursor_slotTime c) duration None None Offline SlotScheduled in
      let '(nextDay, slotTime) := advance (cursor_slotTime c) duration in
      inr (mkCursor
             (if nextDay then tomorrow (cursor_date c) else cursor_date c)
             slotTime
             (S (cursor_mentorIndex c))
             (cursor_slots c ++ [slot]))
  end.

Fixpoint placeTeams (tomorrow : Date -> Date) (mentors : list User)
    (duration : Z) (c : Cursor) (teams : list Team) : Exception + Cursor :=
  match teams with
  | [] => inr c
  | team :: rest =>
      match placeTeam tomorrow mentors duration c team with
      | inl e => inl e
      | inr c' => placeTeams tomorrow mentors duration c' rest
      end
  end.

(** [exports.randomDistributeTeams], in a process whose local calendar is
    [tomorrow]. *)
Definition randomDistributeTeams (tomorrow : Date -> Date) (req : Request)
    (id : ObjectId) : DB -> DB * Response ExamSchedule :=
  Handler.tryCatch
    (found <- query (fun db => findById id (examSchedules db)) ;;
     match found with
     | None => Handler.exit (reject 404 "Exam schedule not found")
     | Some examSchedule =>
         mentors <- query (fun db => findAll isMentor (users db)) ;;
         allTeams <- query teams ;;
         if (length mentors =? 0)%nat
         then Handler.exit (reject 400 "No mentors available")
         else if (length allTeams =? 0)%nat
         then Handler.exit (reject 400 "No teams available")
         else
           let examSchedule := set_slots [] examSchedule in
           final <- Handler.lift
                      (placeTeams tomorrow mentors (exam_duration examSchedule)
                         (mkCursor (exam_startDate examSchedule) "09:00" 0 [])
                         allTeams) ;;
           let examSchedule :=
             set_status ScheduleActive
               (set_assignmentType RandomAssignment
                  (set_slots (cursor_slots final) examSchedule)) in
           examSchedule <- save examSchedule ;;
           Handler.ret
             (respond 200 "Teams distributed randomly successfully"
                examSchedule)
     end)
    (serverError "Error distributing teams").

(** The body of a manual assignment request. *)
Record Assignment : Type := mkAssignment {
  assign_mentorId : option ObjectId;
  assign_teamId : option ObjectId;
  assign_scheduledDate : option Date;
  assign_scheduledTime : option string;
  assign_duration : option Z;
  assign_mode : option string;
  assign_venue : option string;
  assign_meetLink : option string
}.

Definition parseMode (mode : option string) : Exception + SlotMode :=
  match mode with
  | None => inr Offline
  | Some m =>
      if String.eqb m "online" then inr Online
      else if String.eqb m "offline" then inr Offline
      else inl (ValidationError "slots.mode")
  end.

(** The pushed slot as the schema validates it on [save()]: [mentor],
    [scheduledDate] and [scheduledTime] are required (an empty string does
    not do), [mode] is enumerated; [duration || examSchedule.duration]. *)
Definition newSlot (defaultDuration : Z) (a : Assignment)
  : Exception + Slot :=
  match assign_mentorId a, assign_scheduledDate a, assign_scheduledTime a with
  | None, _, _ => inl (ValidationError "slots.mentor")
  | _, None, _ => inl (ValidationError "slots.scheduledDate")
  | _, _, None => inl (ValidationError "slots.scheduledTime")
  | _, _, Some EmptyString => inl (ValidationError "slots.scheduledTime")
  | Some mentor, Some date, Some time =>
      match parseMode (assign_mode a) with
      | inl e => inl e
      | inr mode =>
          inr (mkSlot mentor (assign_teamId a) date time
                 (match assign_duration a with
                  | Some d => if d =? 0 then defaultDuration else d
                  | None => defaultDuration
                  end)
                 (assign_venue a) (assign_meetLink a) mode SlotScheduled)
      end
  end.

(** [exports.manualAssignTeam] *)
Definition manualAssignTeam (req : Request) (id : ObjectId) (a : Assignment)
  : DB -> DB * Response ExamSchedule :=
  Handler.tryCatch
    (found <- query (fun db => findById id (examSchedules db)) ;;
     match found with
     | None => Handler.exit (reject 404 "Exam schedule not found")
     | Some examSchedule =>
         slot <- Handler.lift (newSlot (exam_duration examSchedule) a) ;;
         let examSchedule :=
           set_assignmentType ManualAssignment
             (set_slots (exam_slots examSchedule ++ [slot]) examSchedule) in
         examSchedule <- save examSchedule ;;
         Handler.ret (respond 200 "Team assigned successfully" examSchedule)
     end)
    (serverError "Error assigning team").

(** *** Per-mentor self-service schedules

    [examScheduleSchema] declares no [mentorSchedules] path and is strict,
    so on a document that [findById] has loaded
    [examSchedule.mentorSchedules] is [undefined].  Every handler of this
    group calls a method of it right after the 404 check; the call throws,
    and none of the statements the source has after it is ever run. *)










(** Every team id held by a slot of the schedule. *)
Definition assignedTeams (s : ExamSchedule) : list ObjectId :=
  omap slot_team (exam_slots s).

End Schedules.

(** ** Milestone chains and milestones: the remaining handlers *)

Module Desk.

(** [Model.findByIdAndDelete(id)]: the first document with the id goes. *)
Fixpoint removeById {A} `{Document A} (id : ObjectId) (c : list A) : list A :=
  match c with
  | [] => []
  | x :: rest => if hasId id x then rest else x :: removeById id rest
  end.

(** [.sort({ order: 1 })], as a stable insertion sort: milestones of equal
    order keep the order of the collection. *)
Fixpoint insertByOrder (m : Milestone) (sorted : list Milestone)
  : list Milestone :=
  match sorted with
  | [] => [m]
  | x :: rest =>
      if milestone_order m <=? milestone_order x
      then m :: sorted
      else x :: insertByOrder m rest
  end.

Definition sortByOrder (l : list Milestone) : list Milestone :=
  foldr insertByOrder [] l.

(** [exports.deleteChain] *)
Definition deleteChain (req : Request) (chainId : ObjectId)
  : DB -> DB * Response unit :=
  Handler.tryCatch
    (hasSubmissions <-
       query (fun db =>
                existsb (fun r => String.eqb (sm_chainId r) chainId)
                        (studentMilestones db)) ;;
     if hasSubmissions : bool
     then Handler.exit
            (reject 400
               "Cannot delete chain with student submissions. Archive it instead.")
     else
       write (fun db =>
                set_milestones
                  (List.filter (fun m => negb (Chains.inChain chainId m))
                               (milestones db)) db) ;;
       write (fun db => set_chains (removeById chainId (chains db)) db) ;;
       Handler.ret
         (mkResponse 200 true "Chain and all milestones deleted successfully"
            None None))
    (serverError "Failed to delete chain").

(** What [getChainProgress] answers. *)
Record ChainProgress : Type := mkChainProgress {
  progress_chain : Chain;
  progress_milestones : list Milestone;
  progress_total : nat;
  progress_draft : nat;
  progress_published : nat
}.

Definition isDraft (m : Milestone) : bool :=
  match milestone_status m with
  | MilestoneDraft => true
  | MilestonePublished => false
  end.

(** [exports.getChainProgress]: a reader who is not yet among the editors
    is pushed onto the list and the chain is saved.  The envelope carries
    no message. *)
Definition getChainProgress (req : Request) (chainId : ObjectId)
  : DB -> DB * Response ChainProgress :=
  Handler.tryCatch
    (found <- query (fun db => findById chainId (chains db)) ;;
     match found with
     | None => Handler.exit (reject 404 "Chain not found")
     | Some chain =>
         listed <- query (fun db =>
                     sortByOrder (findAll (Chains.inChain chainId)
                                          (milestones db))) ;;
         chain <-
           (if existsb (fun e => String.eqb (editor_user e) (req_user req))
                       (chain_editors chain)
            then Handler.ret chain
            else
              let chain :=
                Chains.set_editors
                  (chain_editors chain ++ [mkEditor (req_user req) (req_now req)])
                  chain in
              write (fun db => set_chains (saveDoc chain (chains db)) db) ;;
              Handler.ret chain) ;;
         Handler.ret
           (respond 200 ""
              (mkChainProgress chain listed (length listed)
                 (length (List.filter isDraft listed))
                 (length (List.filter Progress.isPublished listed))))
     end)
    (serverError "Failed to fetch chain progress").

(** [exports.deleteMilestone] *)
Definition deleteMilestone (req : Request) (milestoneId : ObjectId)
  : DB -> DB * Response unit :=
  Handler.tryCatch
    (found <- query (fun db => findById milestoneId (milestones db)) ;;
     match found with
     | None => Handler.exit (reject 404 "Milestone not found")
     | Some milestone =>
         chain <- query (fun db =>
                    findById (milestone_chainId milestone) (chains db)) ;;
         chain <- (match chain with
                   | Some chain => Handler.ret chain
                   | None =>
                       Handler.throw
                         (TypeError
                            "Cannot read properties of null (reading 'status')")
                   end) ;;
         if Chains.isPublished chain
         then Handler.exit
                (reject 400 "Cannot delete milestones from published chain")
         else
           hasSubmissions <-
             query (fun db =>
                      existsb (fun r => String.eqb (sm_milestone r) milestoneId)
                              (studentMilestones db)) ;;
           if hasSubmissions : bool
           then Handler.exit
                  (reject 400 "Cannot delete milestone with student submissions")
           else
             write (fun db =>
                      set_milestones (removeById milestoneId (milestones db))
                                     db) ;;
             write (fun db =>
                      set_chains
                        (saveDoc
                           (Chains.set_totalMilestones
                              (chain_totalMilestones chain - 1) chain)
                           (chains db)) db) ;;
             Handler.ret
               (mkResponse 200 true "Milestone deleted successfully" None None)
     end)
    (serverError "Failed to delete milestone").

(** One entry of the list a student is shown. *)
Record StudentView : Type := mkStudentView {
  view_milestone : Milestone;
  view_isLocked : bool;
  view_studentProgress : option StudentMilestone
}.

Definition isPast (now : Date) (m : Milestone) : bool :=
  milestone_endDate m <? now.

Definition isCurrent (now : Date) (m : Milestone) : bool :=
  (milestone_startDate m <=? now) && (now <=? milestone_endDate m).

(** The loop of [getMilestonesByChain] from index [i] on, with its
    [break] after the first milestone that is neither past nor current. *)
Fixpoint visibleFrom (now : Date) (completed : list ObjectId)
    (mine : list StudentMilestone) (i : nat) (visible : list StudentView)
    (listed : list Milestone) : list StudentView :=
  match listed with
  | [] => visible
  | milestone :: rest =>
      let past := isPast now milestone in
      let current := isCurrent now milestone in
      let isCompleted :=
        existsb (String.eqb (milestone_id milestone)) completed in
      if past || current || (i =? length visible)%nat
      then
        let visible :=
          visible
            ++ [mkStudentView milestone
                  (negb past && negb current && negb isCompleted)
                  (List.find
                     (fun sm => String.eqb (sm_milestone sm)
                                           (milestone_id milestone))
                     mine)] in
        if negb past && negb current
        then visible
        else visibleFrom now completed mine (S i) visible rest
      else visibleFrom now completed mine (S i) visible rest
  end.

Definition isStudent (role : string) : bool := String.eqb role "student".
Definition isMentorRole (role : string) : bool := String.eqb role "mentor".

Definition isCompleted (r : StudentMilestone) : bool :=
  match sm_status r with
  | Completed => true
  | _ => false
  end.

(** [exports.getMilestonesByChain]: the answer is the student's view, or
    the plain list for every other role; [count] is its length.  The
    envelope carries no message. *)
Definition getMilestonesByChain (role : string) (req : Request)
    (chainId : ObjectId)
  : DB -> DB * Response (list StudentView + list Milestone) :=
  Handler.tryCatch
    (listed <-
       query (fun db =>
                sortByOrder
                  (findAll
                     (fun m =>
                        Chains.inChain chainId m
                        && (if isStudent role || isMentorRole role
                            then Progress.isPublished m
                            else true))
                     (milestones db))) ;;
     if isStudent role
     then
       mine <-
         query (fun db =>
                  findAll
                    (fun sm =>
                       String.eqb (sm_student sm) (req_user req)
                       && String.eqb (sm_chainId sm) chainId)
                    (studentMilestones db)) ;;
       let completed := sm_milestone <$> List.filter isCompleted mine in
       Handler.exit
         (respond 200 ""
            (inl (visibleFrom (req_now req) completed mine 0 [] listed)))
     else Handler.ret (respond 200 "" (inr listed)))
    (serverError "Failed to fetch milestones").

(** What [getMilestone] answers: for a student the milestone comes with
    the student's progress record, or [null]. *)
Record Shown : Type := mkShown {
  shown_milestone : Milestone;
  shown_studentProgress : option (option StudentMilestone)
}.

(** [exports.getMilestone] *)
Definition getMilestone (role : string) (req : Request)
    (milestoneId : ObjectId) : DB -> DB * Response Shown :=
  Handler.tryCatch
    (found <- query (fun db => findById milestoneId (milestones db)) ;;
     match found with
     | None => Handler.exit (reject 404 "Milestone not found")
     | Some milestone =>
         if (isStudent role || isMentorRole role)
            && negb (Progress.isPublished milestone)
         then Handler.exit (reject 403 "Access denied")
         else if isStudent role
         then
           studentProgress <-
             query (fun db =>
                      findOne (Progress.forPair (req_user req) milestoneId)
                              (studentMilestones db)) ;;
           Handler.exit
             (respond 200 "" (mkShown milestone (Some studentProgress)))
         else Handler.ret (respond 200 "" (mkShown milestone None))
     end)
    (serverError "Failed to fetch milestone").

End Desk.

(** ** Student progress and exam schedules: the remaining handlers *)

Module Queries.

(** The sort key of [.sort({ 'submissions.submittedAt': -1 })]: for a
    descending sort an array field counts with its greatest element, and
    a record without submissions sorts as [null], after all others. *)
Definition latestSubmission (r : StudentMilestone) : option Date :=
  foldr (fun sub latest =>
           match latest with
           | Some t => Some (Z.max (submission_submittedAt sub) t)
           | None => Some (submission_submittedAt sub)
           end)
        None (sm_submissions r).

Definition notAfter (a b : option Date) : bool :=
  match a, b with
  | Some x, Some y => x <=? y
  | None, _ => true
  | Some _, None => false
  end.

(** Stable insertion into a list sorted by latest submission, greatest
    first. *)
Fixpoint insertByLatest (r : StudentMilestone) (sorted : list StudentMilestone)
  : list StudentMilestone :=
  match sorted with
  | [] => [r]
  | x :: rest =>
      if notAfter (latestSubmission x) (latestSubmission r)
      then r :: sorted
      else x :: insertByLatest r rest
  end.

Definition sortByLatest (l : list StudentMilestone) : list StudentMilestone :=
  foldr insertByLatest [] l.

Definition isSubmitted (r : StudentMilestone) : bool :=
  match sm_status r with
  | Submitted => true
  | _ => false
  end.

(** The filter [{ status: 'submitted' }], narrowed to one milestone when
    the query names one ([if (milestoneId)]: the empty string does not
    count). *)
Definition pendingFilter (milestoneId : option ObjectId)
    (r : StudentMilestone) : bool :=
  isSubmitted r
  && match milestoneId with
     | Some (String c rest) => String.eqb (sm_milestone r) (String c rest)
     | _ => true
     end.

(** [exports.getPendingSubmissions]; [count] is the length of the list. *)
Definition getPendingSubmissions (req : Request)
    (milestoneId : option ObjectId)
  : DB -> DB * Response (list StudentMilestone) :=
  Handler.tryCatch
    (submissions <-
       query (fun db =>
                sortByLatest
                  (findAll (pendingFilter milestoneId) (studentMilestones db))) ;;
     Handler.ret (respond 200 "" submissions))
    (serverError "Failed to fetch submissions").

(** What [getAvailableResources] answers. *)
Record Resources : Type := mkResources {
  resources_mentors : list User;
  resources_teams : list Team;
  resources_unassignedTeams : list Team;
  resources_assignedCount : nat;
  resources_totalTeams : nat
}.

(** [!assignedTeamIds.includes(team._id.toString())], where the id list
    has an [undefined] entry for every slot without a team. *)
Definition notIn (assigned : list (option ObjectId)) (team : Team) : bool :=
  negb (existsb (fun entry =>
                   match entry with
                   | Some t => String.eqb t (team_id team)
                   | None => false
                   end) assigned).

(** [exports.getAvailableResources] *)
Definition getAvailableResources (req : Request) (id : ObjectId)
  : DB -> DB * Response Resources :=
  Handler.tryCatch
    (found <- query (fun db => findById id (examSchedules db)) ;;
     match found with
     | None => Handler.exit (reject 404 "Exam schedule not found")
     | Some examSchedule =>
         mentors <- query (fun db => findAll Schedules.isMentor (users db)) ;;
         allTeams <- query teams ;;
         let assignedTeamIds := slot_team <$> exam_slots examSchedule in
         let unassignedTeams := List.filter (notIn assignedTeamIds) allTeams in
         Handler.ret
           (respond 200 ""
              (mkResources mentors allTeams unassignedTeams
                 (length assignedTeamIds) (length allTeams)))
     end)
    (serverError "Error fetching resources").

End Queries.

(** ** Sample data *)

Module Sample.

Definition day0 : Date := 1767225600000.

Definition admin : Request := mkRequest "admin1" day0 "fresh1".

Definition publishedChain : Chain :=
  mkChain "chain1" "Semester project" ChainPublished (Some "admin1")
          (Some (day0 - dayMs)) [mkEditor "admin1" (day0 - dayMs)] 1 1.

Definition editingChain : Chain :=
  mkChain "chain2" "Electives" ChainEditing None None [] 0 0.

Definition quizQuestions : list Question :=
  [ mkQuestion "q1" MultipleChoice (Some "B") 2;
    mkQuestion "q2" Essay None 5 ].

Definition report : Milestone :=
  mkMilestone "milestone1" "chain1" "Report" "Written report" Assignment
    (day0 + 30 * dayMs) (day0 + 40 * dayMs) 1 MilestonePublished [] None None
    "admin1" None (Some "admin1") (Some (day0 - dayMs)).

Definition quiz : Milestone :=
  mkMilestone "milestone2" "chain1" "Quiz" "Weekly quiz" Quiz
    (day0 - dayMs) (day0 + dayMs) 2 MilestonePublished quizQuestions
    (Some 30) (Some 50) "admin1" None (Some "admin1") (Some (day0 - dayMs)).

Definition newFields : MilestoneFields :=
  mkMilestoneFields (Some "Viva") (Some "Oral examination") (Some "exam")
    (Some (day0 + 10 * dayMs)) (Some (day0 + 11 * dayMs)) (Some 3) None
    (Some 45) None.

(** A patch that moves the start date ten days ahead. *)
Definition laterStart : MilestoneFields :=
  mkMilestoneFields None None None (Some (day0 + 10 * dayMs)) None None None
    None None.

(** A quiz whose duration is set to zero minutes. *)
Definition zeroQuiz : Milestone :=
  mkMilestone "milestone3" "chain1" "Pop quiz" "Unannounced quiz" Quiz
    (day0 - dayMs) (day0 + dayMs) 3 MilestonePublished quizQuestions
    (Some 0) None "admin1" None (Some "admin1") (Some (day0 - dayMs)).

Definition student : Request := mkRequest "student1" day0 "fresh2".

(** The same student forty minutes later. *)
Definition studentLater : Request :=
  mkRequest "student1" (day0 + 40 * 60000) "fresh3".

Definition mentor : Request := mkRequest "mentor1" (day0 + dayMs) "fresh4".

(** A quiz attempt started at [day0] and not yet submitted. *)
Definition attempt (id milestone : ObjectId) : StudentMilestone :=
  Progress.set_quizStartedAt day0
    (Progress.newProgress id "student1" milestone "chain1" day0 1).

Definition campus : DB :=
  mkDB [publishedChain; editingChain] [report; quiz; zeroQuiz] []
       [mkUser "student1" "student" None] [] [].

(** The campus with two quiz attempts under way. *)
Definition examWeek : DB :=
  set_studentMilestones
    [attempt "progress1" "milestone2"; attempt "progress2" "milestone3"]
    campus.

(** *** An exam schedule with three mentors and seven teams *)

Definition mentors : list User :=
  [ mkUser "mentor1" "mentor" (Some "approved");
    mkUser "mentor2" "mentor" None;
    mkUser "mentor3" "mentor" (Some "approved") ].

Definition sevenTeams : list Team :=
  [ mkTeam "team1"; mkTeam "team2"; mkTeam "team3"; mkTeam "team4";
    mkTeam "team5"; mkTeam "team6"; mkTeam "team7" ].

Definition viva : ExamSchedule :=
  mkExamSchedule "exam1" day0 (day0 + 2 * dayMs) 30 ScheduleDraft
    ManualAssignment [] (mkStatistics 0 0 0 0).

Definition examDay : DB :=
  mkDB [] [] []
       (mkUser "student1" "student" None
        :: mkUser "mentor0" "mentor" (Some "pending") :: mentors)
       sevenTeams [viva].

(** The same schedule with slots of two hours fifty. *)
Definition longViva : DB :=
  mkDB [] [] [] mentors sevenTeams
       [mkExamSchedule "exam1" day0 (day0 + 2 * dayMs) 170 ScheduleDraft
          ManualAssignment [] (mkStatistics 0 0 0 0)].

(** Two manual assignments of the same team. *)
Definition firstAssignment : Schedules.Assignment :=
  Schedules.mkAssignment (Some "mentor1") (Some "team1") (Some day0)
    (Some "09:00") None (Some "offline") (Some "Room 1") None.

Definition secondAssignment : Schedules.Assignment :=
  Schedules.mkAssignment (Some "mentor2") (Some "team1") (Some day0)
    (Some "10:00") None (Some "offline") (Some "Room 2") None.


(** A server whose local time is UTC: the next calendar day is 24 hours
    later. *)
Definition utc (d : Date) : Date := d + dayMs.

(** A server in a zone whose clocks go forward by an hour in the night
    after [day0]: that calendar day has 23 hours. *)
Definition springForward (d : Date) : Date :=
  if d <? day0 + dayMs - 3600000 then d + dayMs - 3600000 else d + dayMs.

Definition essay : Progress.File :=
  Progress.mkFile "/tmp/upload_1" "essay.pdf" 52000.

End Sample.

(** ** The round-robin layout in the words of the specification *)

Module Layout.


(** The minute [t] of the day written as ["HH:MM"]. *)
Definition clock (t : Z) : string :=
  Js.clockString (Js.Int (t / 60)) (Js.Int (t mod 60)).


End Layout.

(** ** Notions used in the statements *)

Section MilestoneNotions.
Import Milestones.

(** The status a chain is left in by a structural edit. *)
Definition afterEdit (chain : Chain) : ChainStatus :=
  if Chains.isPublished chain then ChainEditing else chain_status chain.

(** The store after the first block of [createMilestone]. *)
Definition reverted (chain : Chain) (db : DB) : DB :=
  if Chains.isPublished chain
  then set_chains (saveDoc (Chains.set_status ChainEditing chain) (chains db)) db
  else db.

Definition createdMessage (published : bool) : string :=
  if published
  then "Milestone created successfully. Chain has been unpublished - please republish to make changes visible to students."
  else "Milestone created successfully".

End MilestoneNotions.

Section QuizNotions.
Import Progress.

(** The sentence of C3 as it stands: whenever the time elapsed since
    [quizStartedAt] exceeds [milestone.duration] minutes, the call fails and
    the record is left in status 'failed'. *)
Definition late_quiz_always_fails : Prop :=
  forall req milestoneId answers db m r d t,
    findById milestoneId (milestones db) = Some m ->
    Progress.isTimed m = true ->
    findOne (Progress.forPair (req_user req) milestoneId)
            (studentMilestones db) = Some r ->
    milestone_duration m = Some d ->
    sm_quizStartedAt r = Some t ->
    d * 60000 < req_now req - t ->
    let '(db', response) :=
      Progress.submitQuizAnswers req milestoneId answers db in
    success response = false
    /\ sm_status <$> findOne (Progress.forPair (req_user req) milestoneId)
                             (studentMilestones db') = Some Failed.

(** Whether the time check of [submitQuizAnswers] fires. *)
Definition timedOut (now : Date) (m : Milestone) (r : StudentMilestone) : bool :=
  match truthy (milestone_duration m) with
  | Some d => exceeds (elapsedMs now (sm_quizStartedAt r)) d
  | None => false
  end.

(** The record [submitQuizAnswers] saves when it grades. *)
Definition gradedRecord (now : Date) (m : Milestone) (answers : list Answer)
    (r : StudentMilestone) : StudentMilestone :=
  let tally := autoGrade (milestone_questions m) answers in
  recordQuiz (tally_graded tally) now (tally_totalScore tally)
             (tally_maxScore tally) r.


End QuizNotions.

Section ProgressNotions.
Import Progress.

(** The two unique indexes of the StudentMilestone collection. *)
Definition pairKey (r : StudentMilestone) : ObjectId * ObjectId :=
  (sm_student r, sm_milestone r).

Definition Indexed (c : list StudentMilestone) : Prop :=
  NoDup (sm_id <$> c) /\ NoDup (pairKey <$> c).

(** The record a first [startMilestone] creates. *)
Definition started (req : Request) (milestoneId : ObjectId) (m : Milestone)
  : StudentMilestone :=
  let r := newProgress (req_newId req) (req_user req) milestoneId
                       (milestone_chainId m) (req_now req) 1 in
  if isTimed m then set_quizStartedAt (req_now req) r else r.

(** What [submitAssignment] stores for a record and a list of uploads. *)
Definition handedIn (files : list UploadedFile) (text : option string)
    (now : Date) (r : StudentMilestone) : StudentMilestone :=
  set_status Submitted (pushSubmission (mkSubmission files text now) r).

(** The requests that write to the StudentMilestone collection. *)
Inductive Call : Type :=
| Start (req : Request) (milestoneId : ObjectId)
| SubmitAssignment (req : Request) (milestoneId : ObjectId)
    (text : option string) (files : option (list File))
| SubmitQuiz (req : Request) (milestoneId : ObjectId)
    (answers : option (list Answer))
| Grade (req : Request) (submissionId : ObjectId) (score maxScore : option Z)
    (grade feedback : option string).

(** The store after one request. *)
Definition serve (call : Call) (db : DB) : DB :=
  match call with
  | Start req milestoneId => fst (startMilestone req milestoneId db)
  | SubmitAssignment req milestoneId text files =>
      fst (submitAssignment req milestoneId text files db)
  | SubmitQuiz req milestoneId answers =>
      fst (submitQuizAnswers req milestoneId answers db)
  | Grade req submissionId score maxScore grade feedback =>
      fst (gradeAssignment req submissionId score maxScore grade feedback db)
  end.

(** The store after a sequence of requests, served one after the other. *)
Definition serveAll (calls : list Call) (db : DB) : DB :=
  fold_left (fun db call => serve call db) calls db.

End ProgressNotions.

Section ClockNotions.

(** The clock strings the loop writes are read back as written. *)
Definition readsBack (n : nat) : bool :=
  let t := Z.of_nat n in
  match Js.hourMinute (Layout.clock t) with
  | (Some (Js.Int h), Some (Js.Int m)) => (h =? t / 60) && (m =? t mod 60)
  | _ => false
  end.


End ClockNotions.

Section MentorNotions.
Import Schedules.





End MentorNotions.

Section ViewNotions.
Import Desk.

(** A milestone that is past or current at [now]. *)
Definition isOpen (now : Date) (m : Milestone) : bool :=
  isPast now m || isCurrent now m.

(** The longest prefix of elements with [p], and the element after it. *)
Fixpoint leading {A} (p : A -> bool) (l : list A) : list A :=
  match l with
  | [] => []
  | x :: rest => if p x then x :: leading p rest else []
  end.

Fixpoint firstAfter {A} (p : A -> bool) (l : list A) : option A :=
  match l with
  | [] => None
  | x :: rest => if p x then firstAfter p rest else Some x
  end.

Definition progressOf (mine : list StudentMilestone) (m : Milestone)
  : option StudentMilestone :=
  List.find (fun sm => String.eqb (sm_milestone sm) (milestone_id m)) mine.

(** The entry of a past or current milestone, and that of an upcoming one. *)
Definition openView (mine : list StudentMilestone) (m : Milestone)
  : StudentView :=
  mkStudentView m false (progressOf mine m).

Definition upcomingView (completed : list ObjectId)
    (mine : list StudentMilestone) (m : Milestone) : StudentView :=
  mkStudentView m (negb (existsb (String.eqb (milestone_id m)) completed))
    (progressOf mine m).

(** The counter [totalMilestones] of every chain is the number of
    milestones the collection holds for it. *)
Definition Counted (db : DB) : Prop :=
  forall chain,
    chain ∈ chains db ->
    chain_totalMilestones chain
    = Z.of_nat (length (findAll (Chains.inChain (chain_id chain))
                                (milestones db))).

End ViewNotions.

Section ChainNotions.
Import Chains.

(** The chain as [publishChain] stores it. *)
Definition stamped (req : Request) (all : list Milestone) (chainId : ObjectId)
    (chain : Chain) : Chain :=
  set_publishedMilestones
    (Z.of_nat (length (findAll (inChain chainId) all)))
    (set_published (Some (req_user req)) (Some (req_now req))
       (set_status ChainPublished chain)).

End ChainNotions.

Section GradingNotions.
Import Progress.

(** The points of the graded answers, added up. *)
Definition pointsOf (graded : list GradedAnswer) : Z :=
  foldr (fun g sum => graded_points g + sum) 0 graded.

End GradingNotions.

(** ** Sample data: a chain under construction *)

Module Scenario.

(** A chain under construction with two draft milestones. *)
Definition draftChain : Chain :=
  mkChain "chain3" "Capstone" ChainEditing None None [] 2 0.

Definition proposal : Milestone :=
  mkMilestone "milestone4" "chain3" "Proposal" "Project proposal" Assignment
    (Sample.day0 - 10 * dayMs) (Sample.day0 - 5 * dayMs) 1 MilestoneDraft []
    None None "admin1" None None None.

Definition prototype : Milestone :=
  mkMilestone "milestone5" "chain3" "Prototype" "Working prototype" Project
    (Sample.day0 - dayMs) (Sample.day0 + 5 * dayMs) 2 MilestoneDraft [] None
    None "admin1" None None None.

Definition studio : DB :=
  mkDB [draftChain; Sample.editingChain] [proposal; prototype] []
       [mkUser "student1" "student" None] [] [].

End Scenario.

(** * Properties *)

(** ** Collections *)

Section CollectionFacts.
Context {A : Type} `{Document A}.

Lemma hasId_refl (d : A) : hasId (docId d) d = true.
Proof. unfold hasId. apply String.eqb_refl. Qed.

Lemma hasId_eq (id : ObjectId) (d : A) : hasId id d = true -> docId d = id.
Proof. unfold hasId. apply String.eqb_eq. Qed.

Lemma find_some_holds (q : A -> bool) (c : list A) (d : A) :
  List.find q c = Some d -> q d = true.
Proof. intros Hf. apply List.find_some in Hf. tauto. Qed.

(** Saving a modified copy of the first match of a query makes the copy
    the first match, as long as the copy still answers the query. *)
Lemma find_saveDoc (q : A -> bool) (c : list A) (d d' : A) :
  List.find q c = Some d ->
  docId d' = docId d ->
  q d' = true ->
  List.find q (saveDoc d' c) = Some d'.
Proof.
  intros Hfind Hid Hq. induction c as [|x c IH]; simpl in *; [discriminate|].
  destruct (hasId (docId d') x) eqn:Hx.
  - rewrite Hq. reflexivity.
  - destruct (q x) eqn:Hqx.
    + injection Hfind as ->. unfold hasId in Hx.
      rewrite Hid, String.eqb_refl in Hx. discriminate.
    + apply IH. exact Hfind.
Qed.

Lemma findById_saveDoc (c : list A) (d d' : A) :
  findById (docId d') c = Some d ->
  findById (docId d') (saveDoc d' c) = Some d'.
Proof.
  intros Hfind. unfold findById in *.
  apply find_saveDoc with (d := d); [exact Hfind| |apply hasId_refl].
  symmetry. apply hasId_eq. eapply find_some_holds. exact Hfind.
Qed.

Lemma find_app_none (q : A -> bool) (c : list A) (d : A) :
  List.find q c = None -> q d = true -> List.find q (c ++ [d]) = Some d.
Proof.
  intros Hnone Hq. induction c as [|x c IH]; simpl in *.
  - rewrite Hq. reflexivity.
  - destruct (q x); [discriminate|auto].
Qed.

End CollectionFacts.

(** ** Milestone chains *)

Section ChainFacts.
Import Chains.

Lemma status_trackEditor user now c :
  chain_status (trackEditor user now c) = chain_status c.
Proof. unfold trackEditor. destruct (findIndex _ _); reflexivity. Qed.

Lemma id_trackEditor user now c :
  chain_id (trackEditor user now c) = chain_id c.
Proof. unfold trackEditor. destruct (findIndex _ _); reflexivity. Qed.

(** An unpublished chain without milestones is turned down, and the
    store is handed back as it came. *)
Lemma publishChain_empty_unpublished req chainId db chain :
  findById chainId (chains db) = Some chain ->
  isPublished chain = false ->
  findAll (inChain chainId) (milestones db) = [] ->
  publishChain req chainId db =
    (db, reject 400 "Cannot publish empty chain. Please add milestones first.").
Proof.
  intros Hchain Hpub Hnone.
  unfold publishChain, Handler.tryCatch, Handler.bind, query.
  rewrite Hchain, Hpub, Hnone. reflexivity.
Qed.
End ChainFacts.

(** C2.  Publishing a chain in status 'editing' that has no milestone fails
    with HTTP 400 and the message "Cannot publish empty chain. Please add
    milestones first."; the store after the call is the store before it, so
    the chain is still 'editing' and no chain field and no milestone has
    changed. *)
Theorem publishChain_empty_chain_rejected req chainId db chain :
  findById chainId (chains db) = Some chain ->
  chain_status chain = ChainEditing ->
  findAll (Chains.inChain chainId) (milestones db) = [] ->
  let '(db', response) := Chains.publishChain req chainId db in
  code response = 400
  /\ success response = false
  /\ message response = "Cannot publish empty chain. Please add milestones first."
  /\ db' = db
  /\ chain_status <$> findById chainId (chains db') = Some ChainEditing.
Proof.
  intros Hchain Hstatus Hnone.
  rewrite (publishChain_empty_unpublished req chainId db chain Hchain); auto.
  - rewrite Hchain. simpl. rewrite Hstatus. repeat split; reflexivity.
  - unfold Chains.isPublished. rewrite Hstatus. reflexivity.
Qed.

(** ** Milestones *)

Section MilestoneFacts.
Import Milestones.

(** On a published chain the date guard throws before anything is
    written: the handler answers 500 and the store is untouched. *)
Lemma updateMilestone_published_throws req milestoneId updates db m chain :
  findById milestoneId (milestones db) = Some m ->
  findById (milestone_chainId m) (chains db) = Some chain ->
  chain_status chain = ChainPublished ->
  updateMilestone req milestoneId updates db =
    (db, serverError "Failed to update milestone"
           (ReferenceError "Cannot access 'startDate' before initialization")).
Proof.
  intros Hm Hc Hpub.
  unfold updateMilestone, Handler.tryCatch, Handler.bind, query.
  rewrite Hm, Hc. cbn.
  unfold Chains.isPublished. rewrite Hpub. reflexivity.
Qed.
End MilestoneFacts.

(** C6.  Updating a milestone of a published chain with a start date ten
    days ahead: the claim lets the update proceed and reverts the chain to
    'editing'; the handler answers 500 and changes nothing, the chain stays
    'published'. *)
Theorem updateMilestone_published_chain_fails :
  Milestones.updateMilestone Sample.admin "milestone1" Sample.laterStart
                             Sample.campus
  = (Sample.campus,
     serverError "Failed to update milestone"
       (ReferenceError "Cannot access 'startDate' before initialization")).
Proof.
  apply updateMilestone_published_throws
    with (m := Sample.report) (chain := Sample.publishedChain); reflexivity.
Qed.

Section CreateMilestoneFacts.
Import Milestones.

Lemma refetch_saved {A} `{Document A} (id : ObjectId) (c : list A) (d d' : A) :
  findById id c = Some d ->
  docId d' = id ->
  findById id (saveDoc d' c) = Some d'.
Proof.
  intros Hfind <-. eapply findById_saveDoc. exact Hfind.
Qed.

Lemma newMilestone_id id chainId user fields m :
  newMilestone id chainId user fields = inr m -> milestone_id m = id.
Proof.
  unfold newMilestone, andThen, required. intros Hnew.
  repeat match type of Hnew with
         | match ?x with _ => _ end = _ => destruct x; try discriminate
         end.
  injection Hnew as <-. reflexivity.
Qed.

(** The three ways [createMilestone] ends once the chain is found. *)
Lemma createMilestone_cases req chainId fields db chain :
  findById chainId (chains db) = Some chain ->
  createMilestone req chainId fields db =
    match newMilestone (req_newId req) chainId (req_user req) fields with
    | inl e => (reverted chain db, serverError "Failed to create milestone" e)
    | inr m =>
        match findById (docId m) (milestones db) with
        | Some _ =>
            (reverted chain db,
             serverError "Failed to create milestone" (DuplicateKey "_id"))
        | None =>
            let counted :=
              Chains.set_totalMilestones (chain_totalMilestones chain + 1)
                (Chains.set_status (afterEdit chain) chain) in
            let tracked :=
              Chains.trackEditor (req_user req) (req_now req) counted in
            (set_chains
               (saveDoc tracked
                  (saveDoc counted (chains (reverted chain db))))
               (set_milestones (milestones db ++ [m]) db),
             respond 201 (createdMessage (Chains.isPublished chain))
               (mkEdited m (Chains.isPublished chain) (afterEdit chain)))
        end
    end.
Proof.
  intros Hchain.
  unfold createMilestone, Handler.tryCatch, Handler.bind, query.
  rewrite Hchain.
  unfold create, saveChain, Handler.bind, Handler.lift, writeChecked, write,
    Handler.ret, Handler.throw, insertDoc, reverted, afterEdit, createdMessage.
  destruct (Chains.isPublished chain) eqn:Hpub;
    cbn [chains milestones set_chains set_milestones];
    (destruct (newMilestone _ _ _ _) as [e|m]; [reflexivity|]);
    cbv beta; cbn [chains milestones set_chains set_milestones];
    (destruct (findById (docId m) (milestones db)); [reflexivity|]);
    cbn; rewrite ?status_trackEditor; try reflexivity.
Qed.
End CreateMilestoneFacts.

(** C5.  [createMilestone] on an existing chain: if the chain was
    'published' it is saved as 'editing' before the milestone is inserted,
    so re-fetching the chain shows 'editing' whether or not the insertion
    then succeeds; a valid milestone with a fresh id is created with status
    201 and the response carries [requiresRepublish: true] exactly when the
    chain was published (false otherwise, the chain status then being left
    as it was); when the call does not answer 201 no milestone has been
    inserted. *)
Theorem createMilestone_requires_republish req chainId fields db chain :
  findById chainId (chains db) = Some chain ->
  let published := Chains.isPublished chain in
  let '(db', response) := Milestones.createMilestone req chainId fields db in
  chain_status <$> findById chainId (chains db')
    = Some (if published then ChainEditing else chain_status chain)
  /\ (forall m,
        Milestones.newMilestone (req_newId req) chainId (req_user req) fields
          = inr m ->
        findById (req_newId req) (milestones db) = None ->
        code response = 201
        /\ success response = true
        /\ body response
           = Some (Milestones.mkEdited m published
                     (if published then ChainEditing else chain_status chain))
        /\ milestones db' = milestones db ++ [m])
  /\ (code response <> 201 -> milestones db' = milestones db).
Proof.
  intros Hchain published.
  assert (Hid : chain_id chain = chainId).
  { apply (hasId_eq chainId chain). eapply find_some_holds. exact Hchain. }
  assert (Hrev : chain_status <$> findById chainId (chains (reverted chain db))
                 = Some (afterEdit chain)).
  { unfold reverted, afterEdit.
    destruct (Chains.isPublished chain); cbn [chains set_chains].
    - erewrite refetch_saved; [reflexivity|exact Hchain|exact Hid].
    - rewrite Hchain. reflexivity. }
  assert (Hrevm : milestones (reverted chain db) = milestones db).
  { unfold reverted. destruct (Chains.isPublished chain); reflexivity. }
  rewrite (createMilestone_cases req chainId fields db chain Hchain).
  fold (afterEdit chain).
  destruct (Milestones.newMilestone _ _ _ _) as [e|m] eqn:Hnew.
  - split; [exact Hrev|]. split; [intros m1 Hm1; discriminate|].
    intros _. exact Hrevm.
  - pose proof (newMilestone_id _ _ _ _ _ Hnew) as Hmid.
    change (docId m) with (milestone_id m). rewrite Hmid.
    destruct (findById (req_newId req) (milestones db)) eqn:Hfresh.
    + split; [exact Hrev|]. split; [intros m1 _ Hnone; discriminate|].
      intros _. exact Hrevm.
    + cbn zeta. split.
      * cbn [chains set_chains].
        destruct (findById chainId (chains (reverted chain db))) as [c0|] eqn:Hc0;
          [|discriminate Hrev].
        erewrite refetch_saved.
        -- cbn. rewrite status_trackEditor. reflexivity.
        -- eapply refetch_saved; [exact Hc0|exact Hid].
        -- rewrite id_trackEditor. exact Hid.
      * split.
        -- intros m1 Hm1 _. injection Hm1 as <-. repeat split; reflexivity.
        -- intros Hcode. exfalso. apply Hcode. reflexivity.
Qed.

(** ** Student progress *)

Section ProgressFacts.
Import Progress.

Lemma forPair_set_status student milestone st r :
  forPair student milestone (set_status st r) = forPair student milestone r.
Proof. reflexivity. Qed.

Lemma truthy_nonzero d : d <> 0 -> truthy (Some d) = Some d.
Proof. intros Hd. unfold truthy. destruct (Z.eqb_spec d 0); congruence. Qed.

Lemma exceeds_iff now t d :
  exceeds (elapsedMs now (Some t)) d = true <-> d * 60000 < now - t.
Proof. unfold exceeds, elapsedMs. cbn. apply Z.ltb_lt. Qed.

(** The record of a pair after the save of a modified copy. *)
Lemma findOne_save student milestone (r r' : StudentMilestone) c :
  findOne (forPair student milestone) c = Some r ->
  sm_id r' = sm_id r ->
  forPair student milestone r' = true ->
  findOne (forPair student milestone) (saveDoc r' c) = Some r'.
Proof. intros. unfold findOne. eapply find_saveDoc; eauto. Qed.

(** Past the time limit the attempt is saved as failed, nothing is
    graded, and the handler answers 400. *)
Lemma submitQuizAnswers_late req milestoneId answers db m r d :
  findById milestoneId (milestones db) = Some m ->
  isTimed m = true ->
  findOne (forPair (req_user req) milestoneId) (studentMilestones db) = Some r ->
  truthy (milestone_duration m) = Some d ->
  exceeds (elapsedMs (req_now req) (sm_quizStartedAt r)) d = true ->
  submitQuizAnswers req milestoneId answers db =
    (set_studentMilestones
       (saveDoc (set_status Failed r) (studentMilestones db)) db,
     reject 400 "Time limit exceeded").
Proof.
  intros Hm Htimed Hr Hd Hlate.
  unfold submitQuizAnswers, Handler.tryCatch, Handler.bind, query.
  rewrite Hm, Htimed. cbn [negb]. rewrite Hr, Hd, Hlate. reflexivity.
Qed.
End ProgressFacts.

(** C3, counterexample.  A quiz whose duration is 0: forty minutes after
    the start the elapsed time exceeds the duration, yet the guard
    [if (milestone.duration)] skips the time check, the answers are graded
    and the record is 'submitted' with its score fields set. *)
Lemma late_quiz_zero_duration_is_graded : ~ late_quiz_always_fails.
Proof.
  intros Hclaim.
  specialize (Hclaim Sample.studentLater "milestone3"
                (Some [Progress.mkAnswer "q1" (Some "B")]) Sample.examWeek
                Sample.zeroQuiz (Sample.attempt "progress2" "milestone3")
                0 Sample.day0).
  cbv in Hclaim.
  destruct Hclaim as [Hfail _]; try reflexivity. discriminate Hfail.
Qed.

(** The same submission evaluated: forty minutes into a quiz of duration 0
    the answer is graded, two points out of two. *)
Example zero_duration_quiz_is_graded :
  let '(db', response) :=
    Progress.submitQuizAnswers Sample.studentLater "milestone3"
      (Some [Progress.mkAnswer "q1" (Some "B")]) Sample.examWeek in
  code response = 200
  /\ (fun r => (sm_status r, sm_score r, sm_maxScore r))
       <$> findOne (Progress.forPair "student1" "milestone3")
                   (studentMilestones db')
     = Some (Submitted, Some 2, Some 2).
Proof. vm_compute. split; reflexivity. Qed.

(** C3, amended.  When [milestone.duration] is set and not zero and the
    time elapsed since the record's [quizStartedAt] exceeds that many
    minutes, [submitQuizAnswers] answers 400 "Time limit exceeded" without
    grading: the record of the pair is the old record with status 'failed',
    so its score, maxScore and percentage are what they were, and nothing
    else in the store changes. *)
Theorem submitQuizAnswers_time_limit req milestoneId answers db m r d t :
  findById milestoneId (milestones db) = Some m ->
  Progress.isTimed m = true ->
  findOne (Progress.forPair (req_user req) milestoneId)
          (studentMilestones db) = Some r ->
  milestone_duration m = Some d ->
  d <> 0 ->
  sm_quizStartedAt r = Some t ->
  d * 60000 < req_now req - t ->
  let '(db', response) :=
    Progress.submitQuizAnswers req milestoneId answers db in
  code response = 400
  /\ success response = false
  /\ message response = "Time limit exceeded"
  /\ db' = set_studentMilestones
             (saveDoc (Progress.set_status Failed r) (studentMilestones db)) db
  /\ exists r',
       findOne (Progress.forPair (req_user req) milestoneId)
               (studentMilestones db') = Some r'
       /\ sm_status r' = Failed
       /\ sm_score r' = sm_score r
       /\ sm_maxScore r' = sm_maxScore r
       /\ sm_percentage r' = sm_percentage r
       /\ sm_answers r' = sm_answers r.
Proof.
  intros Hm Htimed Hr Hd Hnz Hstart Hlate.
  rewrite (submitQuizAnswers_late req milestoneId answers db m r d); auto.
  - repeat split.
    exists (Progress.set_status Failed r). split; [|repeat split].
    cbn [studentMilestones set_studentMilestones].
    apply findOne_save with (r := r); [exact Hr|reflexivity|].
    rewrite forPair_set_status. eapply find_some_holds. exact Hr.
  - rewrite Hd. apply truthy_nonzero. exact Hnz.
  - rewrite Hstart. apply exceeds_iff. exact Hlate.
Qed.

Section QuizFacts.
Import Progress.

(** The three ways [submitQuizAnswers] ends once the attempt is found. *)
Lemma submitQuizAnswers_cases req milestoneId answers db m r :
  findById milestoneId (milestones db) = Some m ->
  isTimed m = true ->
  findOne (forPair (req_user req) milestoneId) (studentMilestones db) = Some r ->
  submitQuizAnswers req milestoneId answers db =
    if timedOut (req_now req) m r
    then (set_studentMilestones
            (saveDoc (set_status Failed r) (studentMilestones db)) db,
          reject 400 "Time limit exceeded")
    else
      match answers with
      | None =>
          (db, serverError "Failed to submit quiz"
                 (TypeError "answers is not iterable"))
      | Some given =>
          match numberPath "percentage"
                  (sm_percentage (gradedRecord (req_now req) m given r)) with
          | inl e => (db, serverError "Failed to submit quiz" e)
          | inr _ =>
              (set_studentMilestones
                 (saveDoc (gradedRecord (req_now req) m given r)
                          (studentMilestones db)) db,
               respond 200
                 ((match milestone_type m with
                   | Quiz => "Quiz"
                   | _ => "Exam"
                   end)
                  +:+ " submitted successfully. Your mentor will review it soon.")
                 (mkReceipt Submitted
                    "Your submission is being reviewed by your mentor"))
          end
      end.
Proof.
  intros Hm Htimed Hr.
  unfold submitQuizAnswers, Handler.tryCatch, Handler.bind, query, timedOut.
  rewrite Hm, Htimed. cbn [negb]. rewrite Hr.
  destruct (truthy (milestone_duration m)) as [d|];
    [destruct (exceeds _ d); [reflexivity|]|];
    (destruct answers as [given|]; [|reflexivity]);
    unfold saveScored, Handler.bind, Handler.lift, gradedRecord;
    cbn [Handler.ret];
    destruct (numberPath _ _); reflexivity.
Qed.

(** What [gradeAssignment] does to the store once the record is found:
    the graded record is written unless its percentage is [NaN]. *)
Lemma gradeAssignment_store req submissionId score maxScore grade feedback
    db r :
  findById submissionId (studentMilestones db) = Some r ->
  fst (gradeAssignment req submissionId score maxScore grade feedback db) =
    if isNaN (PercentOf (Js.toNumber score) (Js.toNumber maxScore))
    then db
    else set_studentMilestones
           (saveDoc (recordGrade score maxScore grade feedback (req_user req)
                       (req_now req) r)
                    (studentMilestones db)) db.
Proof.
  intros Hr.
  unfold gradeAssignment, Handler.tryCatch, Handler.bind, query.
  rewrite Hr.
  unfold saveScored, Handler.bind, Handler.lift, numberPath.
  cbn [sm_percentage recordGrade].
  destruct (isNaN _); [reflexivity|].
  destruct (findById (sm_student r) (users db));
    destruct (findById (sm_milestone r) (milestones db)); reflexivity.
Qed.
End QuizFacts.



Section StartFacts.
Import Progress.

Lemma forPair_true student milestone r :
  forPair student milestone r = true <-> pairKey r = (student, milestone).
Proof.
  unfold forPair, pairKey. rewrite andb_true_iff, !String.eqb_eq.
  split; [intros [-> ->]; reflexivity|intros [= -> ->]; auto].
Qed.

Lemma find_none_not_in {A} (q : A -> bool) (c : list A) :
  List.find q c = None -> forall x, x ∈ c -> q x = false.
Proof.
  intros Hnone x Hx. apply list_elem_of_In in Hx.
  eapply List.find_none in Hnone; eauto.
Qed.

Lemma findOne_none_key student milestone c :
  findOne (forPair student milestone) c = None ->
  (student, milestone) ∉ pairKey <$> c.
Proof.
  intros Hnone Hin. apply list_elem_of_fmap in Hin as [r [Hkey Hr]].
  pose proof (find_none_not_in _ _ Hnone r Hr) as Hq.
  symmetry in Hkey. apply forPair_true in Hkey. congruence.
Qed.

Lemma findById_none_id id (c : list StudentMilestone) :
  findById id c = None -> id ∉ sm_id <$> c.
Proof.
  intros Hnone Hin. apply list_elem_of_fmap in Hin as [r [Hid Hr]].
  pose proof (find_none_not_in _ _ Hnone r Hr) as Hq.
  unfold hasId in Hq. apply String.eqb_neq in Hq. apply Hq. symmetry. exact Hid.
Qed.

(** Saving over a freshly appended document. *)
Lemma saveDoc_appended (r r' : StudentMilestone) c :
  findById (sm_id r) c = None ->
  sm_id r' = sm_id r ->
  saveDoc r' (c ++ [r]) = c ++ [r'].
Proof.
  intros Hfresh Hid. unfold saveDoc. rewrite fmap_app. f_equal.
  - rewrite <- (list_fmap_id c) at 2. apply list_fmap_ext.
    intros i x Hx. apply list_elem_of_lookup_2 in Hx.
    pose proof (find_none_not_in _ _ Hfresh x Hx) as Hq.
    change (docId r') with (sm_id r'). rewrite Hid.
    change (hasId (sm_id r) x) with (hasId (docId r) x) in *.
    unfold hasId in *. cbn in *. rewrite Hq. reflexivity.
  - cbn. change (docId r') with (sm_id r'). rewrite Hid.
    unfold hasId. change (docId r) with (sm_id r).
    rewrite String.eqb_refl. reflexivity.
Qed.

Lemma Indexed_append r c :
  Indexed c ->
  findById (sm_id r) c = None ->
  findOne (forPair (sm_student r) (sm_milestone r)) c = None ->
  Indexed (c ++ [r]).
Proof.
  intros [Hids Hkeys] Hfresh Hpair. split; rewrite fmap_app; cbn.
  - apply NoDup_app. split; [exact Hids|]. split; [|apply NoDup_singleton].
    intros x Hx Hx'. apply list_elem_of_singleton in Hx'. subst x.
    eapply findById_none_id; eauto.
  - apply NoDup_app. split; [exact Hkeys|]. split; [|apply NoDup_singleton].
    intros x Hx Hx'. apply list_elem_of_singleton in Hx'. subst x.
    eapply findOne_none_key; eauto.
Qed.

(** The ways [startMilestone] ends on a published milestone. *)
Lemma startMilestone_cases req milestoneId db m :
  findById milestoneId (milestones db) = Some m ->
  isPublished m = true ->
  startMilestone req milestoneId db =
    match findOne (forPair (req_user req) milestoneId)
                  (studentMilestones db) with
    | Some r => (db, respond 200 "Milestone already started" r)
    | None =>
        match findById (req_newId req) (studentMilestones db) with
        | Some _ =>
            (db, serverError "Failed to start milestone" (DuplicateKey "_id"))
        | None =>
            (set_studentMilestones
               (studentMilestones db ++ [started req milestoneId m]) db,
             respond 200 "Milestone started successfully"
               (started req milestoneId m))
        end
    end.
Proof.
  intros Hm Hpub.
  unfold startMilestone, Handler.tryCatch, Handler.bind, query.
  rewrite Hm, Hpub. cbn [negb].
  destruct (findOne _ (studentMilestones db)) as [r|] eqn:Hr; [reflexivity|].
  unfold create, writeChecked, Handler.bind, insertProgress, insertDoc.
  cbn [sm_student sm_milestone newProgress docId student_milestone_document
       sm_id].
  rewrite Hr.
  destruct (findById (req_newId req) (studentMilestones db)) eqn:Hfresh;
    [reflexivity|].
  unfold started. destruct (isTimed m); [|reflexivity].
  unfold save, write, Handler.ret. cbn [studentMilestones set_studentMilestones].
  rewrite saveDoc_appended; [reflexivity|exact Hfresh|reflexivity].
Qed.

Lemma startMilestone_success req milestoneId db :
  success (snd (startMilestone req milestoneId db)) = true ->
  exists m, findById milestoneId (milestones db) = Some m
            /\ isPublished m = true.
Proof.
  unfold startMilestone, Handler.tryCatch, Handler.bind, query.
  destruct (findById milestoneId (milestones db)) as [m|]; [|discriminate].
  destruct (isPublished m) eqn:Hpub; [|discriminate].
  intros _. exists m. split; [reflexivity|exact Hpub].
Qed.
End StartFacts.

Section AssignmentFacts.
Import Progress.

Lemma uploadAll_some files :
  files <> [] ->
  uploadAll files
  = inl (TypeError "Cannot read properties of undefined (reading 'upload')").
Proof.
  destruct files; [congruence|reflexivity].
Qed.

(** The ways [submitAssignment] ends on an assignment milestone. *)
Lemma submitAssignment_cases req milestoneId text files db m :
  findById milestoneId (milestones db) = Some m ->
  isAssignment m = true ->
  let fresh := newProgress (req_newId req) (req_user req) milestoneId
                           (milestone_chainId m) (req_now req) 0 in
  let finish (r : StudentMilestone) (before : DB) :=
    match uploadAll (default [] files) with
    | inl e => (before, serverError "Failed to submit assignment" e)
    | inr uploaded =>
        (set_studentMilestones
           (saveDoc (handedIn uploaded text (req_now req) r)
                    (studentMilestones before)) before,
         respond 200 "Assignment submitted successfully"
           (handedIn uploaded text (req_now req) r))
    end in
  submitAssignment req milestoneId text files db =
    match findOne (forPair (req_user req) milestoneId)
                  (studentMilestones db) with
    | Some r => finish r db
    | None =>
        match findById (req_newId req) (studentMilestones db) with
        | Some _ =>
            (db, serverError "Failed to submit assignment"
                   (DuplicateKey "_id"))
        | None =>
            finish fresh
              (set_studentMilestones (studentMilestones db ++ [fresh]) db)
        end
    end.
Proof.
  intros Hm Hassign fresh finish. subst finish fresh.
  unfold submitAssignment, Handler.tryCatch, Handler.bind, query.
  rewrite Hm, Hassign. cbn [negb].
  destruct (findOne _ (studentMilestones db)) as [r|] eqn:Hr.
  - unfold Handler.ret, Handler.lift.
    destruct (uploadAll _); reflexivity.
  - unfold create, writeChecked, Handler.bind, insertProgress, insertDoc.
    cbn [sm_student sm_milestone newProgress docId student_milestone_document
         sm_id].
    rewrite Hr.
    destruct (findById (req_newId req) (studentMilestones db));
      [reflexivity|].
    unfold Handler.ret, Handler.lift.
    destruct (uploadAll _); reflexivity.
Qed.
End AssignmentFacts.

Section IndexFacts.
Import Progress.

Lemma NoDup_fmap_same {A B} (f : A -> B) (l : list A) x y :
  NoDup (f <$> l) -> x ∈ l -> y ∈ l -> f x = f y -> x = y.
Proof.
  induction l as [|a l IH]; intros Hnd Hx Hy Hf.
  - apply elem_of_nil in Hx. contradiction.
  - cbn in Hnd. apply NoDup_cons in Hnd as [Hnotin Hnd].
    apply elem_of_cons in Hx as [->|Hx]; apply elem_of_cons in Hy as [->|Hy].
    + reflexivity.
    + exfalso. apply Hnotin. rewrite Hf. apply list_elem_of_fmap_2. exact Hy.
    + exfalso. apply Hnotin. rewrite <- Hf. apply list_elem_of_fmap_2. exact Hx.
    + auto.
Qed.

(** Saving a modified copy of a stored record that keeps its [_id],
    student and milestone keeps both indexes. *)
Lemma Indexed_saveDoc (r r' : StudentMilestone) c :
  Indexed c ->
  r ∈ c ->
  sm_id r' = sm_id r ->
  pairKey r' = pairKey r ->
  Indexed (saveDoc r' c).
Proof.
  intros [Hids Hkeys] Hr Hid Hkey. unfold Indexed, saveDoc.
  rewrite <- !list_fmap_compose.
  assert (Hsame_id : (sm_id ∘ (fun x => if hasId (docId r') x then r' else x))
                       <$> c = sm_id <$> c).
  { apply list_fmap_ext. intros i x _. cbn.
    destruct (hasId (docId r') x) eqn:Hx; [|reflexivity].
    apply hasId_eq in Hx. symmetry. exact Hx. }
  assert (Hsame_key : (pairKey ∘ (fun x => if hasId (docId r') x then r' else x))
                        <$> c = pairKey <$> c).
  { apply list_fmap_ext. intros i x Hx. cbn.
    destruct (hasId (docId r') x) eqn:Hhas; [|reflexivity].
    apply hasId_eq in Hhas. apply list_elem_of_lookup_2 in Hx.
    assert (x = r) as ->.
    { apply (NoDup_fmap_same sm_id c); auto.
      transitivity (sm_id r'); [exact Hhas|exact Hid]. }
    exact Hkey. }
  rewrite Hsame_id, Hsame_key. split; assumption.
Qed.

Lemma find_some_elem {A} (q : A -> bool) (c : list A) (d : A) :
  List.find q c = Some d -> d ∈ c.
Proof.
  intros Hf. apply List.find_some in Hf as [Hin _].
  apply list_elem_of_In. exact Hin.
Qed.

Lemma startMilestone_keeps_indexes req milestoneId db :
  Indexed (studentMilestones db) ->
  Indexed (studentMilestones (fst (startMilestone req milestoneId db))).
Proof.
  intros Hidx.
  destruct (findById milestoneId (milestones db)) as [m|] eqn:Hm.
  - destruct (isPublished m) eqn:Hpub.
    + rewrite (startMilestone_cases req milestoneId db m Hm Hpub).
      destruct (findOne _ (studentMilestones db)) eqn:Hr; [exact Hidx|].
      destruct (findById (req_newId req) (studentMilestones db)) eqn:Hfresh;
        [exact Hidx|].
      cbn [fst studentMilestones set_studentMilestones].
      apply Indexed_append; [exact Hidx| |];
        unfold started; destruct (isTimed m); assumption.
    + unfold startMilestone, Handler.tryCatch, Handler.bind, query.
      rewrite Hm, Hpub. exact Hidx.
  - unfold startMilestone, Handler.tryCatch, Handler.bind, query.
    rewrite Hm. exact Hidx.
Qed.

Lemma submitAssignment_keeps_indexes req milestoneId text files db :
  Indexed (studentMilestones db) ->
  Indexed (studentMilestones
             (fst (submitAssignment req milestoneId text files db))).
Proof.
  intros Hidx.
  destruct (findById milestoneId (milestones db)) as [m|] eqn:Hm.
  - destruct (isAssignment m) eqn:Hassign.
    + rewrite (submitAssignment_cases req milestoneId text files db m
                 Hm Hassign).
      cbv zeta.
      destruct (findOne _ (studentMilestones db)) as [r|] eqn:Hr.
      * destruct (uploadAll _); [exact Hidx|].
        cbn [fst studentMilestones set_studentMilestones].
        apply Indexed_saveDoc with (r := r);
          [exact Hidx|eapply find_some_elem; exact Hr|reflexivity|reflexivity].
      * destruct (findById (req_newId req) (studentMilestones db)) eqn:Hfresh;
          [exact Hidx|].
        set (fresh := newProgress _ _ _ _ _ _).
        assert (Hnew : Indexed (studentMilestones db ++ [fresh])).
        { apply Indexed_append; assumption. }
        destruct (uploadAll _); [exact Hnew|].
        cbn [fst studentMilestones set_studentMilestones].
        apply Indexed_saveDoc with (r := fresh);
          [exact Hnew| |reflexivity|reflexivity].
        apply elem_of_app. right. apply list_elem_of_singleton. reflexivity.
    + unfold submitAssignment, Handler.tryCatch, Handler.bind, query.
      rewrite Hm, Hassign. exact Hidx.
  - unfold submitAssignment, Handler.tryCatch, Handler.bind, query.
    rewrite Hm. exact Hidx.
Qed.

Lemma submitQuizAnswers_keeps_indexes req milestoneId answers db :
  Indexed (studentMilestones db) ->
  Indexed (studentMilestones
             (fst (submitQuizAnswers req milestoneId answers db))).
Proof.
  intros Hidx.
  destruct (findById milestoneId (milestones db)) as [m|] eqn:Hm.
  - destruct (isTimed m) eqn:Htimed.
    + destruct (findOne (forPair (req_user req) milestoneId)
                        (studentMilestones db)) as [r|] eqn:Hr.
      * rewrite (submitQuizAnswers_cases req milestoneId answers db m r
                   Hm Htimed Hr).
        pose proof (find_some_elem _ _ _ Hr) as Hin.
        destruct (timedOut (req_now req) m r).
        -- cbn [fst studentMilestones set_studentMilestones].
           apply Indexed_saveDoc with (r := r); auto.
        -- destruct answers; [|exact Hidx].
           destruct (numberPath _ _); [exact Hidx|].
           cbn [fst studentMilestones set_studentMilestones].
           apply Indexed_saveDoc with (r := r); auto.
      * unfold submitQuizAnswers, Handler.tryCatch, Handler.bind, query.
        rewrite Hm, Htimed. cbn [negb]. rewrite Hr. exact Hidx.
    + unfold submitQuizAnswers, Handler.tryCatch, Handler.bind, query.
      rewrite Hm, Htimed. exact Hidx.
  - unfold submitQuizAnswers, Handler.tryCatch, Handler.bind, query.
    rewrite Hm. exact Hidx.
Qed.

Lemma gradeAssignment_keeps_indexes req submissionId score maxScore grade
    feedback db :
  Indexed (studentMilestones db) ->
  Indexed (studentMilestones
             (fst (gradeAssignment req submissionId score maxScore grade
                     feedback db))).
Proof.
  intros Hidx.
  destruct (findById submissionId (studentMilestones db)) as [r|] eqn:Hr.
  - rewrite (gradeAssignment_store _ _ _ _ _ _ _ _ Hr).
    destruct (isNaN _); [exact Hidx|].
    cbn [studentMilestones set_studentMilestones].
    apply Indexed_saveDoc with (r := r);
      [exact Hidx|eapply find_some_elem; exact Hr|reflexivity|reflexivity].
  - unfold gradeAssignment, Handler.tryCatch, Handler.bind, query.
    rewrite Hr. exact Hidx.
Qed.

(** No request breaks the indexes. *)
Lemma serve_keeps_indexes call db :
  Indexed (studentMilestones db) -> Indexed (studentMilestones (serve call db)).
Proof.
  destruct call; cbn [serve].
  - apply startMilestone_keeps_indexes.
  - apply submitAssignment_keeps_indexes.
  - apply submitQuizAnswers_keeps_indexes.
  - apply gradeAssignment_keeps_indexes.
Qed.

Lemma serveAll_keeps_indexes calls : forall db,
  Indexed (studentMilestones db) ->
  Indexed (studentMilestones (serveAll calls db)).
Proof.
  induction calls as [|call calls IH]; intros db Hidx; cbn.
  - exact Hidx.
  - apply IH. apply serve_keeps_indexes. exact Hidx.
Qed.

(** In an indexed collection a pair has at most one record. *)
Lemma Indexed_one_record c r1 r2 :
  Indexed c -> r1 ∈ c -> r2 ∈ c -> pairKey r1 = pairKey r2 -> r1 = r2.
Proof. intros [_ Hkeys]. apply NoDup_fmap_same. exact Hkeys. Qed.
End IndexFacts.

(** C9.  [startMilestone] is idempotent.  After a successful call, a second
    call by the same student for the same milestone, at whatever later
    time, creates and modifies nothing and returns the very record the
    first call returned, which is the record of the pair in the store.
    And a pair never has two records: in a store that respects the
    collection's unique indexes, on [_id] and on (student, milestone), any
    two records of one student and one milestone are the same record,
    whatever requests are served afterwards. *)
Theorem startMilestone_idempotent req again milestoneId db :
  req_user again = req_user req ->
  success (snd (Progress.startMilestone req milestoneId db)) = true ->
  let '(db1, first) := Progress.startMilestone req milestoneId db in
  let '(db2, second) := Progress.startMilestone again milestoneId db1 in
  db2 = db1
  /\ (exists r,
        body first = Some r
        /\ second = respond 200 "Milestone already started" r
        /\ findOne (Progress.forPair (req_user req) milestoneId)
                   (studentMilestones db1) = Some r)
  /\ (Indexed (studentMilestones db) ->
      forall calls r1 r2,
        r1 ∈ studentMilestones (serveAll calls db1) ->
        r2 ∈ studentMilestones (serveAll calls db1) ->
        sm_student r1 = sm_student r2 ->
        sm_milestone r1 = sm_milestone r2 ->
        r1 = r2).
Proof.
  intros Huser Hok.
  assert (Hever : forall db1,
             Indexed (studentMilestones db1) ->
             forall calls r1 r2,
               r1 ∈ studentMilestones (serveAll calls db1) ->
               r2 ∈ studentMilestones (serveAll calls db1) ->
               sm_student r1 = sm_student r2 ->
               sm_milestone r1 = sm_milestone r2 ->
               r1 = r2).
  { intros db1 Hidx calls r1 r2 H1 H2 Hs Hm.
    apply (Indexed_one_record (studentMilestones (serveAll calls db1)));
      [apply serveAll_keeps_indexes; exact Hidx|exact H1|exact H2|].
    unfold pairKey. rewrite Hs, Hm. reflexivity. }
  pose proof (startMilestone_keeps_indexes req milestoneId db) as Hkeeps.
  destruct (startMilestone_success _ _ _ Hok) as [m [Hm Hpub]].
  rewrite (startMilestone_cases req milestoneId db m Hm Hpub) in *.
  destruct (findOne _ (studentMilestones db)) as [r|] eqn:Hr.
  - rewrite (startMilestone_cases again milestoneId db m Hm Hpub).
    rewrite Huser, Hr. split; [reflexivity|].
    split; [|intros Hidx; apply Hever; exact Hidx].
    exists r. auto.
  - destruct (findById (req_newId req) (studentMilestones db)) eqn:Hfresh;
      [discriminate Hok|].
    assert (Hpair : Progress.forPair (req_user req) milestoneId
                      (started req milestoneId m) = true).
    { apply forPair_true. unfold started.
      destruct (Progress.isTimed m); reflexivity. }
    assert (Hfound : findOne (Progress.forPair (req_user req) milestoneId)
                       (studentMilestones db ++ [started req milestoneId m])
                     = Some (started req milestoneId m)).
    { apply find_app_none; assumption. }
    rewrite (startMilestone_cases again milestoneId
               (set_studentMilestones
                  (studentMilestones db ++ [started req milestoneId m]) db)
               m Hm Hpub).
    cbn [studentMilestones set_studentMilestones].
    rewrite Huser, Hfound. split; [reflexivity|]. split.
    + exists (started req milestoneId m). auto.
    + intros Hidx. apply Hever. apply Hkeeps. exact Hidx.
Qed.


(** C10.  [submitAssignment] on an assignment milestone looks neither at
    the clock nor at the milestone's start date, end date and published
    status, and creates the student's record when there is none (the
    driver's new id being unused).  A request without files succeeds: the
    record of the pair ends in status 'submitted' with the new submission
    appended, and when it was missing it is the one new document of the
    collection.  A request with a file does not: the first upload throws,
    the answer is 500, an existing record is left as it was, and a record
    created by the call stays behind in status 'in-progress' without a
    submission. *)
Theorem submitAssignment_succeeds_only_without_files req milestoneId text
    files db m :
  findById milestoneId (milestones db) = Some m ->
  milestone_type m = Assignment ->
  (findOne (Progress.forPair (req_user req) milestoneId)
           (studentMilestones db) = None ->
   findById (req_newId req) (studentMilestones db) = None) ->
  let '(db', response) :=
    Progress.submitAssignment req milestoneId text files db in
  match default [] files with
  | [] =>
      exists r,
        response = respond 200 "Assignment submitted successfully" r
        /\ findOne (Progress.forPair (req_user req) milestoneId)
                   (studentMilestones db') = Some r
        /\ sm_status r = Submitted
        /\ last (sm_submissions r) = Some (mkSubmission [] text (req_now req))
        /\ milestones db' = milestones db
        /\ (findOne (Progress.forPair (req_user req) milestoneId)
                    (studentMilestones db) = None ->
            sm_id r = req_newId req
            /\ length (studentMilestones db')
               = S (length (studentMilestones db)))
  | _ :: _ =>
      response
      = serverError "Failed to submit assignment"
          (TypeError "Cannot read properties of undefined (reading 'upload')")
      /\ code response = 500
      /\ success response = false
      /\ match findOne (Progress.forPair (req_user req) milestoneId)
                       (studentMilestones db) with
         | Some _ => db' = db
         | None =>
             exists r,
               findOne (Progress.forPair (req_user req) milestoneId)
                       (studentMilestones db') = Some r
               /\ sm_id r = req_newId req
               /\ sm_status r = InProgress
               /\ sm_submissions r = []
         end
  end.
Proof.
  intros Hm Htype Hfresh.
  assert (Hassign : Progress.isAssignment m = true).
  { unfold Progress.isAssignment. rewrite Htype. reflexivity. }
  rewrite (submitAssignment_cases req milestoneId text files db m Hm Hassign).
  cbv zeta.
  destruct (default [] files) as [|file rest].
  - cbn [Progress.uploadAll].
    destruct (findOne _ (studentMilestones db)) as [r|] eqn:Hr.
    + exists (handedIn [] text (req_now req) r).
      split; [reflexivity|]. split; [|split; [reflexivity|split; [|split]]].
      * cbn [studentMilestones set_studentMilestones].
        apply findOne_save with (r := r); [exact Hr|reflexivity|].
        pose proof (find_some_holds _ _ _ Hr) as Hq.
        apply forPair_true in Hq. apply forPair_true. exact Hq.
      * cbn. apply last_snoc.
      * reflexivity.
      * intros Habsent. discriminate Habsent.
    + rewrite (Hfresh eq_refl).
      set (fresh := Progress.newProgress _ _ _ _ _ _).
      assert (Hsaved : saveDoc (handedIn [] text (req_now req) fresh)
                         (studentMilestones db ++ [fresh])
                       = studentMilestones db
                         ++ [handedIn [] text (req_now req) fresh]).
      { apply saveDoc_appended; [exact (Hfresh eq_refl)|reflexivity]. }
      exists (handedIn [] text (req_now req) fresh).
      split; [reflexivity|]. split; [|split; [reflexivity|split; [|split]]].
      * cbn [studentMilestones set_studentMilestones]. rewrite Hsaved.
        apply find_app_none; [exact Hr|].
        apply forPair_true. reflexivity.
      * cbn. reflexivity.
      * reflexivity.
      * intros _. split; [reflexivity|].
        cbn [studentMilestones set_studentMilestones]. rewrite Hsaved.
        rewrite length_app. cbn. lia.
  - cbn [Progress.uploadAll].
    destruct (findOne _ (studentMilestones db)) as [r|] eqn:Hr.
    + repeat split.
    + rewrite (Hfresh eq_refl).
      split; [reflexivity|]. split; [reflexivity|]. split; [reflexivity|].
      set (fresh := Progress.newProgress _ _ _ _ _ _).
      exists fresh. cbn [studentMilestones set_studentMilestones snd fst].
      split; [|repeat split; reflexivity].
      apply find_app_none; [exact Hr|].
      apply forPair_true. reflexivity.
Qed.

(** ** Exam schedules: round-robin distribution *)

Section ClockFacts.



Lemma clock_0900 : Layout.clock (9 * 60) = "09:00".
Proof. vm_compute. reflexivity. Qed.


End ClockFacts.

Section RoundRobinFacts.
Variable tomorrow : Date -> Date.
Variable mentors : list User.
Variable start : Date.
Variable duration : Z.
Hypothesis some_mentor : mentors <> [].
Hypothesis step_nonneg : -10 <= duration.



End RoundRobinFacts.


(** Scenario D: three mentors, seven teams, thirty-minute slots. *)
Example scenario_D :
  (fun s => (slot_mentor s, slot_team s, slot_scheduledTime s))
    <$> default []
          (exam_slots
             <$> body (snd (Schedules.randomDistributeTeams Sample.utc Sample.admin "exam1"
                              Sample.examDay)))
  = [ ("mentor1", Some "team1", "09:00"); ("mentor2", Some "team2", "09:40");
      ("mentor3", Some "team3", "10:20"); ("mentor1", Some "team4", "11:00");
      ("mentor2", Some "team5", "11:40"); ("mentor3", Some "team6", "12:20");
      ("mentor1", Some "team7", "13:00") ].
Proof. vm_compute. reflexivity. Qed.

(** With slots of 170 minutes the clock steps by three hours: the fourth
    slot would start at 18:00 and opens the next day instead. *)
Example rollover_at_1800 :
  (fun s => ((slot_scheduledDate s - Sample.day0) / dayMs, slot_scheduledTime s))
    <$> default []
          (exam_slots
             <$> body (snd (Schedules.randomDistributeTeams Sample.utc Sample.admin "exam1"
                              Sample.longViva)))
  = [ (0, "09:00"); (0, "12:00"); (0, "15:00"); (1, "09:00"); (1, "12:00");
      (1, "15:00"); (2, "09:00") ].
Proof. vm_compute. reflexivity. Qed.

(** The same distribution on a server where the clocks go forward in the
    first night: the slots of the second day are 23 hours after 09:00 of
    the first, those of the third day 47 hours. *)
Example rollover_across_clock_change :
  (fun s => ((slot_scheduledDate s - Sample.day0) / 3600000,
             slot_scheduledTime s))
    <$> default []
          (exam_slots
             <$> body (snd (Schedules.randomDistributeTeams Sample.springForward
                              Sample.admin "exam1" Sample.longViva)))
  = [ (0, "09:00"); (0, "12:00"); (0, "15:00"); (23, "09:00"); (23, "12:00");
      (23, "15:00"); (47, "09:00") ].
Proof. vm_compute. reflexivity. Qed.

(** ** Exam schedules: manual assignment *)

(** C1.  Two manual assignments of the same team to two mentors: both
    calls answer 200 and the saved schedule holds the team in two slots.
    [manualAssignTeam] pushes the slot without a scan for the team among
    the slots already stored. *)
Theorem manualAssignTeam_assigns_team_twice :
  let '(db1, first) :=
    Schedules.manualAssignTeam Sample.admin "exam1" Sample.firstAssignment
                               Sample.examDay in
  let '(db2, second) :=
    Schedules.manualAssignTeam Sample.admin "exam1" Sample.secondAssignment
                               db1 in
  code first = 200 /\ code second = 200 /\ success second = true
  /\ exists saved,
      findById "exam1" (examSchedules db2) = Some saved
      /\ Schedules.assignedTeams saved = ["team1"; "team1"]
      /\ ~ NoDup (Schedules.assignedTeams saved).
Proof.
  vm_compute. repeat split.
  eexists. split; [reflexivity|]. split; [reflexivity|].
  intros Hnodup. apply NoDup_cons in Hnodup as [Hnotin _].
  apply Hnotin. left.
Qed.

Section SavedFacts.
Import Schedules.

Lemma preSave_id s : exam_id (preSave s) = exam_id s.
Proof. unfold preSave. destruct (exam_slots s); reflexivity. Qed.

(** A schedule read back after [save()]. *)
Lemma preSave_saved (s : ExamSchedule) (c : list ExamSchedule) id d :
  findById id c = Some d ->
  exam_id s = id ->
  findById id (saveDoc (preSave s) c) = Some (preSave s).
Proof.
  intros Hd Hid. eapply refetch_saved; [exact Hd|].
  cbn [docId exam_schedule_document]. rewrite preSave_id. exact Hid.
Qed.
End SavedFacts.

Section DistributionFacts.
Import Schedules.

Lemma placeTeams_teams tomorrow mentors duration teams : forall c c',
  placeTeams tomorrow mentors duration c teams = inr c' ->
  omap slot_team (cursor_slots c')
  = omap slot_team (cursor_slots c) ++ (team_id <$> teams).
Proof.
  induction teams as [|team rest IH]; intros c c' Hrun; cbn in Hrun.
  - injection Hrun as <-. rewrite app_nil_r. reflexivity.
  - unfold placeTeam in Hrun.
    destruct (mentors !! _) as [mentor|]; [|discriminate].
    destruct (advance (cursor_slotTime c) duration) as [nextDay slotTime].
    apply IH in Hrun. rewrite Hrun. cbn [cursor_slots].
    rewrite omap_app, <- app_assoc. reflexivity.
Qed.

(** A successful bulk distribution leaves exactly the listed teams in the
    legacy slots, each once when the team ids are distinct. *)
Lemma randomDistributeTeams_each_team_once tomorrow req id db s :
  findById id (examSchedules db) = Some s ->
  NoDup (team_id <$> teams db) ->
  let '(db', response) := randomDistributeTeams tomorrow req id db in
  success response = true ->
  exists saved,
    findById id (examSchedules db') = Some saved
    /\ omap slot_team (exam_slots saved) = team_id <$> teams db
    /\ NoDup (omap slot_team (exam_slots saved)).
Proof.
  intros Hs Hnodup.
  assert (Hid : exam_id s = id).
  { apply (hasId_eq id s). eapply find_some_holds. exact Hs. }
  unfold randomDistributeTeams, Handler.tryCatch, Handler.bind, query.
  rewrite Hs.
  destruct (length (findAll isMentor (users db)) =? 0)%nat; [discriminate|].
  destruct (length (teams db) =? 0)%nat; [discriminate|].
  destruct (placeTeams _ _ _ _ _) as [e|final] eqn:Hrun; [discriminate|].
  apply placeTeams_teams in Hrun. cbn [cursor_slots omap list_omap app] in Hrun.
  intros _. unfold save, Handler.bind, write, Handler.ret.
  cbn [Handler.lift Handler.ret fst snd examSchedules set_examSchedules].
  eexists. split.
  - apply refetch_saved with (d := s); [exact Hs|].
    rewrite <- Hid. cbn [docId exam_schedule_document].
    rewrite preSave_id. reflexivity.
  - assert (Hslots : forall x, exam_slots (preSave x) = exam_slots x).
    { intros x. unfold preSave. destruct (exam_slots x) eqn:Hx; cbn; auto. }
    rewrite Hslots. cbn [exam_slots set_status set_assignmentType set_slots].
    rewrite Hrun. split; [reflexivity|exact Hnodup].
Qed.
End DistributionFacts.

(** ** Exam schedules: the mentor's time budget *)

Section MentorFacts.
Import Schedules.




End MentorFacts.


(** ** Instances on the sample data *)

Lemma publishChain_empty_chain_rejected_witness :
  findById "chain2" (chains Sample.campus) = Some Sample.editingChain
  /\ chain_status Sample.editingChain = ChainEditing
  /\ findAll (Chains.inChain "chain2") (milestones Sample.campus) = []
  /\ (let '(db', response) :=
        Chains.publishChain Sample.admin "chain2" Sample.campus in
      code response = 400
      /\ success response = false
      /\ message response
         = "Cannot publish empty chain. Please add milestones first."
      /\ db' = Sample.campus
      /\ chain_status <$> findById "chain2" (chains db') = Some ChainEditing).
Proof.
  split; [reflexivity|]. split; [reflexivity|]. split; [reflexivity|].
  apply (publishChain_empty_chain_rejected Sample.admin "chain2" Sample.campus
           Sample.editingChain); reflexivity.
Defined.


Lemma submitQuizAnswers_time_limit_witness :
  findById "milestone2" (milestones Sample.examWeek) = Some Sample.quiz
  /\ Progress.isTimed Sample.quiz = true
  /\ findOne (Progress.forPair (req_user Sample.studentLater) "milestone2")
             (studentMilestones Sample.examWeek)
     = Some (Sample.attempt "progress1" "milestone2")
  /\ milestone_duration Sample.quiz = Some 30
  /\ 30 <> 0
  /\ sm_quizStartedAt (Sample.attempt "progress1" "milestone2")
     = Some Sample.day0
  /\ 30 * 60000 < req_now Sample.studentLater - Sample.day0
  /\ (let '(db', response) :=
        Progress.submitQuizAnswers Sample.studentLater "milestone2" (Some [])
                                   Sample.examWeek in
      code response = 400
      /\ success response = false
      /\ message response = "Time limit exceeded"
      /\ db' = set_studentMilestones
                 (saveDoc (Progress.set_status Failed
                             (Sample.attempt "progress1" "milestone2"))
                          (studentMilestones Sample.examWeek))
                 Sample.examWeek
      /\ exists r',
           findOne (Progress.forPair (req_user Sample.studentLater) "milestone2")
                   (studentMilestones db') = Some r'
           /\ sm_status r' = Failed
           /\ sm_score r' = sm_score (Sample.attempt "progress1" "milestone2")
           /\ sm_maxScore r'
              = sm_maxScore (Sample.attempt "progress1" "milestone2")
           /\ sm_percentage r'
              = sm_percentage (Sample.attempt "progress1" "milestone2")
           /\ sm_answers r'
              = sm_answers (Sample.attempt "progress1" "milestone2")).
Proof.
  split; [reflexivity|]. split; [reflexivity|]. split; [reflexivity|].
  split; [reflexivity|]. split; [lia|]. split; [reflexivity|].
  split; [reflexivity|].
  apply (submitQuizAnswers_time_limit Sample.studentLater "milestone2" (Some [])
           Sample.examWeek Sample.quiz (Sample.attempt "progress1" "milestone2")
           30 Sample.day0); try reflexivity. lia.
Defined.


Lemma createMilestone_requires_republish_witness :
  findById "chain1" (chains Sample.campus) = Some Sample.publishedChain
  /\ (let published := Chains.isPublished Sample.publishedChain in
      let '(db', response) :=
        Milestones.createMilestone Sample.admin "chain1" Sample.newFields
                                   Sample.campus in
      chain_status <$> findById "chain1" (chains db')
        = Some (if published then ChainEditing
                else chain_status Sample.publishedChain)
      /\ (forall m,
            Milestones.newMilestone (req_newId Sample.admin) "chain1"
              (req_user Sample.admin) Sample.newFields = inr m ->
            findById (req_newId Sample.admin) (milestones Sample.campus) = None ->
            code response = 201
            /\ success response = true
            /\ body response
               = Some (Milestones.mkEdited m published
                         (if published then ChainEditing
                          else chain_status Sample.publishedChain))
            /\ milestones db' = milestones Sample.campus ++ [m])
      /\ (code response <> 201 -> milestones db' = milestones Sample.campus)).
Proof.
  split; [reflexivity|].
  apply (createMilestone_requires_republish Sample.admin "chain1"
           Sample.newFields Sample.campus Sample.publishedChain).
  reflexivity.
Defined.


Lemma startMilestone_idempotent_witness :
  req_user Sample.studentLater = req_user Sample.student
  /\ success (snd (Progress.startMilestone Sample.student "milestone2"
                     Sample.campus)) = true
  /\ (let '(db1, first) :=
        Progress.startMilestone Sample.student "milestone2" Sample.campus in
      let '(db2, second) :=
        Progress.startMilestone Sample.studentLater "milestone2" db1 in
      db2 = db1
      /\ (exists r,
            body first = Some r
            /\ second = respond 200 "Milestone already started" r
            /\ findOne (Progress.forPair (req_user Sample.student) "milestone2")
                       (studentMilestones db1) = Some r)
      /\ (Indexed (studentMilestones Sample.campus) ->
          forall calls r1 r2,
            r1 ∈ studentMilestones (serveAll calls db1) ->
            r2 ∈ studentMilestones (serveAll calls db1) ->
            sm_student r1 = sm_student r2 ->
            sm_milestone r1 = sm_milestone r2 ->
            r1 = r2)).
Proof.
  split; [reflexivity|]. split; [reflexivity|].
  apply (startMilestone_idempotent Sample.student Sample.studentLater
           "milestone2" Sample.campus); reflexivity.
Defined.

Lemma submitAssignment_succeeds_only_without_files_witness :
  findById "milestone1" (milestones Sample.campus) = Some Sample.report
  /\ milestone_type Sample.report = Assignment
  /\ req_now Sample.student < milestone_startDate Sample.report
  /\ findOne (Progress.forPair (req_user Sample.student) "milestone1")
             (studentMilestones Sample.campus) = None
  /\ findById (req_newId Sample.student) (studentMilestones Sample.campus)
     = None
  /\ (let '(db', response) :=
        Progress.submitAssignment Sample.student "milestone1"
          (Some "My report is in the text.") None Sample.campus in
      exists r,
        response = respond 200 "Assignment submitted successfully" r
        /\ findOne (Progress.forPair (req_user Sample.student) "milestone1")
                   (studentMilestones db') = Some r
        /\ sm_status r = Submitted
        /\ last (sm_submissions r)
           = Some (mkSubmission [] (Some "My report is in the text.")
                     (req_now Sample.student))
        /\ milestones db' = milestones Sample.campus
        /\ (findOne (Progress.forPair (req_user Sample.student) "milestone1")
                    (studentMilestones Sample.campus) = None ->
            sm_id r = req_newId Sample.student
            /\ length (studentMilestones db')
               = S (length (studentMilestones Sample.campus))))
  /\ (let '(db', response) :=
        Progress.submitAssignment Sample.student "milestone1"
          (Some "Please find my report attached.") (Some [Sample.essay])
          Sample.campus in
      response
      = serverError "Failed to submit assignment"
          (TypeError "Cannot read properties of undefined (reading 'upload')")
      /\ code response = 500
      /\ success response = false
      /\ exists r,
           findOne (Progress.forPair (req_user Sample.student) "milestone1")
                   (studentMilestones db') = Some r
           /\ sm_id r = req_newId Sample.student
           /\ sm_status r = InProgress
           /\ sm_submissions r = []).
Proof.
  split; [reflexivity|]. split; [reflexivity|]. split; [reflexivity|].
  split; [reflexivity|]. split; [reflexivity|]. split.
  - apply (submitAssignment_succeeds_only_without_files Sample.student
             "milestone1" (Some "My report is in the text.") None
             Sample.campus Sample.report);
      [reflexivity|reflexivity|intros _; reflexivity].
  - apply (submitAssignment_succeeds_only_without_files Sample.student
             "milestone1" (Some "Please find my report attached.")
             (Some [Sample.essay]) Sample.campus Sample.report);
      [reflexivity|reflexivity|intros _; reflexivity].
Defined.

(** * Further properties of the controllers *)

(** ** Clock strings *)

Lemma readsBack_whole_day : forallb readsBack (seq 0 1440) = true.
Proof. vm_compute. reflexivity. Qed.

Lemma hourMinute_clock_day t :
  0 <= t < 1440 ->
  Js.hourMinute (Layout.clock t)
  = (Some (Js.Int (t / 60)), Some (Js.Int (t mod 60))).
Proof.
  intros Ht.
  pose proof readsBack_whole_day as Hall. rewrite List.forallb_forall in Hall.
  assert (Hin : In (Z.to_nat t) (seq 0 1440)) by (apply in_seq; lia).
  specialize (Hall _ Hin). unfold readsBack in Hall.
  rewrite Z2Nat.id in Hall by lia.
  destruct (Js.hourMinute _) as [[[h|]|] [[m|]|]]; try discriminate Hall.
  apply andb_true_iff in Hall as [Hh Hm].
  apply Z.eqb_eq in Hh, Hm. subst. reflexivity.
Qed.

(** X1.  Round trip of the clock format: for every minute [t] of a day, the
    string that the controllers build with [padStart] and a colon is split
    and read back by [split(':').map(Number)] as the hour [t / 60] and the
    minute [t mod 60]. *)
Theorem clock_round_trip t :
  0 <= t < 1440 ->
  Js.hourMinute
    (Js.clockString (Js.Int (t / 60)) (Js.Int (t mod 60)))
  = (Some (Js.Int (t / 60)), Some (Js.Int (t mod 60))).
Proof. intros Ht. exact (hourMinute_clock_day t Ht). Qed.

Lemma clock_round_trip_witness :
  0 <= 585 < 1440
  /\ Js.hourMinute
       (Js.clockString (Js.Int (585 / 60)) (Js.Int (585 mod 60)))
     = (Some (Js.Int (585 / 60)), Some (Js.Int (585 mod 60))).
Proof. split; [lia|]. apply (clock_round_trip 585). lia. Defined.

(** ** The per-mentor self-service handlers *)


(** ** What students see *)

Section ViewFacts.
Import Desk.

Lemma visibleFrom_shape now completed mine : forall listed visible i,
  i = length visible ->
  visibleFrom now completed mine i visible listed
  = visible
    ++ (openView mine <$> leading (isOpen now) listed)
    ++ (upcomingView completed mine
          <$> option_list (firstAfter (isOpen now) listed)).
Proof.
  induction listed as [|m rest IH]; intros visible i Hi.
  - cbn. rewrite app_nil_r. reflexivity.
  - cbn [visibleFrom leading firstAfter]. subst i.
    rewrite Nat.eqb_refl, orb_true_r. unfold isOpen.
    destruct (isPast now m) eqn:Hpast; cbn [orb negb andb].
    + rewrite IH by (rewrite length_app; cbn; lia).
      rewrite <- app_assoc. reflexivity.
    + destruct (isCurrent now m) eqn:Hcurrent; cbn [orb negb andb].
      * rewrite IH by (rewrite length_app; cbn; lia).
        rewrite <- app_assoc. reflexivity.
      * reflexivity.
Qed.

End ViewFacts.

(** X10.  What a student is shown of a chain: the published milestones in
    order up to and including the first one that is neither past nor
    current.  Those before it are never locked; the upcoming one is locked
    unless the student has completed it.  Milestones after the first
    upcoming one are left out even when they are current. *)
Theorem getMilestonesByChain_student_view req chainId db :
  let listed :=
    Desk.sortByOrder
      (findAll (fun m => Chains.inChain chainId m && Progress.isPublished m)
               (milestones db)) in
  let mine :=
    findAll (fun sm => String.eqb (sm_student sm) (req_user req)
                       && String.eqb (sm_chainId sm) chainId)
            (studentMilestones db) in
  let completed := sm_milestone <$> List.filter Desk.isCompleted mine in
  Desk.getMilestonesByChain "student" req chainId db
  = (db,
     respond 200 ""
       (inl ((openView mine <$> leading (isOpen (req_now req)) listed)
             ++ (upcomingView completed mine
                   <$> option_list (firstAfter (isOpen (req_now req)) listed))))).
Proof.
  intros listed mine completed.
  unfold Desk.getMilestonesByChain, Handler.tryCatch, Handler.bind, query.
  cbn [Desk.isStudent Desk.isMentorRole String.eqb Ascii.eqb Bool.eqb orb].
  change (String.eqb "student" "student") with true. cbn [orb].
  rewrite (visibleFrom_shape (req_now req) _ _ _ [] 0%nat eq_refl).
  reflexivity.
Qed.

(** ** Chains and their milestones *)

Section DeskFacts.
Context {A : Type} `{Document A}.

Lemma findById_updateMany (q : A -> bool) (f : A -> A) id (c : list A) :
  (forall x, docId (f x) = docId x) ->
  findById id (updateMany q f c)
  = (fun x => if q x then f x else x) <$> findById id c.
Proof.
  intros Hf. unfold findById, updateMany.
  induction c as [|x c IH]; [reflexivity|]. cbn [fmap list_fmap List.find].
  assert (Hx : hasId id (if q x then f x else x) = hasId id x).
  { unfold hasId. destruct (q x); [rewrite Hf|]; reflexivity. }
  rewrite Hx. destruct (hasId id x); [reflexivity|exact IH].
Qed.

Lemma elem_of_saveDoc (d x : A) (c : list A) :
  x ∈ saveDoc d c -> x = d \/ (x ∈ c /\ docId x <> docId d).
Proof.
  unfold saveDoc. intros Hx.
  apply list_elem_of_fmap in Hx as (y & -> & Hy).
  destruct (hasId (docId d) y) eqn:Hid; [left; reflexivity|right].
  split; [exact Hy|]. intros Heq. unfold hasId in Hid.
  rewrite Heq, String.eqb_refl in Hid. discriminate.
Qed.

Lemma filter_saveDoc_other (q : A -> bool) (d : A) (c : list A) :
  (forall x, x ∈ c -> docId x = docId d -> q x = q d) ->
  length (List.filter q (saveDoc d c)) = length (List.filter q c).
Proof.
  unfold saveDoc. induction c as [|x c IH]; intros Hq; [reflexivity|].
  cbn [fmap list_fmap List.filter].
  assert (Hx : q (if hasId (docId d) x then d else x) = q x).
  { destruct (hasId (docId d) x) eqn:Hid; [|reflexivity].
    symmetry. apply Hq; [left|apply hasId_eq; exact Hid]. }
  rewrite Hx. specialize (IH (fun y Hy => Hq y (list_elem_of_further _ _ _ Hy))).
  destruct (q x); cbn [length]; [f_equal|]; exact IH.
Qed.

Lemma elem_of_removeById id (x : A) (c : list A) :
  x ∈ Desk.removeById id c -> x ∈ c.
Proof.
  induction c as [|y c IH]; cbn; [tauto|].
  destruct (hasId id y); intros Hx; [right; exact Hx|].
  apply elem_of_cons in Hx as [->|Hx]; [left|right; apply IH; exact Hx].
Qed.

Lemma removeById_NoDup id (c : list A) :
  NoDup (docId <$> c) ->
  forall x, x ∈ Desk.removeById id c <-> x ∈ c /\ docId x <> id.
Proof.
  induction c as [|y c IH]; intros Hnd x; cbn.
  - split; [intros Hx; inversion Hx|intros [Hx _]; inversion Hx].
  - cbn in Hnd. apply NoDup_cons in Hnd as [Hy Hnd].
    destruct (hasId id y) eqn:Hid.
    + apply hasId_eq in Hid. split.
      * intros Hx. split; [right; exact Hx|].
        intros Heq. apply Hy. rewrite Hid, <- Heq.
        apply list_elem_of_fmap_2. exact Hx.
      * intros [Hx Hne]. apply elem_of_cons in Hx as [->|Hx];
          [contradiction|exact Hx].
    + assert (Hne : docId y <> id).
      { intros Heq. unfold hasId in Hid.
        rewrite Heq, String.eqb_refl in Hid. discriminate. }
      rewrite !elem_of_cons, (IH Hnd x). split.
      * intros [->|[Hx Hx']]; split; auto.
      * intros [[->|Hx] Hx']; auto.
Qed.

(** Removing the first document with an id takes one out of every count
    the document is part of. *)
Lemma filter_removeById (q : A -> bool) id (c : list A) (d : A) :
  findById id c = Some d ->
  length (List.filter q c)
  = (length (List.filter q (Desk.removeById id c))
     + (if q d then 1 else 0))%nat.
Proof.
  unfold findById. induction c as [|x c IH]; cbn; [discriminate|].
  destruct (hasId id x) eqn:Hid.
  - intros [= <-]. destruct (q x); cbn; lia.
  - intros Hd. cbn. destruct (q x); cbn; rewrite (IH Hd); lia.
Qed.

End DeskFacts.

Section ChainFacts.
Import Chains Milestones.

Lemma newMilestone_draft id chainId user fields m :
  newMilestone id chainId user fields = inr m ->
  milestone_chainId m = chainId /\ milestone_status m = MilestoneDraft.
Proof.
  unfold newMilestone, andThen, required. intros Hnew.
  repeat match type of Hnew with
         | match ?x with _ => _ end = _ => destruct x; try discriminate
         end.
  injection Hnew as <-. split; reflexivity.
Qed.

Lemma afterEdit_not_published chain :
  match afterEdit chain with ChainPublished => false | _ => true end = true.
Proof.
  unfold afterEdit, isPublished. destruct (chain_status chain); reflexivity.
Qed.

(** The chain as a successful [createMilestone] leaves it in the store. *)
Lemma created_chain req chainId db chain :
  findById chainId (chains db) = Some chain ->
  let counted :=
    set_totalMilestones (chain_totalMilestones chain + 1)
      (set_status (afterEdit chain) chain) in
  let tracked := trackEditor (req_user req) (req_now req) counted in
  findById chainId
    (saveDoc tracked (saveDoc counted (chains (reverted chain db))))
  = Some tracked.
Proof.
  intros Hchain counted tracked.
  assert (Hid : chain_id chain = chainId).
  { apply (hasId_eq chainId chain). eapply find_some_holds. exact Hchain. }
  assert (Hrev : exists c0,
             findById chainId (chains (reverted chain db)) = Some c0).
  { unfold reverted. destruct (isPublished chain); cbn [chains set_chains].
    - eexists. eapply refetch_saved; [exact Hchain|exact Hid].
    - eexists. exact Hchain. }
  destruct Hrev as [c0 Hc0].
  eapply refetch_saved.
  - eapply refetch_saved; [exact Hc0|exact Hid].
  - unfold tracked. cbn [docId chain_document]. rewrite id_trackEditor.
    exact Hid.
Qed.

(** What [publishChain] does to a chain that is not published and has
    milestones. *)
Lemma publishChain_cases req chainId db chain :
  findById chainId (chains db) = Some chain ->
  isPublished chain = false ->
  (length (findAll (inChain chainId) (milestones db)) =? 0)%nat = false ->
  publishChain req chainId db
  = (set_milestones
       (updateMany (inChain chainId)
          (publishMilestone (req_user req) (req_now req)) (milestones db))
       (set_chains
          (saveDoc (stamped req (milestones db) chainId chain) (chains db)) db),
     respond 200 "Milestone chain published successfully"
       (stamped req (milestones db) chainId chain)).
Proof.
  intros Hchain Hstatus Hcount.
  unfold publishChain, Handler.tryCatch, Handler.bind, query.
  rewrite Hchain, Hstatus, Hcount. reflexivity.
Qed.

Lemma publishChain_success req chainId db :
  code (snd (publishChain req chainId db)) = 200 ->
  exists chain,
    findById chainId (chains db) = Some chain
    /\ isPublished chain = false
    /\ (length (findAll (inChain chainId) (milestones db)) =? 0)%nat = false.
Proof.
  unfold publishChain, Handler.tryCatch, Handler.bind, query.
  destruct (findById chainId (chains db)) as [chain|]; [|discriminate].
  destruct (isPublished chain) eqn:Hstatus; [discriminate|].
  destruct (length (findAll (inChain chainId) (milestones db)) =? 0)%nat
    eqn:Hcount; [discriminate|].
  intros _. exists chain. split; [reflexivity|].
  split; [exact Hstatus|reflexivity].
Qed.

End ChainFacts.

(** X11.  A new milestone is hidden from students and mentors until the
    chain is published again: after a [createMilestone] answered with 201,
    [getMilestone] for the new id is refused with 403 for either role;
    [publishChain] on the chain then succeeds, and after it the same
    request is answered with the milestone, now published. *)
Theorem new_milestone_hidden_until_published role req reader publisher
    chainId fields db :
  Desk.isStudent role || Desk.isMentorRole role = true ->
  code (snd (Milestones.createMilestone req chainId fields db)) = 201 ->
  let db1 := fst (Milestones.createMilestone req chainId fields db) in
  Desk.getMilestone role reader (req_newId req) db1
  = (db1, reject 403 "Access denied")
  /\ code (snd (Chains.publishChain publisher chainId db1)) = 200
  /\ let db2 := fst (Chains.publishChain publisher chainId db1) in
     exists shown,
       body (snd (Desk.getMilestone role reader (req_newId req) db2))
         = Some shown
       /\ code (snd (Desk.getMilestone role reader (req_newId req) db2)) = 200
       /\ milestone_id (Desk.shown_milestone shown) = req_newId req
       /\ milestone_status (Desk.shown_milestone shown) = MilestonePublished.
Proof.
  intros Hrole.
  destruct (findById chainId (chains db)) as [chain|] eqn:Hchain.
  2:{ unfold Milestones.createMilestone, Handler.tryCatch, Handler.bind, query.
      rewrite Hchain. discriminate. }
  rewrite (createMilestone_cases req chainId fields db chain Hchain).
  destruct (Milestones.newMilestone _ _ _ _) as [e|m] eqn:Hnew; [discriminate|].
  pose proof (newMilestone_id _ _ _ _ _ Hnew) as Hmid.
  destruct (newMilestone_draft _ _ _ _ _ Hnew) as [Hmchain Hmdraft].
  change (docId m) with (milestone_id m). rewrite Hmid.
  destruct (findById (req_newId req) (milestones db)) eqn:Hfresh;
    [discriminate|].
  cbv zeta. cbn [fst snd]. intros _.
  set (counted := Chains.set_totalMilestones _ _).
  set (tracked := Chains.trackEditor _ _ counted).
  set (db1 := set_chains _ _).
  assert (Hms1 : milestones db1 = milestones db ++ [m]) by reflexivity.
  assert (Hnewm : findById (req_newId req) (milestones db1) = Some m).
  { rewrite Hms1. apply find_app_none; [exact Hfresh|].
    unfold hasId. change (docId m) with (milestone_id m).
    rewrite Hmid. apply String.eqb_refl. }
  assert (Hdraft : Progress.isPublished m = false).
  { unfold Progress.isPublished. rewrite Hmdraft. reflexivity. }
  assert (Hchain1 : findById chainId (chains db1) = Some tracked)
    by exact (created_chain req chainId db chain Hchain).
  assert (Hstatus : Chains.isPublished tracked = false).
  { unfold Chains.isPublished, tracked. rewrite status_trackEditor.
    cbn [chain_status counted Chains.set_totalMilestones Chains.set_status].
    pose proof (afterEdit_not_published chain) as Hnot.
    destruct (afterEdit chain); [reflexivity|discriminate|reflexivity]. }
  assert (Hcount : (length (findAll (Chains.inChain chainId) (milestones db1))
                    =? 0)%nat = false).
  { rewrite Hms1. unfold findAll. rewrite List.filter_app. cbn [List.filter].
    unfold Chains.inChain at 2. rewrite Hmchain, String.eqb_refl.
    rewrite length_app. cbn [length]. apply Nat.eqb_neq. lia. }
  rewrite (publishChain_cases publisher chainId db1 tracked
             Hchain1 Hstatus Hcount).
  cbn [fst snd]. split; [|split].
  - unfold Desk.getMilestone, Handler.tryCatch, Handler.bind, query.
    rewrite Hnewm, Hrole, Hdraft. reflexivity.
  - reflexivity.
  - unfold Desk.getMilestone, Handler.tryCatch, Handler.bind, query.
    cbn [milestones set_chains set_milestones].
    rewrite findById_updateMany by reflexivity. rewrite Hnewm.
    cbn [fmap option_fmap option_map].
    unfold Chains.inChain. rewrite Hmchain, String.eqb_refl.
    rewrite Hrole. cbn [Progress.isPublished Chains.publishMilestone
                          milestone_status negb andb].
    destruct (Desk.isStudent role); eexists;
      (split; [reflexivity|]); (split; [reflexivity|]);
      (split; [exact Hmid|reflexivity]).
Qed.

Lemma new_milestone_hidden_until_published_witness :
  Desk.isStudent "student" || Desk.isMentorRole "student" = true
  /\ code (snd (Milestones.createMilestone Sample.admin "chain1"
                  Sample.newFields Sample.campus)) = 201
  /\ (let db1 :=
        fst (Milestones.createMilestone Sample.admin "chain1" Sample.newFields
               Sample.campus) in
      Desk.getMilestone "student" Sample.student (req_newId Sample.admin) db1
      = (db1, reject 403 "Access denied")
      /\ code (snd (Chains.publishChain Sample.admin "chain1" db1)) = 200
      /\ let db2 := fst (Chains.publishChain Sample.admin "chain1" db1) in
         exists shown,
           body (snd (Desk.getMilestone "student" Sample.student
                        (req_newId Sample.admin) db2)) = Some shown
           /\ code (snd (Desk.getMilestone "student" Sample.student
                           (req_newId Sample.admin) db2)) = 200
           /\ milestone_id (Desk.shown_milestone shown)
              = req_newId Sample.admin
           /\ milestone_status (Desk.shown_milestone shown)
              = MilestonePublished).
Proof.
  split; [reflexivity|]. split; [vm_compute; reflexivity|].
  apply (new_milestone_hidden_until_published "student" Sample.admin
           Sample.student Sample.admin "chain1" Sample.newFields Sample.campus);
    [reflexivity|vm_compute; reflexivity].
Defined.

Section CountFacts.
Import Chains Milestones Desk.

Lemma count_appended chainId (ms : list Milestone) m :
  length (findAll (inChain chainId) (ms ++ [m]))
  = (length (findAll (inChain chainId) ms)
     + (if inChain chainId m then 1 else 0))%nat.
Proof.
  unfold findAll. rewrite List.filter_app, length_app. cbn [List.filter].
  destruct (inChain chainId m); reflexivity.
Qed.

Lemma Counted_reverted chain db :
  chain ∈ chains db -> Counted db -> Counted (reverted chain db).
Proof.
  intros Hin Hcounted. unfold reverted.
  destruct (isPublished chain); [|exact Hcounted].
  intros c Hc. cbn [chains milestones set_chains] in *.
  apply elem_of_saveDoc in Hc as [->|[Hc _]].
  - exact (Hcounted chain Hin).
  - exact (Hcounted c Hc).
Qed.

End CountFacts.

(** X12.  [createMilestone] keeps the counter of every chain in step with
    the collection: if [totalMilestones] is the number of milestones of
    each chain before the call, it is so after it, whether the call
    succeeds or fails. *)
Theorem createMilestone_keeps_count req chainId fields db :
  Counted db ->
  Counted (fst (Milestones.createMilestone req chainId fields db)).
Proof.
  intros Hcounted.
  destruct (findById chainId (chains db)) as [chain|] eqn:Hchain.
  2:{ unfold Milestones.createMilestone, Handler.tryCatch, Handler.bind, query.
      rewrite Hchain. exact Hcounted. }
  assert (Hin : chain ∈ chains db) by (eapply find_some_elem; exact Hchain).
  assert (Hid : chain_id chain = chainId).
  { apply (hasId_eq chainId chain). eapply find_some_holds. exact Hchain. }
  pose proof (Counted_reverted chain db Hin Hcounted) as Hrev.
  rewrite (createMilestone_cases req chainId fields db chain Hchain).
  destruct (Milestones.newMilestone _ _ _ _) as [e|m] eqn:Hnew; [exact Hrev|].
  destruct (newMilestone_draft _ _ _ _ _ Hnew) as [Hmchain _].
  destruct (findById (docId m) (milestones db)); [exact Hrev|].
  cbv zeta. cbn [fst].
  intros c Hc. cbn [chains milestones set_chains set_milestones] in Hc |- *.
  rewrite count_appended. unfold Chains.inChain at 2. rewrite Hmchain.
  apply elem_of_saveDoc in Hc as [->|[Hc Hne]].
  - rewrite id_trackEditor. cbn [chain_id Chains.set_totalMilestones
                                   Chains.set_status].
    rewrite Hid, String.eqb_refl.
    assert (Htotal : forall user now c0,
               chain_totalMilestones (Chains.trackEditor user now c0)
               = chain_totalMilestones c0).
    { intros user now c0. unfold Chains.trackEditor.
      destruct (findIndex _ _); reflexivity. }
    rewrite Htotal. cbn [chain_totalMilestones Chains.set_totalMilestones].
    rewrite (Hcounted chain Hin), Hid. lia.
  - change (docId c) with (chain_id c) in Hne.
    change (docId (Chains.trackEditor (req_user req) (req_now req)
                     (Chains.set_totalMilestones
                        (chain_totalMilestones chain + 1)
                        (Chains.set_status (afterEdit chain) chain))))
      with (chain_id (Chains.trackEditor (req_user req) (req_now req)
                        (Chains.set_totalMilestones
                           (chain_totalMilestones chain + 1)
                           (Chains.set_status (afterEdit chain) chain))))
      in Hne.
    rewrite id_trackEditor in Hne.
    cbn [chain_id Chains.set_totalMilestones Chains.set_status] in Hne.
    rewrite Hid in Hne.
    apply elem_of_saveDoc in Hc as [->|[Hc _]];
      [exfalso; apply Hne; cbn; exact Hid|].
    assert (Hother : String.eqb chainId (chain_id c) = false).
    { apply String.eqb_neq. intros Heq. apply Hne. symmetry. exact Heq. }
    rewrite Hother, Nat.add_0_r.
    assert (Hrevm : milestones (reverted chain db) = milestones db).
    { unfold reverted. destruct (Chains.isPublished chain); reflexivity. }
    rewrite <- Hrevm. exact (Hrev c Hc).
Qed.

(** X13.  [deleteMilestone] keeps the counter of every chain in step with
    the collection, whether the call succeeds or fails. *)
Theorem deleteMilestone_keeps_count req milestoneId db :
  Counted db ->
  Counted (fst (Desk.deleteMilestone req milestoneId db)).
Proof.
  intros Hcounted.
  unfold Desk.deleteMilestone, Handler.tryCatch, Handler.bind, query.
  destruct (findById milestoneId (milestones db)) as [m|] eqn:Hm;
    [|exact Hcounted].
  destruct (findById (milestone_chainId m) (chains db)) as [chain|] eqn:Hchain;
    [|exact Hcounted].
  cbn [Handler.ret].
  destruct (Chains.isPublished chain); [exact Hcounted|].
  destruct (existsb _ (studentMilestones db)); [exact Hcounted|].
  assert (Hin : chain ∈ chains db) by (eapply find_some_elem; exact Hchain).
  assert (Hid : chain_id chain = milestone_chainId m).
  { apply (hasId_eq (milestone_chainId m) chain).
    eapply find_some_holds. exact Hchain. }
  unfold write, Handler.bind, Handler.ret. cbn [fst].
  intros c Hc. cbn [chains milestones set_chains set_milestones] in Hc |- *.
  pose proof (filter_removeById (Chains.inChain (chain_id c)) milestoneId
                (milestones db) m Hm) as Hcount.
  unfold findAll.
  apply elem_of_saveDoc in Hc as [->|[Hc Hne]].
  - cbn [chain_id chain_totalMilestones Chains.set_totalMilestones] in *.
    rewrite (Hcounted chain Hin). unfold findAll.
    unfold Chains.inChain at 3 in Hcount.
    rewrite Hid, String.eqb_refl in Hcount. rewrite Hid. lia.
  - change (docId c) with (chain_id c) in Hne. cbn in Hne.
    assert (Hother : Chains.inChain (chain_id c) m = false).
    { unfold Chains.inChain. apply String.eqb_neq.
      intros Heq. apply Hne. rewrite Hid. symmetry. exact Heq. }
    rewrite Hother, Nat.add_0_r in Hcount. rewrite <- Hcount.
    exact (Hcounted c Hc).
Qed.

Section StudioFacts.

Lemma studio_counted : Counted Scenario.studio.
Proof.
  intros c Hc. cbn in Hc.
  apply elem_of_cons in Hc as [->|Hc]; [reflexivity|].
  apply list_elem_of_singleton in Hc. subst c. reflexivity.
Qed.

End StudioFacts.

Lemma createMilestone_keeps_count_witness :
  Counted Scenario.studio
  /\ Counted (fst (Milestones.createMilestone Sample.admin "chain3"
                     Sample.newFields Scenario.studio)).
Proof.
  split; [exact studio_counted|].
  apply (createMilestone_keeps_count Sample.admin "chain3" Sample.newFields
           Scenario.studio).
  exact studio_counted.
Defined.

Lemma deleteMilestone_keeps_count_witness :
  Counted Scenario.studio
  /\ Counted (fst (Desk.deleteMilestone Sample.admin "milestone4"
                     Scenario.studio)).
Proof.
  split; [exact studio_counted|].
  apply (deleteMilestone_keeps_count Sample.admin "milestone4" Scenario.studio).
  exact studio_counted.
Defined.

(** X14.  [deleteChain] deletes a chain together with its milestones, and
    only when no student record refers to the chain.  With such a record
    the answer is 400 and nothing is written.  Without one the answer is
    200 even when no chain has the id; afterwards no chain has the id, the
    milestones left are exactly those of the other chains, and the other
    chains are all still there. *)
Theorem deleteChain_cascades req chainId db :
  NoDup (chain_id <$> chains db) ->
  let '(db', response) := Desk.deleteChain req chainId db in
  if existsb (fun r => String.eqb (sm_chainId r) chainId) (studentMilestones db)
  then db' = db /\ code response = 400
  else code response = 200
       /\ findById chainId (chains db') = None
       /\ (forall c, c ∈ chains db' <-> c ∈ chains db /\ chain_id c <> chainId)
       /\ milestones db'
          = List.filter (fun m => negb (Chains.inChain chainId m))
                        (milestones db)
       /\ findAll (Chains.inChain chainId) (milestones db') = []
       /\ studentMilestones db' = studentMilestones db.
Proof.
  intros Hnodup.
  unfold Desk.deleteChain, Handler.tryCatch, Handler.bind, query.
  destruct (existsb _ (studentMilestones db)); [split; reflexivity|].
  unfold write, Handler.bind, Handler.ret.
  cbn [chains milestones studentMilestones set_chains set_milestones].
  pose proof (removeById_NoDup chainId (chains db) Hnodup) as Hrest.
  split; [reflexivity|]. split; [|split; [exact Hrest|]].
  - destruct (findById chainId (Desk.removeById chainId (chains db)))
      as [c|] eqn:Hc; [exfalso|reflexivity].
    pose proof (find_some_elem _ _ _ Hc) as Hin.
    apply Hrest in Hin as [_ Hne]. apply Hne.
    apply (hasId_eq chainId c). eapply find_some_holds. exact Hc.
  - split; [reflexivity|]. split; [|reflexivity].
    unfold findAll. induction (milestones db) as [|m ms IH]; [reflexivity|].
    cbn [List.filter]. destruct (Chains.inChain chainId m) eqn:Hm;
      cbn [negb List.filter]; [exact IH|].
    rewrite Hm. exact IH.
Qed.

Lemma deleteChain_cascades_witness :
  NoDup (chain_id <$> chains Scenario.studio)
  /\ (let '(db', response) :=
        Desk.deleteChain Sample.admin "chain3" Scenario.studio in
      if existsb (fun r => String.eqb (sm_chainId r) "chain3")
                 (studentMilestones Scenario.studio)
      then db' = Scenario.studio /\ code response = 400
      else code response = 200
           /\ findById "chain3" (chains db') = None
           /\ (forall c,
                  c ∈ chains db'
                  <-> c ∈ chains Scenario.studio /\ chain_id c <> "chain3")
           /\ milestones db'
              = List.filter (fun m => negb (Chains.inChain "chain3" m))
                            (milestones Scenario.studio)
           /\ findAll (Chains.inChain "chain3") (milestones db') = []
           /\ studentMilestones db' = studentMilestones Scenario.studio).
Proof.
  assert (Hnodup : NoDup (chain_id <$> chains Scenario.studio)).
  { apply (bool_decide_unpack _). vm_compute. reflexivity. }
  split; [exact Hnodup|].
  apply (deleteChain_cascades Sample.admin "chain3" Scenario.studio).
  exact Hnodup.
Defined.

Section PublishFacts.
Import Chains.

Lemma inChain_updateMany chainId f (ms : list Milestone) :
  (forall m, milestone_chainId (f m) = milestone_chainId m) ->
  forall q,
    (forall m, inChain chainId m = true -> q (f m) = true) ->
    (forall m, inChain chainId m = false -> q m = false) ->
    List.filter q (updateMany (inChain chainId) f ms)
    = f <$> List.filter (inChain chainId) ms.
Proof.
  intros Hf q Hin Hout. unfold updateMany.
  induction ms as [|m ms IH]; [reflexivity|].
  cbn [fmap list_fmap List.filter].
  destruct (inChain chainId m) eqn:Hm.
  - rewrite (Hin m Hm). cbn [fmap list_fmap]. f_equal. exact IH.
  - rewrite (Hout m Hm). exact IH.
Qed.

Lemma sortByOrder_length ms : length (Desk.sortByOrder ms) = length ms.
Proof.
  assert (Hins : forall m l,
             length (Desk.insertByOrder m l) = S (length l)).
  { intros m l. induction l as [|x l IH]; [reflexivity|].
    cbn [Desk.insertByOrder]. destruct (_ <=? _); cbn [length]; [reflexivity|].
    rewrite IH. reflexivity. }
  unfold Desk.sortByOrder. induction ms as [|m ms IH]; [reflexivity|].
  cbn [foldr length]. rewrite Hins, IH. reflexivity.
Qed.

End PublishFacts.

(** X15.  [publishChain] publishes all milestones of the chain and nothing
    else.  After a call answered with 200 the chain is stored as published
    by the caller; every milestone of the chain is published, by the caller
    and at the time of the call; the milestones of other chains are as
    before; a mentor is listed exactly what an administrator is listed; and
    [publishedMilestones] is the length of that list. *)
Theorem publishChain_publishes_every_milestone req reader chainId db :
  code (snd (Chains.publishChain req chainId db)) = 200 ->
  let '(db1, response) := Chains.publishChain req chainId db in
  (exists chain,
      body response = Some chain
      /\ findById chainId (chains db1) = Some chain
      /\ chain_status chain = ChainPublished
      /\ chain_publishedBy chain = Some (req_user req)
      /\ exists listed,
          body (snd (Desk.getMilestonesByChain "mentor" reader chainId db1))
            = Some (inr listed)
          /\ body (snd (Desk.getMilestonesByChain "admin" reader chainId db1))
             = Some (inr listed)
          /\ chain_publishedMilestones chain = Z.of_nat (length listed))
  /\ (forall m,
         m ∈ milestones db1 ->
         milestone_chainId m = chainId ->
         milestone_status m = MilestonePublished
         /\ milestone_publishedBy m = Some (req_user req)
         /\ milestone_publishedAt m = Some (req_now req))
  /\ List.filter (fun m => negb (Chains.inChain chainId m)) (milestones db1)
     = List.filter (fun m => negb (Chains.inChain chainId m)) (milestones db).
Proof.
  intros Hcode.
  destruct (publishChain_success req chainId db Hcode)
    as (chain & Hchain & Hstatus & Hcount).
  assert (Hid : chain_id chain = chainId).
  { apply (hasId_eq chainId chain). eapply find_some_holds. exact Hchain. }
  rewrite (publishChain_cases req chainId db chain Hchain Hstatus Hcount).
  set (publish := Chains.publishMilestone (req_user req) (req_now req)).
  assert (Hkeep : forall m, milestone_chainId (publish m) = milestone_chainId m)
    by reflexivity.
  split; [|split].
  - exists (stamped req (milestones db) chainId chain).
    split; [reflexivity|]. split.
    { cbn [chains set_chains set_milestones].
      eapply refetch_saved; [exact Hchain|exact Hid]. }
    split; [reflexivity|]. split; [reflexivity|].
    exists (Desk.sortByOrder
              (publish <$> List.filter (Chains.inChain chainId) (milestones db))).
    unfold Desk.getMilestonesByChain, Handler.tryCatch, Handler.bind, query.
    change (Desk.isStudent "mentor") with false.
    change (Desk.isMentorRole "mentor") with true.
    change (Desk.isStudent "admin") with false.
    change (Desk.isMentorRole "admin") with false.
    cbn [orb Handler.ret snd body respond].
    cbn [milestones set_chains set_milestones]. unfold findAll.
    rewrite (inChain_updateMany chainId publish (milestones db) Hkeep
               (fun m => Chains.inChain chainId m && Progress.isPublished m));
      [|intros m Hm; unfold Chains.inChain in *; cbn; rewrite Hm; reflexivity
       |intros m Hm; rewrite Hm; reflexivity].
    rewrite (inChain_updateMany chainId publish (milestones db) Hkeep
               (fun m => Chains.inChain chainId m && true));
      [|intros m Hm; unfold Chains.inChain in *; cbn; rewrite Hm; reflexivity
       |intros m Hm; rewrite Hm; reflexivity].
    split; [reflexivity|]. split; [reflexivity|].
    rewrite sortByOrder_length, length_fmap. reflexivity.
  - intros m Hm Hmchain. cbn [milestones set_chains set_milestones] in Hm.
    unfold updateMany in Hm. apply list_elem_of_fmap in Hm as (x & -> & _).
    destruct (Chains.inChain chainId x) eqn:Hx; [repeat split|].
    unfold Chains.inChain in Hx. rewrite Hmchain, String.eqb_refl in Hx.
    discriminate.
  - cbn [milestones set_chains set_milestones]. unfold updateMany.
    clear Hcount Hcode.
    induction (milestones db) as [|m ms IH]; [reflexivity|].
    cbn [fmap list_fmap List.filter].
    destruct (Chains.inChain chainId m) eqn:Hm.
    + change (Chains.inChain chainId (publish m))
        with (Chains.inChain chainId m).
      rewrite Hm. cbn [negb]. exact IH.
    + rewrite Hm. cbn [negb]. f_equal. exact IH.
Qed.

Lemma publishChain_publishes_every_milestone_witness :
  code (snd (Chains.publishChain Sample.admin "chain3" Scenario.studio)) = 200
  /\ (let '(db1, response) :=
        Chains.publishChain Sample.admin "chain3" Scenario.studio in
      (exists chain,
          body response = Some chain
          /\ findById "chain3" (chains db1) = Some chain
          /\ chain_status chain = ChainPublished
          /\ chain_publishedBy chain = Some (req_user Sample.admin)
          /\ exists listed,
              body (snd (Desk.getMilestonesByChain "mentor" Sample.mentor
                           "chain3" db1)) = Some (inr listed)
              /\ body (snd (Desk.getMilestonesByChain "admin" Sample.mentor
                              "chain3" db1)) = Some (inr listed)
              /\ chain_publishedMilestones chain = Z.of_nat (length listed))
      /\ (forall m,
             m ∈ milestones db1 ->
             milestone_chainId m = "chain3" ->
             milestone_status m = MilestonePublished
             /\ milestone_publishedBy m = Some (req_user Sample.admin)
             /\ milestone_publishedAt m = Some (req_now Sample.admin))
      /\ List.filter (fun m => negb (Chains.inChain "chain3" m))
                     (milestones db1)
         = List.filter (fun m => negb (Chains.inChain "chain3" m))
                       (milestones Scenario.studio)).
Proof.
  split; [vm_compute; reflexivity|].
  apply (publishChain_publishes_every_milestone Sample.admin Sample.mentor
           "chain3" Scenario.studio).
  vm_compute. reflexivity.
Defined.

(** X16.  A chain is published once: after a [publishChain] answered with
    200, a second [publishChain] on the same chain, by whomever, is turned
    down with 400 and writes nothing. *)
Theorem publishChain_once req again chainId db :
  code (snd (Chains.publishChain req chainId db)) = 200 ->
  let db1 := fst (Chains.publishChain req chainId db) in
  Chains.publishChain again chainId db1
  = (db1, reject 400 "Chain is already published").
Proof.
  intros Hcode.
  destruct (publishChain_success req chainId db Hcode)
    as (chain & Hchain & Hstatus & Hcount).
  assert (Hid : chain_id chain = chainId).
  { apply (hasId_eq chainId chain). eapply find_some_holds. exact Hchain. }
  rewrite (publishChain_cases req chainId db chain Hchain Hstatus Hcount).
  cbn [fst].
  unfold Chains.publishChain at 1, Handler.tryCatch, Handler.bind, query.
  cbn [chains set_chains set_milestones].
  erewrite refetch_saved; [|exact Hchain|exact Hid].
  reflexivity.
Qed.

Lemma publishChain_once_witness :
  code (snd (Chains.publishChain Sample.admin "chain3" Scenario.studio)) = 200
  /\ (let db1 :=
        fst (Chains.publishChain Sample.admin "chain3" Scenario.studio) in
      Chains.publishChain Sample.mentor "chain3" db1
      = (db1, reject 400 "Chain is already published")).
Proof.
  split; [vm_compute; reflexivity|].
  apply (publishChain_once Sample.admin Sample.mentor "chain3" Scenario.studio).
  vm_compute. reflexivity.
Defined.

(** X17.  Reading a chain's progress records the reader as an editor, once.
    For a chain whose editors are distinct users, [getChainProgress] answers
    200; the chain it stores and returns has the reader among its editors,
    still without a repeated user; the draft and published counts add up to
    the total; no milestone is touched; and a second read by the same user
    writes nothing. *)
Theorem getChainProgress_records_reader_once req again chainId db chain :
  findById chainId (chains db) = Some chain ->
  NoDup (editor_user <$> chain_editors chain) ->
  req_user again = req_user req ->
  let '(db1, response) := Desk.getChainProgress req chainId db in
  code response = 200
  /\ milestones db1 = milestones db
  /\ fst (Desk.getChainProgress again chainId db1) = db1
  /\ exists p,
      body response = Some p
      /\ findById chainId (chains db1) = Some (Desk.progress_chain p)
      /\ NoDup (editor_user <$> chain_editors (Desk.progress_chain p))
      /\ req_user req ∈ editor_user <$> chain_editors (Desk.progress_chain p)
      /\ Desk.progress_total p
         = (Desk.progress_draft p + Desk.progress_published p)%nat.
Proof.
  intros Hchain Hnodup Huser.
  assert (Hid : chain_id chain = chainId).
  { apply (hasId_eq chainId chain). eapply find_some_holds. exact Hchain. }
  assert (Hsum : forall l : list Milestone,
             length l
             = (length (List.filter Desk.isDraft l)
                + length (List.filter Progress.isPublished l))%nat).
  { intros l. rewrite <- (List.filter_length Desk.isDraft l). f_equal. f_equal.
    apply List.filter_ext. intros m.
    unfold Desk.isDraft, Progress.isPublished.
    destruct (milestone_status m); reflexivity. }
  unfold Desk.getChainProgress at 1, Handler.tryCatch, Handler.bind, query.
  rewrite Hchain.
  destruct (existsb (fun e => String.eqb (editor_user e) (req_user req))
                    (chain_editors chain)) eqn:Hlisted.
  - cbn [Handler.ret fst snd]. split; [reflexivity|]. split; [reflexivity|].
    split.
    + unfold Desk.getChainProgress, Handler.tryCatch, Handler.bind, query.
      rewrite Hchain, Huser, Hlisted. reflexivity.
    + eexists. split; [reflexivity|]. cbn [Desk.progress_chain
        Desk.progress_total Desk.progress_draft Desk.progress_published].
      split; [exact Hchain|]. split; [exact Hnodup|]. split; [|apply Hsum].
      apply existsb_exists in Hlisted as (e & He & Heq).
      apply String.eqb_eq in Heq. rewrite <- Heq.
      apply list_elem_of_fmap_2, list_elem_of_In. exact He.
  - unfold write, Handler.bind, Handler.ret. cbn [fst snd].
    set (chain' := Chains.set_editors _ chain).
    assert (Hsaved : findById chainId (saveDoc chain' (chains db))
                     = Some chain')
      by (eapply refetch_saved; [exact Hchain|exact Hid]).
    split; [reflexivity|]. split; [reflexivity|]. split.
    + unfold Desk.getChainProgress, Handler.tryCatch, Handler.bind, query.
      cbn [chains set_chains]. rewrite Hsaved, Huser.
      assert (Hnow : existsb
                       (fun e => String.eqb (editor_user e) (req_user req))
                       (chain_editors chain') = true).
      { unfold chain'. cbn [chain_editors Chains.set_editors].
        rewrite existsb_app. cbn [existsb editor_user].
        rewrite String.eqb_refl, orb_true_r. reflexivity. }
      rewrite Hnow. reflexivity.
    + eexists. split; [reflexivity|]. cbn [Desk.progress_chain
        Desk.progress_total Desk.progress_draft Desk.progress_published].
      cbn [chains set_chains]. split; [exact Hsaved|].
      unfold chain'. cbn [chain_editors Chains.set_editors].
      rewrite fmap_app. cbn [fmap list_fmap editor_user].
      split; [|split; [|apply Hsum]].
      * apply NoDup_app. split; [exact Hnodup|]. split; [|apply NoDup_singleton].
        intros u Hu Hu'. apply list_elem_of_singleton in Hu'. subst u.
        apply list_elem_of_fmap in Hu as (e & Heq & He).
        assert (Hex : existsb
                        (fun e => String.eqb (editor_user e) (req_user req))
                        (chain_editors chain) = true).
        { apply existsb_exists. exists e. split.
          - apply list_elem_of_In. exact He.
          - rewrite <- Heq. apply String.eqb_refl. }
        congruence.
      * apply elem_of_app. right. apply list_elem_of_singleton. reflexivity.
Qed.

Lemma getChainProgress_records_reader_once_witness :
  findById "chain3" (chains Scenario.studio) = Some Scenario.draftChain
  /\ NoDup (editor_user <$> chain_editors Scenario.draftChain)
  /\ req_user Sample.mentor = req_user Sample.mentor
  /\ (let '(db1, response) :=
        Desk.getChainProgress Sample.mentor "chain3" Scenario.studio in
      code response = 200
      /\ milestones db1 = milestones Scenario.studio
      /\ fst (Desk.getChainProgress Sample.mentor "chain3" db1) = db1
      /\ exists p,
          body response = Some p
          /\ findById "chain3" (chains db1) = Some (Desk.progress_chain p)
          /\ NoDup (editor_user <$> chain_editors (Desk.progress_chain p))
          /\ req_user Sample.mentor
             ∈ editor_user <$> chain_editors (Desk.progress_chain p)
          /\ Desk.progress_total p
             = (Desk.progress_draft p + Desk.progress_published p)%nat).
Proof.
  assert (Hnodup : NoDup (editor_user <$> chain_editors Scenario.draftChain))
    by constructor.
  split; [reflexivity|]. split; [exact Hnodup|]. split; [reflexivity|].
  apply (getChainProgress_records_reader_once Sample.mentor Sample.mentor
           "chain3" Scenario.studio Scenario.draftChain);
    [reflexivity|exact Hnodup|reflexivity].
Defined.

(** ** Student records across the controllers *)

Section RecordFacts.
Import Progress.

(** What a successful [startMilestone] leaves behind. *)
Lemma startMilestone_record req milestoneId db :
  success (snd (startMilestone req milestoneId db)) = true ->
  exists m r,
    findById milestoneId (milestones db) = Some m
    /\ isPublished m = true
    /\ body (snd (startMilestone req milestoneId db)) = Some r
    /\ r ∈ studentMilestones (fst (startMilestone req milestoneId db))
    /\ sm_milestone r = milestoneId
    /\ sm_student r = req_user req
    /\ milestones (fst (startMilestone req milestoneId db)) = milestones db
    /\ chains (fst (startMilestone req milestoneId db)) = chains db.
Proof.
  destruct (findById milestoneId (milestones db)) as [m|] eqn:Hm.
  2:{ unfold startMilestone, Handler.tryCatch, Handler.bind, query.
      rewrite Hm. discriminate. }
  destruct (isPublished m) eqn:Hpub.
  2:{ unfold startMilestone, Handler.tryCatch, Handler.bind, query.
      rewrite Hm, Hpub. discriminate. }
  rewrite (startMilestone_cases req milestoneId db m Hm Hpub).
  destruct (findOne _ (studentMilestones db)) as [r|] eqn:Hr.
  - intros _. exists m, r. cbn [fst snd body respond].
    pose proof (find_some_holds _ _ _ Hr) as Hpair.
    apply forPair_true in Hpair. injection Hpair as Hs Hmid.
    repeat split; try assumption; try reflexivity.
    eapply find_some_elem. exact Hr.
  - destruct (findById (req_newId req) (studentMilestones db));
      [discriminate|].
    intros _. exists m, (started req milestoneId m).
    cbn [fst snd body respond studentMilestones set_studentMilestones
         milestones chains].
    repeat split; try assumption; try reflexivity.
    + apply elem_of_app. right. apply list_elem_of_singleton. reflexivity.
    + unfold started. destruct (isTimed m); reflexivity.
    + unfold started. destruct (isTimed m); reflexivity.
Qed.

End RecordFacts.

(** X18.  A milestone that a student has started can no longer be deleted,
    and neither can the chain the record names: after a successful
    [startMilestone], [deleteMilestone] on the milestone writes nothing and
    does not answer 200, and [deleteChain] on the record's chain is turned
    down with 400. *)
Theorem started_milestone_cannot_be_deleted req admin milestoneId db :
  success (snd (Progress.startMilestone req milestoneId db)) = true ->
  let '(db1, started) := Progress.startMilestone req milestoneId db in
  fst (Desk.deleteMilestone admin milestoneId db1) = db1
  /\ code (snd (Desk.deleteMilestone admin milestoneId db1)) <> 200
  /\ exists r,
      body started = Some r
      /\ Desk.deleteChain admin (sm_chainId r) db1
         = (db1,
            reject 400
              "Cannot delete chain with student submissions. Archive it instead.").
Proof.
  intros Hok.
  destruct (startMilestone_record req milestoneId db Hok)
    as (m & r & Hm & _ & Hbody & Hin & Hmid & _ & Hms & Hchains).
  destruct (Progress.startMilestone req milestoneId db) as [db1 started].
  cbn [fst snd] in *.
  assert (Hheld : existsb (fun x => String.eqb (sm_milestone x) milestoneId)
                          (studentMilestones db1) = true).
  { apply existsb_exists. exists r. split.
    - apply list_elem_of_In. exact Hin.
    - rewrite Hmid. apply String.eqb_refl. }
  assert (Hchain : existsb (fun x => String.eqb (sm_chainId x) (sm_chainId r))
                           (studentMilestones db1) = true).
  { apply existsb_exists. exists r. split.
    - apply list_elem_of_In. exact Hin.
    - apply String.eqb_refl. }
  split; [|split].
  - unfold Desk.deleteMilestone, Handler.tryCatch, Handler.bind, query.
    rewrite Hms, Hm, Hchains.
    destruct (findById (milestone_chainId m) (chains db)) as [chain|];
      [|reflexivity].
    cbn [Handler.ret]. destruct (Chains.isPublished chain); [reflexivity|].
    rewrite Hheld. reflexivity.
  - unfold Desk.deleteMilestone, Handler.tryCatch, Handler.bind, query.
    rewrite Hms, Hm, Hchains.
    destruct (findById (milestone_chainId m) (chains db)) as [chain|];
      [|discriminate].
    cbn [Handler.ret]. destruct (Chains.isPublished chain); [discriminate|].
    rewrite Hheld. discriminate.
  - exists r. split; [exact Hbody|].
    unfold Desk.deleteChain, Handler.tryCatch, Handler.bind, query.
    rewrite Hchain. reflexivity.
Qed.

Lemma started_milestone_cannot_be_deleted_witness :
  success (snd (Progress.startMilestone Sample.student "milestone1"
                  Sample.campus)) = true
  /\ (let '(db1, started) :=
        Progress.startMilestone Sample.student "milestone1" Sample.campus in
      fst (Desk.deleteMilestone Sample.admin "milestone1" db1) = db1
      /\ code (snd (Desk.deleteMilestone Sample.admin "milestone1" db1)) <> 200
      /\ exists r,
          body started = Some r
          /\ Desk.deleteChain Sample.admin (sm_chainId r) db1
             = (db1,
                reject 400
                  "Cannot delete chain with student submissions. Archive it instead.")).
Proof.
  split; [vm_compute; reflexivity|].
  apply (started_milestone_cannot_be_deleted Sample.student Sample.admin
           "milestone1" Sample.campus).
  vm_compute. reflexivity.
Defined.

(** ** Auto-grading *)

Section GradingFacts.
Import Progress.



Lemma pointsOf_app g1 g2 : pointsOf (g1 ++ g2) = pointsOf g1 + pointsOf g2.
Proof.
  unfold pointsOf. induction g1 as [|g g1 IH]; cbn; [reflexivity|].
  cbn in IH. rewrite IH. lia.
Qed.

Lemma autoGrade_step questions answers a :
  autoGrade questions (answers ++ [a])
  = gradeOne questions (autoGrade questions answers) a.
Proof. unfold autoGrade. rewrite fold_left_app. reflexivity. Qed.

End GradingFacts.


(** X20.  When no question carries negative points, the score that
    [submitQuizAnswers] computes lies between zero and the maximal score;
    it is the sum of the points of the graded answers; an answer that is
    not marked correct earns no points; and there are at most as many
    graded answers as answers, those to unknown questions being dropped. *)
Theorem autoGrade_bounds questions answers :
  Forall (fun q => 0 <= question_points q) questions ->
  let tally := Progress.autoGrade questions answers in
  0 <= Progress.tally_totalScore tally <= Progress.tally_maxScore tally
  /\ Progress.tally_totalScore tally = pointsOf (Progress.tally_graded tally)
  /\ Forall (fun g => graded_isCorrect g = false -> graded_points g = 0)
            (Progress.tally_graded tally)
  /\ (length (Progress.tally_graded tally) <= length answers)%nat.
Proof.
  intros Hpoints.
  induction answers as [|a answers IH] using rev_ind.
  - cbn. repeat split; try lia. constructor.
  - cbv zeta in *. rewrite (autoGrade_step questions answers a).
    destruct IH as (Hrange & Hsum & Hzero & Hlen).
    unfold Progress.gradeOne.
    destruct (List.find _ questions) as [q|] eqn:Hq.
    + assert (Hq0 : 0 <= question_points q).
      { rewrite Forall_forall in Hpoints. apply Hpoints.
        eapply find_some_elem. exact Hq. }
      cbn [Progress.tally_totalScore Progress.tally_maxScore
           Progress.tally_graded].
      rewrite pointsOf_app, length_app, length_app. cbn [length pointsOf foldr
        graded_points].
      split; [|split; [|split]].
      * destruct (Progress.isObjective q); cbn [andb];
          [destruct (Progress.strictEq _ _)|]; lia.
      * destruct (Progress.isObjective q); cbn [andb];
          [destruct (Progress.strictEq _ _)|]; lia.
      * apply Forall_app. split; [exact Hzero|]. constructor; [|constructor].
        cbn [graded_isCorrect graded_points]. intros ->. reflexivity.
      * lia.
    + rewrite length_app. cbn [length].
      split; [exact Hrange|]. split; [exact Hsum|]. split; [exact Hzero|lia].
Qed.

Lemma autoGrade_bounds_witness :
  Forall (fun q => 0 <= question_points q) Sample.quizQuestions
  /\ (let tally :=
        Progress.autoGrade Sample.quizQuestions
          [Progress.mkAnswer "q1" (Some "B"); Progress.mkAnswer "q2" (Some "x");
           Progress.mkAnswer "q9" None] in
      0 <= Progress.tally_totalScore tally <= Progress.tally_maxScore tally
      /\ Progress.tally_totalScore tally
         = pointsOf (Progress.tally_graded tally)
      /\ Forall (fun g => graded_isCorrect g = false -> graded_points g = 0)
                (Progress.tally_graded tally)
      /\ (length (Progress.tally_graded tally) <= 3)%nat).
Proof.
  assert (Hpoints : Forall (fun q => 0 <= question_points q)
                           Sample.quizQuestions).
  { repeat constructor; vm_compute; discriminate. }
  split; [exact Hpoints|].
  apply (autoGrade_bounds Sample.quizQuestions
           [Progress.mkAnswer "q1" (Some "B"); Progress.mkAnswer "q2" (Some "x");
            Progress.mkAnswer "q9" None]).
  exact Hpoints.
Defined.

Section QuizFacts.
Import Progress.

Lemma started_pair req milestoneId m :
  forPair (req_user req) milestoneId (started req milestoneId m) = true.
Proof.
  apply forPair_true. unfold started. destruct (isTimed m); reflexivity.
Qed.

End QuizFacts.

(** X21.  The clock of a quiz starts with [startMilestone].  A student
    without a record starts a published quiz or exam whose duration is [d]
    minutes, not zero, and later submits answers.  If more than [d] minutes
    have passed between the two requests, the submission is turned down
    with 400 'Time limit exceeded' and the record is left 'failed';
    otherwise the record is not failed and the answer is not that one. *)
Theorem quiz_clock_starts_with_startMilestone start submit milestoneId answers
    db m d :
  findById milestoneId (milestones db) = Some m ->
  Progress.isPublished m = true ->
  Progress.isTimed m = true ->
  milestone_duration m = Some d ->
  d <> 0 ->
  findOne (Progress.forPair (req_user start) milestoneId)
          (studentMilestones db) = None ->
  findById (req_newId start) (studentMilestones db) = None ->
  req_user submit = req_user start ->
  let db1 := fst (Progress.startMilestone start milestoneId db) in
  let '(db2, response) :=
    Progress.submitQuizAnswers submit milestoneId answers db1 in
  exists r,
    findOne (Progress.forPair (req_user start) milestoneId)
            (studentMilestones db2) = Some r
    /\ if d * 60000 <? req_now submit - req_now start
       then response = reject 400 "Time limit exceeded"
            /\ sm_status r = Failed
       else message response <> "Time limit exceeded"
            /\ sm_status r <> Failed.
Proof.
  intros Hm Hpub Htimed Hd Hd0 Hnone Hfresh Huser.
  rewrite (startMilestone_cases start milestoneId db m Hm Hpub).
  rewrite Hnone, Hfresh. cbn [fst].
  set (r0 := started start milestoneId m).
  set (db1 := set_studentMilestones _ db).
  assert (Hr0 : findOne (Progress.forPair (req_user submit) milestoneId)
                        (studentMilestones db1) = Some r0).
  { unfold db1. cbn [studentMilestones set_studentMilestones].
    rewrite Huser. apply find_app_none; [exact Hnone|].
    apply started_pair. }
  rewrite (submitQuizAnswers_cases submit milestoneId answers db1 m r0
             Hm Htimed Hr0).
  assert (Hlate : timedOut (req_now submit) m r0
                  = (d * 60000 <? req_now submit - req_now start)).
  { unfold timedOut, Progress.truthy. rewrite Hd.
    destruct (Z.eqb_spec d 0) as [Hz|_]; [contradiction|].
    unfold r0, started. rewrite Htimed. reflexivity. }
  rewrite Hlate.
  assert (Hstatus0 : sm_status r0 = InProgress).
  { unfold r0, started. rewrite Htimed. reflexivity. }
  assert (Hsave : forall r',
             sm_id r' = sm_id r0 ->
             Progress.forPair (req_user submit) milestoneId r' = true ->
             findOne (Progress.forPair (req_user start) milestoneId)
                     (saveDoc r' (studentMilestones db1)) = Some r').
  { intros r' Hid Hpair. rewrite <- Huser.
    apply findOne_save with (r := r0); assumption. }
  assert (Hpair0 : Progress.forPair (req_user submit) milestoneId r0 = true)
    by (rewrite Huser; apply started_pair).
  rewrite <- Huser.
  destruct (d * 60000 <? req_now submit - req_now start).
  - exists (Progress.set_status Failed r0).
    cbn [studentMilestones set_studentMilestones].
    split; [|split; reflexivity].
    rewrite Huser. apply Hsave; [reflexivity|exact Hpair0].
  - destruct answers as [given|].
    + destruct (Progress.numberPath _ _).
      * exists r0. split; [exact Hr0|].
        split; [discriminate|rewrite Hstatus0; discriminate].
      * exists (gradedRecord (req_now submit) m given r0).
        cbn [studentMilestones set_studentMilestones].
        split; [rewrite Huser; apply Hsave; [reflexivity|exact Hpair0]|].
        split; [|discriminate].
        cbn [message respond]. destruct (milestone_type m); discriminate.
    + exists r0. split; [exact Hr0|].
      split; [discriminate|rewrite Hstatus0; discriminate].
Qed.

Lemma quiz_clock_starts_with_startMilestone_witness :
  findById "milestone2" (milestones Sample.campus) = Some Sample.quiz
  /\ Progress.isPublished Sample.quiz = true
  /\ Progress.isTimed Sample.quiz = true
  /\ milestone_duration Sample.quiz = Some 30
  /\ 30 <> 0
  /\ findOne (Progress.forPair (req_user Sample.student) "milestone2")
             (studentMilestones Sample.campus) = None
  /\ findById (req_newId Sample.student) (studentMilestones Sample.campus)
     = None
  /\ req_user Sample.studentLater = req_user Sample.student
  /\ (let db1 :=
        fst (Progress.startMilestone Sample.student "milestone2"
               Sample.campus) in
      let '(db2, response) :=
        Progress.submitQuizAnswers Sample.studentLater "milestone2"
          (Some [Progress.mkAnswer "q1" (Some "B")]) db1 in
      exists r,
        findOne (Progress.forPair (req_user Sample.student) "milestone2")
                (studentMilestones db2) = Some r
        /\ if 30 * 60000 <? req_now Sample.studentLater - req_now Sample.student
           then response = reject 400 "Time limit exceeded"
                /\ sm_status r = Failed
           else message response <> "Time limit exceeded"
                /\ sm_status r <> Failed).
Proof.
  split; [reflexivity|]. split; [reflexivity|]. split; [reflexivity|].
  split; [reflexivity|]. split; [discriminate|]. split; [reflexivity|].
  split; [reflexivity|]. split; [reflexivity|].
  apply (quiz_clock_starts_with_startMilestone Sample.student
           Sample.studentLater "milestone2"
           (Some [Progress.mkAnswer "q1" (Some "B")]) Sample.campus Sample.quiz
           30);
    [reflexivity|reflexivity|reflexivity|reflexivity|discriminate|reflexivity
    |reflexivity|reflexivity].
Defined.

(** X22.  A failed upload stores no submission, but it can leave a record
    behind.  When a file is attached the upload throws and
    [submitAssignment] answers 500.  If the student had a record, nothing
    is written.  If not, the record that was created before the uploads
    stays in the store, in status 'in-progress' and without a submission. *)
Theorem submitAssignment_failed_upload req milestoneId text files db m :
  findById milestoneId (milestones db) = Some m ->
  milestone_type m = Assignment ->
  default [] files <> [] ->
  findById (req_newId req) (studentMilestones db) = None ->
  let '(db', response) :=
    Progress.submitAssignment req milestoneId text files db in
  code response = 500
  /\ match findOne (Progress.forPair (req_user req) milestoneId)
                   (studentMilestones db) with
     | Some _ => db' = db
     | None =>
         exists r,
           studentMilestones db' = studentMilestones db ++ [r]
           /\ sm_id r = req_newId req
           /\ sm_student r = req_user req
           /\ sm_milestone r = milestoneId
           /\ sm_status r = InProgress
           /\ sm_submissions r = []
     end.
Proof.
  intros Hm Htype Hfiles Hfresh.
  assert (Hassign : Progress.isAssignment m = true).
  { unfold Progress.isAssignment. rewrite Htype. reflexivity. }
  rewrite (submitAssignment_cases req milestoneId text files db m Hm Hassign).
  cbv zeta. rewrite (uploadAll_some _ Hfiles).
  destruct (findOne _ (studentMilestones db)) as [r|].
  - split; reflexivity.
  - rewrite Hfresh. split; [reflexivity|].
    eexists. cbn [studentMilestones set_studentMilestones].
    split; [reflexivity|]. repeat split.
Qed.

Lemma submitAssignment_failed_upload_witness :
  findById "milestone1" (milestones Sample.campus) = Some Sample.report
  /\ milestone_type Sample.report = Assignment
  /\ default [] (Some [Sample.essay]) <> []
  /\ findById (req_newId Sample.student) (studentMilestones Sample.campus)
     = None
  /\ (let '(db', response) :=
        Progress.submitAssignment Sample.student "milestone1"
          (Some "See the attachment") (Some [Sample.essay]) Sample.campus in
      code response = 500
      /\ match findOne (Progress.forPair (req_user Sample.student) "milestone1")
                       (studentMilestones Sample.campus) with
         | Some _ => db' = Sample.campus
         | None =>
             exists r,
               studentMilestones db' = studentMilestones Sample.campus ++ [r]
               /\ sm_id r = req_newId Sample.student
               /\ sm_student r = req_user Sample.student
               /\ sm_milestone r = "milestone1"
               /\ sm_status r = InProgress
               /\ sm_submissions r = []
         end).
Proof.
  split; [reflexivity|]. split; [reflexivity|]. split; [discriminate|].
  split; [reflexivity|].
  apply (submitAssignment_failed_upload Sample.student "milestone1"
           (Some "See the attachment") (Some [Sample.essay]) Sample.campus
           Sample.report);
    [reflexivity|reflexivity|discriminate|reflexivity].
Defined.

Section PendingFacts.
Import Progress Queries.

Lemma insertByLatest_perm r l : insertByLatest r l ≡ₚ r :: l.
Proof.
  induction l as [|x l IH]; [reflexivity|].
  cbn [insertByLatest]. destruct (notAfter _ _); [reflexivity|].
  rewrite IH. apply Permutation_swap.
Qed.

Lemma sortByLatest_perm l : sortByLatest l ≡ₚ l.
Proof.
  unfold sortByLatest. induction l as [|x l IH]; [reflexivity|].
  cbn [foldr]. rewrite insertByLatest_perm, IH. reflexivity.
Qed.

(** The records [getPendingSubmissions] lists. *)
Lemma pending_listed req milestoneId db x :
  (exists listed,
      body (snd (getPendingSubmissions req milestoneId db)) = Some listed
      /\ x ∈ listed)
  <-> x ∈ studentMilestones db /\ pendingFilter milestoneId x = true.
Proof.
  unfold getPendingSubmissions, Handler.tryCatch, Handler.bind, query.
  cbn [Handler.ret snd body respond]. split.
  - intros (listed & [= <-] & Hx). rewrite sortByLatest_perm in Hx.
    unfold findAll in Hx. apply list_elem_of_In, filter_In in Hx as [Hx Hq].
    split; [apply list_elem_of_In; exact Hx|exact Hq].
  - intros [Hx Hq]. eexists. split; [reflexivity|].
    rewrite sortByLatest_perm. unfold findAll.
    apply list_elem_of_In, filter_In. split; [|exact Hq].
    apply list_elem_of_In. exact Hx.
Qed.

(** What a successful [submitAssignment] has gone through. *)
Lemma submitAssignment_stored req milestoneId text files db :
  success (snd (submitAssignment req milestoneId text files db)) = true ->
  exists m uploaded,
    findById milestoneId (milestones db) = Some m
    /\ isAssignment m = true
    /\ uploadAll (default [] files) = inr uploaded
    /\ (findOne (forPair (req_user req) milestoneId) (studentMilestones db)
        = None ->
        findById (req_newId req) (studentMilestones db) = None).
Proof.
  intros Hok.
  destruct (findById milestoneId (milestones db)) as [m|] eqn:Hm.
  2:{ unfold submitAssignment, Handler.tryCatch, Handler.bind, query in Hok.
      rewrite Hm in Hok. discriminate Hok. }
  destruct (isAssignment m) eqn:Hassign.
  2:{ unfold submitAssignment, Handler.tryCatch, Handler.bind, query in Hok.
      rewrite Hm, Hassign in Hok. discriminate Hok. }
  rewrite (submitAssignment_cases req milestoneId text files db m Hm Hassign)
    in Hok.
  cbv zeta in Hok.
  exists m.
  destruct (uploadAll (default [] files)) as [e|uploaded] eqn:Hup.
  - destruct (findOne _ (studentMilestones db)); [discriminate Hok|].
    destruct (findById (req_newId req) (studentMilestones db));
      discriminate Hok.
  - exists uploaded.
    split; [reflexivity|]. split; [exact Hassign|]. split; [reflexivity|].
    intros Hnone. rewrite Hnone in Hok.
    destruct (findById (req_newId req) (studentMilestones db));
      [discriminate Hok|reflexivity].
Qed.

Lemma elem_of_saveDoc_same (r r' : StudentMilestone) c :
  r ∈ c -> sm_id r' = sm_id r -> r' ∈ saveDoc r' c.
Proof.
  intros Hr Hid. unfold saveDoc. apply list_elem_of_fmap.
  exists r. split; [|exact Hr].
  unfold hasId. change (docId r) with (sm_id r).
  change (docId r') with (sm_id r'). rewrite Hid, String.eqb_refl. reflexivity.
Qed.

End PendingFacts.

(** X23.  From submission to grading, as the mentors' list shows it.  Once
    [submitAssignment] has stored a submission, the record is among those
    [getPendingSubmissions] lists, with or without the milestone as filter.
    Once [gradeAssignment] has graded it, with a score or a maximal score
    other than zero, no record with its id is listed any more. *)
Theorem graded_submission_leaves_pending_list req mentor reader
    milestoneId text files score maxScore grade feedback db :
  success (snd (Progress.submitAssignment req milestoneId text files db))
  = true ->
  score <> 0 \/ maxScore <> 0 ->
  let '(db1, submitted) :=
    Progress.submitAssignment req milestoneId text files db in
  exists r,
    body submitted = Some r
    /\ (forall filter,
           filter = None \/ filter = Some milestoneId ->
           exists listed,
             body (snd (Queries.getPendingSubmissions reader filter db1))
               = Some listed
             /\ r ∈ listed)
    /\ let db2 :=
         fst (Progress.gradeAssignment mentor (sm_id r) (Some score)
                (Some maxScore) grade feedback db1) in
       forall filter listed x,
         body (snd (Queries.getPendingSubmissions reader filter db2))
           = Some listed ->
         x ∈ listed ->
         sm_id x <> sm_id r.
Proof.
  intros Hok Hscore.
  destruct (submitAssignment_stored req milestoneId text files db Hok)
    as (m & uploaded & Hm & Hassign & Hup & Hfresh).
  rewrite (submitAssignment_cases req milestoneId text files db m Hm Hassign).
  cbv zeta. rewrite Hup.
  assert (Hgoal : forall r0 before,
             r0 ∈ studentMilestones before ->
             sm_milestone r0 = milestoneId ->
             let r := handedIn uploaded text (req_now req) r0 in
             let db1 :=
               set_studentMilestones (saveDoc r (studentMilestones before))
                                     before in
             (forall filter,
                 filter = None \/ filter = Some milestoneId ->
                 exists listed,
                   body (snd (Queries.getPendingSubmissions reader filter db1))
                     = Some listed
                   /\ r ∈ listed)
             /\ let db2 :=
                  fst (Progress.gradeAssignment mentor (sm_id r) (Some score)
                         (Some maxScore) grade feedback db1) in
                forall filter listed x,
                  body (snd (Queries.getPendingSubmissions reader filter db2))
                    = Some listed ->
                  x ∈ listed ->
                  sm_id x <> sm_id r).
  { intros r0 before Hr0 Hmid r db1.
    assert (Hr : r ∈ studentMilestones db1).
    { unfold db1. cbn [studentMilestones set_studentMilestones].
      apply elem_of_saveDoc_same with (r := r0); [exact Hr0|reflexivity]. }
    split.
    - intros filter Hfilter. apply pending_listed. split; [exact Hr|].
      assert (Hmr : sm_milestone r = milestoneId) by exact Hmid.
      unfold Queries.pendingFilter.
      change (Queries.isSubmitted r) with true. cbn [andb].
      destruct Hfilter as [->| ->]; [reflexivity|].
      rewrite Hmr. destruct milestoneId as [|c rest]; [reflexivity|].
      apply String.eqb_refl.
    - cbv zeta.
      destruct (findById (sm_id r) (studentMilestones db1)) as [stored|]
        eqn:Hstored.
      2:{ exfalso.
          pose proof (find_none_not_in _ _ Hstored r Hr) as Hno.
          unfold hasId in Hno. change (docId r) with (sm_id r) in Hno.
          rewrite String.eqb_refl in Hno. discriminate. }
      rewrite (gradeAssignment_store mentor (sm_id r) (Some score)
                 (Some maxScore) grade feedback db1 stored Hstored).
      assert (Hnan : Progress.isNaN
                       (PercentOf (Js.toNumber (Some score))
                                  (Js.toNumber (Some maxScore))) = false).
      { cbn. destruct Hscore as [Hs|Hs];
          [destruct (Z.eqb_spec score 0); [contradiction|reflexivity]|].
        destruct (Z.eqb_spec maxScore 0); [contradiction|].
        apply andb_false_r. }
      rewrite Hnan.
      intros filter listed x Hbody Hx Hid.
      assert (Hlisted : x ∈ studentMilestones
                              (set_studentMilestones
                                 (saveDoc
                                    (Progress.recordGrade (Some score)
                                       (Some maxScore) grade feedback
                                       (req_user mentor) (req_now mentor)
                                       stored)
                                    (studentMilestones db1)) db1)
                        /\ Queries.pendingFilter filter x = true).
      { apply (pending_listed reader filter). eauto. }
      destruct Hlisted as [Hin Hpending].
      cbn [studentMilestones set_studentMilestones] in Hin.
      assert (Hsid : sm_id stored = sm_id r).
      { apply (hasId_eq (sm_id r) stored).
        eapply find_some_holds. exact Hstored. }
      apply elem_of_saveDoc in Hin as [->|[_ Hne]].
      + unfold Queries.pendingFilter in Hpending. cbn in Hpending.
        discriminate.
      + apply Hne. change (docId x) with (sm_id x).
        cbn [docId student_milestone_document sm_id Progress.recordGrade].
        rewrite Hid, Hsid. reflexivity. }
  destruct (findOne _ (studentMilestones db)) as [r0|] eqn:Hr0.
  - exists (handedIn uploaded text (req_now req) r0).
    split; [reflexivity|].
    apply Hgoal.
    + eapply find_some_elem. exact Hr0.
    + pose proof (find_some_holds _ _ _ Hr0) as Hpair.
      apply forPair_true in Hpair. injection Hpair as _ Hmid. exact Hmid.
  - rewrite (Hfresh eq_refl).
    eexists. split; [reflexivity|].
    apply Hgoal.
    + cbn [studentMilestones set_studentMilestones].
      apply elem_of_app. right. apply list_elem_of_singleton. reflexivity.
    + reflexivity.
Qed.

Lemma graded_submission_leaves_pending_list_witness :
  success (snd (Progress.submitAssignment Sample.student "milestone1"
                  (Some "My report is in the text.") None Sample.campus))
  = true
  /\ (8 <> 0 \/ 10 <> 0)
  /\ (let '(db1, submitted) :=
        Progress.submitAssignment Sample.student "milestone1"
          (Some "My report is in the text.") None Sample.campus in
      exists r,
        body submitted = Some r
        /\ (forall filter,
               filter = None \/ filter = Some "milestone1" ->
               exists listed,
                 body (snd (Queries.getPendingSubmissions Sample.mentor filter
                              db1)) = Some listed
                 /\ r ∈ listed)
        /\ let db2 :=
             fst (Progress.gradeAssignment Sample.mentor (sm_id r) (Some 8)
                    (Some 10) (Some "A") None db1) in
           forall filter listed x,
             body (snd (Queries.getPendingSubmissions Sample.mentor filter db2))
               = Some listed ->
             x ∈ listed ->
             sm_id x <> sm_id r).
Proof.
  split; [reflexivity|]. split; [left; discriminate|].
  apply (graded_submission_leaves_pending_list Sample.student Sample.mentor
           Sample.mentor "milestone1" (Some "My report is in the text.") None
           8 10 (Some "A") None Sample.campus);
    [reflexivity|left; discriminate].
Defined.

(** X24.  A milestone that a student has started is shown to that student
    with the record: after a successful [startMilestone], [getMilestone] by
    the same student answers 200 with the milestone and, as
    [studentProgress], the very record that [startMilestone] returned, and
    writes nothing. *)
Theorem started_milestone_shows_progress req reader milestoneId db :
  success (snd (Progress.startMilestone req milestoneId db)) = true ->
  req_user reader = req_user req ->
  let '(db1, started) := Progress.startMilestone req milestoneId db in
  exists m r,
    body started = Some r
    /\ sm_student r = req_user req
    /\ sm_milestone r = milestoneId
    /\ milestone_id m = milestoneId
    /\ Desk.getMilestone "student" reader milestoneId db1
       = (db1, respond 200 "" (Desk.mkShown m (Some (Some r)))).
Proof.
  intros Hok Huser.
  destruct (startMilestone_success req milestoneId db Hok) as (m & Hm & Hpub).
  assert (Hmid : milestone_id m = milestoneId).
  { apply (hasId_eq milestoneId m). eapply find_some_holds. exact Hm. }
  revert Hok. rewrite (startMilestone_cases req milestoneId db m Hm Hpub).
  assert (Hshow : forall db1 r,
             milestones db1 = milestones db ->
             findOne (Progress.forPair (req_user req) milestoneId)
                     (studentMilestones db1) = Some r ->
             Desk.getMilestone "student" reader milestoneId db1
             = (db1, respond 200 "" (Desk.mkShown m (Some (Some r))))).
  { intros db1 r Hms Hr.
    unfold Desk.getMilestone, Handler.tryCatch, Handler.bind, query.
    rewrite Hms, Hm, Hpub. change (Desk.isStudent "student") with true.
    cbn [orb andb negb]. rewrite Huser, Hr. reflexivity. }
  destruct (findOne _ (studentMilestones db)) as [r|] eqn:Hr.
  - intros _. exists m, r.
    pose proof (find_some_holds _ _ _ Hr) as Hpair.
    apply forPair_true in Hpair. injection Hpair as Hs Hsm.
    split; [reflexivity|]. split; [exact Hs|]. split; [exact Hsm|].
    split; [exact Hmid|]. apply Hshow; [reflexivity|exact Hr].
  - destruct (findById (req_newId req) (studentMilestones db));
      [discriminate|].
    intros _. exists m, (started req milestoneId m).
    pose proof (started_pair req milestoneId m) as Hpair.
    pose proof Hpair as Hkey. apply forPair_true in Hkey.
    injection Hkey as Hs Hsm.
    split; [reflexivity|]. split; [exact Hs|]. split; [exact Hsm|].
    split; [exact Hmid|]. apply Hshow; [reflexivity|].
    cbn [studentMilestones set_studentMilestones].
    apply find_app_none; [exact Hr|exact Hpair].
Qed.

Lemma started_milestone_shows_progress_witness :
  success (snd (Progress.startMilestone Sample.student "milestone2"
                  Sample.campus)) = true
  /\ req_user Sample.studentLater = req_user Sample.student
  /\ (let '(db1, started) :=
        Progress.startMilestone Sample.student "milestone2" Sample.campus in
      exists m r,
        body started = Some r
        /\ sm_student r = req_user Sample.student
        /\ sm_milestone r = "milestone2"
        /\ milestone_id m = "milestone2"
        /\ Desk.getMilestone "student" Sample.studentLater "milestone2" db1
           = (db1, respond 200 "" (Desk.mkShown m (Some (Some r))))).
Proof.
  split; [vm_compute; reflexivity|]. split; [reflexivity|].
  apply (started_milestone_shows_progress Sample.student Sample.studentLater
           "milestone2" Sample.campus);
    [vm_compute; reflexivity|reflexivity].
Defined.

(** ** The schedule-wide distribution *)

Section BulkFacts.
Import Schedules.

Lemma placeTeams_shape tomorrow mentors duration teams : forall c c',
  placeTeams tomorrow mentors duration c teams = inr c' ->
  exists placed,
    cursor_slots c' = cursor_slots c ++ placed
    /\ slot_team <$> placed = (fun team => Some (team_id team)) <$> teams
    /\ Forall (fun slot => slot_status slot = SlotScheduled) placed.
Proof.
  induction teams as [|team teams IH]; intros c c' Hrun.
  - injection Hrun as <-. exists []. rewrite app_nil_r.
    repeat split. constructor.
  - cbn [placeTeams] in Hrun.
    destruct (placeTeam tomorrow mentors duration c team) as [e|c1] eqn:Hstep;
      [discriminate|].
    destruct (IH c1 c' Hrun) as (placed & Hslots & Hteams & Hstatus).
    unfold placeTeam in Hstep.
    destruct (mentors !! _) as [mentor|]; [|discriminate].
    destruct (advance _ _) as [nextDay slotTime].
    injection Hstep as <-. cbn [cursor_slots] in Hslots.
    eexists (_ :: placed). split; [|split].
    + rewrite Hslots, <- app_assoc. reflexivity.
    + cbn [fmap list_fmap slot_team]. f_equal. exact Hteams.
    + constructor; [reflexivity|exact Hstatus].
Qed.

(** What a successful [randomDistributeTeams] computes and stores. *)
Lemma randomDistributeTeams_success tomorrow req id db :
  success (snd (randomDistributeTeams tomorrow req id db)) = true ->
  exists schedule final,
    findById id (examSchedules db) = Some schedule
    /\ teams db <> []
    /\ placeTeams tomorrow (findAll isMentor (users db))
         (exam_duration schedule)
         (mkCursor (exam_startDate schedule) "09:00" 0 []) (teams db)
       = inr final
    /\ randomDistributeTeams tomorrow req id db
       = (let saved :=
            preSave
              (set_status ScheduleActive
                 (set_assignmentType RandomAssignment
                    (set_slots (cursor_slots final)
                       (set_slots [] schedule)))) in
          (set_examSchedules (saveDoc saved (examSchedules db)) db,
           respond 200 "Teams distributed randomly successfully" saved)).
Proof.
  unfold randomDistributeTeams, Handler.tryCatch, Handler.bind, query.
  destruct (findById id (examSchedules db)) as [schedule|] eqn:Hfound;
    [|discriminate].
  destruct (length (findAll isMentor (users db)) =? 0)%nat; [discriminate|].
  destruct (length (teams db) =? 0)%nat eqn:Hteams; [discriminate|].
  destruct (placeTeams _ _ _ _ _) as [e|final] eqn:Hrun; [discriminate|].
  intros _. exists schedule, final.
  split; [reflexivity|]. split.
  - intros Hnil. rewrite Hnil in Hteams. discriminate.
  - split; [exact Hrun|reflexivity].
Qed.

Lemma count_all {A} (p : A -> bool) (l : list A) :
  Forall (fun x => p x = true) l -> count p l = Z.of_nat (length l).
Proof.
  intros Hall. unfold count. f_equal. f_equal.
  induction Hall as [|x l Hx _ IH]; [reflexivity|].
  cbn [List.filter]. rewrite Hx, IH. reflexivity.
Qed.

Lemma count_none {A} (p : A -> bool) (l : list A) :
  Forall (fun x => p x = false) l -> count p l = 0.
Proof.
  intros Hall. unfold count.
  induction Hall as [|x l Hx _ IH]; [reflexivity|].
  cbn [List.filter]. rewrite Hx. exact IH.
Qed.

Lemma preSave_slots s : exam_slots (preSave s) = exam_slots s.
Proof. unfold preSave. destruct (exam_slots s) eqn:Hs; cbn; auto. Qed.

Lemma none_unassigned (ids : list (option ObjectId)) (l : list Team) :
  (forall team, team ∈ l -> Some (team_id team) ∈ ids) ->
  List.filter (Queries.notIn ids) l = [].
Proof.
  induction l as [|team l IH]; intros Hall; [reflexivity|].
  cbn [List.filter].
  assert (Hheld : Queries.notIn ids team = false).
  { unfold Queries.notIn. apply negb_false_iff, existsb_exists.
    exists (Some (team_id team)). split.
    - apply list_elem_of_In, Hall. left.
    - apply String.eqb_refl. }
  rewrite Hheld. apply IH. intros t Ht. apply Hall. right. exact Ht.
Qed.

End BulkFacts.

(** X25.  After a successful [randomDistributeTeams], whatever the local
    calendar of the server is, every team has a slot: the statistics of the stored schedule count one scheduled slot per
    team, none completed and none pending, and [getAvailableResources]
    then reports no unassigned team and as many assignments as teams. *)
Theorem randomDistributeTeams_assigns_every_team tomorrow req reader id db :
  success (snd (Schedules.randomDistributeTeams tomorrow req id db)) = true ->
  let '(db1, response) := Schedules.randomDistributeTeams tomorrow req id db in
  let teamCount := length (teams db) in
  exists saved resources,
    body response = Some saved
    /\ findById id (examSchedules db1) = Some saved
    /\ exam_statistics saved
       = mkStatistics (Z.of_nat teamCount) (Z.of_nat teamCount) 0 0
    /\ body (snd (Queries.getAvailableResources reader id db1))
       = Some resources
    /\ Queries.resources_unassignedTeams resources = []
    /\ Queries.resources_assignedCount resources = teamCount
    /\ Queries.resources_totalTeams resources = teamCount.
Proof.
  intros Hok.
  destruct (randomDistributeTeams_success tomorrow req id db Hok)
    as (schedule & final & Hfound & Hteams & Hrun & ->).
  assert (Hid : exam_id schedule = id).
  { apply (hasId_eq id schedule). eapply find_some_holds. exact Hfound. }
  destruct (placeTeams_shape _ _ _ _ _ _ Hrun)
    as (placed & Hslots & Hheld & Hstatus).
  cbn [Schedules.cursor_slots app] in Hslots.
  cbv zeta.
  set (stored := Schedules.set_status ScheduleActive _).
  assert (Hstored : exam_slots stored = placed) by exact Hslots.
  assert (Hlen : length placed = length (teams db)).
  { rewrite <- (length_fmap slot_team), Hheld. apply length_fmap. }
  assert (Hkeep : exam_slots (Schedules.preSave stored) = placed)
    by (rewrite preSave_slots; exact Hstored).
  assert (Hstats : exam_statistics (Schedules.preSave stored)
                   = mkStatistics (Z.of_nat (length (teams db)))
                       (Z.of_nat (length (teams db))) 0 0).
  { unfold Schedules.preSave. rewrite Hstored.
    destruct placed as [|slot rest] eqn:Hplaced.
    - destruct (teams db); [contradiction|discriminate Hlen].
    - cbn [exam_statistics Schedules.set_statistics]. rewrite <- Hlen.
      f_equal.
      + apply count_all. eapply Forall_impl; [exact Hstatus|].
        intros x ->. reflexivity.
      + apply count_none. eapply Forall_impl; [exact Hstatus|].
        intros x ->. reflexivity.
      + apply count_none. apply Forall_forall. intros x Hx.
        assert (Hx' : slot_team x ∈ slot_team <$> (slot :: rest))
          by (apply list_elem_of_fmap_2; exact Hx).
        rewrite Hheld in Hx'.
        apply list_elem_of_fmap in Hx' as (team & -> & _). reflexivity. }
  assert (Hsaved : findById id
                     (saveDoc (Schedules.preSave stored) (examSchedules db))
                   = Some (Schedules.preSave stored)).
  { eapply preSave_saved; [exact Hfound|exact Hid]. }
  eexists. eexists.
  split; [reflexivity|]. split; [exact Hsaved|]. split; [exact Hstats|].
  unfold Queries.getAvailableResources, Handler.tryCatch, Handler.bind, query.
  cbn [examSchedules set_examSchedules users teams].
  rewrite Hsaved. cbn [Handler.ret snd body respond].
  split; [reflexivity|].
  cbn [Queries.resources_unassignedTeams Queries.resources_assignedCount
       Queries.resources_totalTeams].
  rewrite Hkeep, Hheld, length_fmap. split; [|split; reflexivity].
  apply none_unassigned. intros team Hteam.
  apply (list_elem_of_fmap_2 (fun team => Some (team_id team))). exact Hteam.
Qed.

Lemma randomDistributeTeams_assigns_every_team_witness :
  success (snd (Schedules.randomDistributeTeams Sample.utc Sample.admin "exam1"
                  Sample.examDay)) = true
  /\ (let '(db1, response) :=
        Schedules.randomDistributeTeams Sample.utc Sample.admin "exam1"
                                        Sample.examDay in
      let teamCount := length (teams Sample.examDay) in
      exists saved resources,
        body response = Some saved
        /\ findById "exam1" (examSchedules db1) = Some saved
        /\ exam_statistics saved
           = mkStatistics (Z.of_nat teamCount) (Z.of_nat teamCount) 0 0
        /\ body (snd (Queries.getAvailableResources Sample.mentor "exam1" db1))
           = Some resources
        /\ Queries.resources_unassignedTeams resources = []
        /\ Queries.resources_assignedCount resources = teamCount
        /\ Queries.resources_totalTeams resources = teamCount).
Proof.
  split; [vm_compute; reflexivity|].
  apply (randomDistributeTeams_assigns_every_team Sample.utc Sample.admin
           Sample.mentor "exam1" Sample.examDay).
  vm_compute. reflexivity.
Defined.

